(** * Habit-Tracker: a shallow embedding of [project.py] and its properties

    The program keeps one dictionary, [self.habits], with two entries:
    ["habits"] (habit id -> habit record) and ["completions"] (habit id ->
    list of ISO-8601 date texts).  Every mutating method rewrites the JSON
    file in full.  The embedding follows the methods of [HabitTracker] one
    by one, in a state monad in which an exception leaves the changes made
    before it in place, as in Python.

    What the model fixes:
    - the system clock ([datetime.now()]) is an explicit argument of every
      method that reads it;
    - a [date] is its ordinal; the texts in the store are the ISO texts the
      program writes, and [fromisoformat] reads the layout [YYYY-MM-DD];
    - date arithmetic is that of the ordinals: the [OverflowError] Python
      raises when a day is taken from 0001-01-01 or added past 9999-12-31
      is not modelled, and the properties that depend on it state the range
      of the clock as a hypothesis;
    - true division returns an exact rational where Python returns a float,
      and raises [ZeroDivisionError] on a zero divisor;
    - the file is kept as the tree of the JSON document, object members in
      the order written and with repeated names if any;
    - [print] appends a message to the output, one constructor per line
      that carries data; the menu loop runs on the list of choices typed.

    Layout: all definitions come first (Part I), then the lemmas: the
    properties of the specification (Part II) and further properties of the
    code (Part III). *)

From Stdlib Require Import ZArith Bool List String Ascii Lia.
From Stdlib Require Import DecimalString Permutation Sorted.
From Stdlib Require Import QArith Qround.
Import ListNotations.

Set Implicit Arguments.
Unset Strict Implicit.

Local Open Scope string_scope.
Local Open Scope Z_scope.

(* ===================================================================== *)
(** * Part I.  Definitions                                                *)
(* ===================================================================== *)

(* --------------------------------------------------------------------- *)
(** ** Exceptions and fallible results *)

(** The exceptions the modelled code can raise. *)
Inductive exn : Type :=
| KeyError
| ValueError
| ZeroDivisionError.

(** Outcome of a fallible computation: a value, or a raised exception. *)
Inductive result (A : Type) : Type :=
| Ok (a : A)
| Raise (e : exn).

Arguments Ok {A} a.
Arguments Raise {A} e.

Definition rbind {A B : Type} (r : result A) (k : A -> result B) : result B :=
  match r with
  | Ok a => k a
  | Raise e => Raise e
  end.

Declare Scope result_scope.
Delimit Scope result_scope with result.
Notation "x <- r ;; k" := (rbind r (fun x => k))
  (at level 61, r at next level, right associativity) : result_scope.
Notation "' p <- r ;; k" := (rbind r (fun x => let p := x in k))
  (at level 61, p pattern, r at next level, right associativity) : result_scope.

(* --------------------------------------------------------------------- *)
(** ** Calendar: [datetime.date]

    A [date] object is represented by its proleptic Gregorian ordinal
    ([date.toordinal()], 0001-01-01 is day 1).  Two dates are equal exactly
    when their ordinals are, [d - timedelta(days=k)] is [d - k], and
    [(a - b).days] is [a - b].  The range check of date arithmetic
    ([OverflowError] below 0001-01-01 and above 9999-12-31) is left out: the
    clock is never at an end of the calendar.  The civil (year, month, day)
    view is needed only to read and write the ISO text; the conversions
    below follow CPython's [_ymd2ord] and [_ord2ymd]. *)

Module Calendar.

Definition date : Type := Z.

Definition MINYEAR : Z := 1.
Definition MAXYEAR : Z := 9999.

Definition is_leap (year : Z) : bool :=
  (year mod 4 =? 0) && (negb (year mod 100 =? 0) || (year mod 400 =? 0)).

Definition DAYS_IN_MONTH (month : Z) : Z :=
  match month with
  | 1 => 31 | 2 => 28 | 3 => 31 | 4 => 30 | 5 => 31 | 6 => 30
  | 7 => 31 | 8 => 31 | 9 => 30 | 10 => 31 | 11 => 30 | 12 => 31
  | _ => -1
  end.

Definition DAYS_BEFORE_MONTH (month : Z) : Z :=
  match month with
  | 1 => 0 | 2 => 31 | 3 => 59 | 4 => 90 | 5 => 120 | 6 => 151
  | 7 => 181 | 8 => 212 | 9 => 243 | 10 => 273 | 11 => 304 | 12 => 334
  | _ => -1
  end.

Definition days_before_year (year : Z) : Z :=
  let y := year - 1 in
  y * 365 + y / 4 - y / 100 + y / 400.

Definition days_in_month (year month : Z) : Z :=
  if (month =? 2) && is_leap year then 29 else DAYS_IN_MONTH month.

Definition days_before_month (year month : Z) : Z :=
  DAYS_BEFORE_MONTH month + (if (2 <? month) && is_leap year then 1 else 0).

Definition ymd2ord (year month day : Z) : date :=
  days_before_year year + days_before_month year month + day.

(** The checks of the [date(year, month, day)] constructor. *)
Definition valid_ymd (year month day : Z) : bool :=
  (MINYEAR <=? year) && (year <=? MAXYEAR) &&
  (1 <=? month) && (month <=? 12) &&
  (1 <=? day) && (day <=? days_in_month year month).

(** The number [YYYYMMDD], which orders the fields as the text does. *)
Definition ymd_key (year month day : Z) : Z :=
  year * 10000 + month * 100 + day.

Definition DI400Y : Z := 146097.
Definition DI100Y : Z := 36524.
Definition DI4Y : Z := 1461.

(** [_ord2ymd]: ordinal to (year, month, day). *)
Definition ord2ymd (ordinal : date) : Z * Z * Z :=
  let n := ordinal - 1 in
  let n400 := n / DI400Y in let n := n mod DI400Y in
  let year := n400 * 400 + 1 in
  let n100 := n / DI100Y in let n := n mod DI100Y in
  let n4 := n / DI4Y in let n := n mod DI4Y in
  let n1 := n / 365 in let n := n mod 365 in
  let year := year + n100 * 100 + n4 * 4 + n1 in
  if (n1 =? 4) || (n100 =? 4) then (year - 1, 12, 31)
  else
    let leapyear := (n1 =? 3) && (negb (n4 =? 24) || (n100 =? 3)) in
    let month := Z.shiftr (n + 50) 5 in
    let preceding :=
      DAYS_BEFORE_MONTH month + (if (2 <? month) && leapyear then 1 else 0) in
    if n <? preceding then
      let month := month - 1 in
      let preceding :=
        preceding
        - (DAYS_IN_MONTH month + (if (month =? 2) && leapyear then 1 else 0)) in
      (year, month, n - preceding + 1)
    else (year, month, n - preceding + 1).

(** [date.max.toordinal()]: the ordinal of 9999-12-31. *)
Definition MAXORDINAL : Z := 3652059.

(** [date.weekday()]: Monday is 0. *)
Definition weekday (d : date) : Z := (d + 6) mod 7.

(** *** ISO-8601 text *)

Definition digit_of_ascii (c : ascii) : option Z :=
  let n := Z.of_N (N_of_ascii c) in
  if (48 <=? n) && (n <=? 57) then Some (n - 48) else None.

Definition ascii_of_digit (d : Z) : ascii :=
  ascii_of_N (Z.to_N (48 + d mod 10)).

(** ["%02d"] and ["%04d"] for the values a date can hold. *)
Definition pad2 (n : Z) (tl : string) : string :=
  String (ascii_of_digit (n / 10)) (String (ascii_of_digit n) tl).

Definition pad4 (n : Z) (tl : string) : string :=
  pad2 (n / 100) (pad2 (n mod 100) tl).

Definition dash : ascii := "-"%char.

(** [date.isoformat()]: ["%04d-%02d-%02d"]. *)
Definition isoformat (d : date) : string :=
  let '(y, m, dd) := ord2ymd d in
  pad4 y (String dash (pad2 m (String dash (pad2 dd EmptyString)))).

Definition num2 (a b : ascii) : option Z :=
  match digit_of_ascii a, digit_of_ascii b with
  | Some x, Some y => Some (10 * x + y)
  | _, _ => None
  end.

Definition num4 (a b c d : ascii) : option Z :=
  match num2 a b, num2 c d with
  | Some x, Some y => Some (100 * x + y)
  | _, _ => None
  end.

(** The fields of a text of the layout [YYYY-MM-DD], if it has that layout. *)
Definition parse_ymd (s : string) : option (Z * Z * Z) :=
  match s with
  | String y1 (String y2 (String y3 (String y4 (String s1
      (String m1 (String m2 (String s2
        (String d1 (String d2 EmptyString))))))))) =>
      if (Ascii.eqb s1 dash && Ascii.eqb s2 dash)%bool then
        match num4 y1 y2 y3 y4, num2 m1 m2, num2 d1 d2 with
        | Some y, Some m, Some d => Some (y, m, d)
        | _, _, _ => None
        end
      else None
  | _ => None
  end.

(** [datetime.fromisoformat(s).date()] on the layout [YYYY-MM-DD], the only
    one the program writes.  Any other text counts as malformed here and
    raises [ValueError], as does a date that does not exist. *)
Definition fromisoformat (s : string) : result date :=
  match parse_ymd s with
  | Some (y, m, d) =>
      if valid_ymd y m d then Ok (ymd2ord y m d) else Raise ValueError
  | None => Raise ValueError
  end.

(** A reading of [datetime.now()]: the date and the text of the time of day. *)
Record datetime : Type := mkDatetime {
  dt_date : date;
  dt_time : string
}.

(** [datetime.isoformat()]. *)
Definition datetime_isoformat (now : datetime) : string :=
  isoformat (dt_date now) ++ "T" ++ dt_time now.

End Calendar.

(* --------------------------------------------------------------------- *)
(** ** Dictionaries

    A Python [dict] keeps its items in insertion order and finds a key by
    [==].  It is an association list in which no key occurs twice; an
    assignment to a present key replaces the value in place, to an absent
    key appends the item. *)

Class Hashable (K : Type) : Type := key_eqb : K -> K -> bool.

(** The keys in use compare by structural equality. *)
Class LawfulHashable (K : Type) `{Hashable K} : Prop :=
  key_eqb_eq : forall a b : K, key_eqb a b = true <-> a = b.

Arguments LawfulHashable K {_}.

Section Dict.

Context {K V : Type} `{Hashable K}.

Definition dict : Type := list (K * V).

(** [d.get(k)]. *)
Fixpoint dict_get (k : K) (d : dict) : option V :=
  match d with
  | [] => None
  | (k', v) :: d' => if key_eqb k k' then Some v else dict_get k d'
  end.

(** [k in d]. *)
Definition dict_mem (k : K) (d : dict) : bool :=
  match dict_get k d with
  | Some _ => true
  | None => false
  end.

(** [d[k]]. *)
Definition dict_getitem (k : K) (d : dict) : result V :=
  match dict_get k d with
  | Some v => Ok v
  | None => Raise KeyError
  end.

(** [d[k] = v]. *)
Fixpoint dict_set (k : K) (v : V) (d : dict) : dict :=
  match d with
  | [] => [(k, v)]
  | (k', v') :: d' =>
      if key_eqb k k' then (k', v) :: d' else (k', v') :: dict_set k v d'
  end.

(** The items left by [del d[k]]. *)
Fixpoint dict_remove (k : K) (d : dict) : dict :=
  match d with
  | [] => []
  | (k', v') :: d' =>
      if key_eqb k k' then d' else (k', v') :: dict_remove k d'
  end.

(** [del d[k]]. *)
Definition dict_del (k : K) (d : dict) : result dict :=
  if dict_mem k d then Ok (dict_remove k d) else Raise KeyError.

Definition dict_keys (d : dict) : list K := map fst d.

Definition dict_values (d : dict) : list V := map snd d.

(** [len(d)]. *)
Definition len (d : dict) : Z := Z.of_nat (List.length d).

End Dict.

Arguments dict K V : clear implicits.

(** [x in xs] for a list. *)
Definition list_mem {K : Type} `{Hashable K} (x : K) (xs : list K) : bool :=
  existsb (key_eqb x) xs.

#[export] Instance string_Hashable : Hashable string := String.eqb.

(* --------------------------------------------------------------------- *)
(** ** Habit identifiers

    [add_habit] keys a new habit by the integer [len + 1]; the keys read
    back by [json.load] and the ids typed at the menu are texts.  A Python
    [int] never equals a [str], so the two kinds of key are kept apart. *)

Inductive Key : Type :=
| KInt (n : Z)
| KStr (s : string).

Definition Key_eqb (a b : Key) : bool :=
  match a, b with
  | KInt n, KInt m => n =? m
  | KStr s, KStr t => String.eqb s t
  | _, _ => false
  end.

#[export] Instance Key_Hashable : Hashable Key := Key_eqb.

(** [str(n)] for an integer. *)
Definition str_of_int (n : Z) : string := NilZero.string_of_int (Z.to_int n).

(* --------------------------------------------------------------------- *)
(** ** JSON documents

    The file holds what [json.dump] writes.  A document is kept as its
    syntax tree: the members of an object stay in the order written, and a
    name may occur twice (two keys of a [dict] can have the same text). *)

#[warnings="-register-all"]
Inductive json : Type :=
| JNull
| JNum (n : Z)
| JStr (s : string)
| JArr (items : list json)
| JObj (members : list (string * json)).

(** The [dict] that [json.load] builds from the members of an object: the
    members are inserted one after the other, so the last value written
    under a name is the one kept. *)
Definition dict_of_members {V : Type} (members : list (string * V))
  : dict string V :=
  fold_left (fun d kv => dict_set (fst kv) (snd kv) d) members [].

(** All the items of a list decode, or none does. *)
Fixpoint traverse {A B : Type} (f : A -> option B) (l : list A)
  : option (list B) :=
  match l with
  | [] => Some []
  | x :: l' =>
      match f x, traverse f l' with
      | Some y, Some ys => Some (y :: ys)
      | _, _ => None
      end
  end.

(* --------------------------------------------------------------------- *)
(** ** The store *)

(** One habit record, with the seven fields [add_habit] writes. *)
Record Habit : Type := mkHabit {
  name : string;
  category : string;
  frequency : string;
  goal : option string;
  created_date : string;
  current_streak : Z;
  longest_streak : Z
}.

(** [self.habits]: the habit collection and the completion log. *)
Record Store : Type := mkStore {
  st_habits : dict Key Habit;
  st_completions : dict Key (list string)
}.

(** [{"habits": {}, "completions": {}}]. *)
Definition empty_store : Store := mkStore [] [].

(** What [json.dump] writes for a key: the text itself, or [str(n)]. *)
Definition dump_key (k : Key) : string :=
  match k with
  | KInt n => str_of_int n
  | KStr s => s
  end.

Definition dump_goal (g : option string) : json :=
  match g with
  | None => JNull
  | Some s => JStr s
  end.

Definition dump_habit (h : Habit) : json :=
  JObj [ ("name", JStr (name h));
         ("category", JStr (category h));
         ("frequency", JStr (frequency h));
         ("goal", dump_goal (goal h));
         ("created_date", JStr (created_date h));
         ("current_streak", JNum (current_streak h));
         ("longest_streak", JNum (longest_streak h)) ].

Definition dump_dates (dates : list string) : json := JArr (map JStr dates).

Definition dump_dict {V : Type} (f : V -> json) (d : dict Key V) : json :=
  JObj (map (fun kv => (dump_key (fst kv), f (snd kv))) d).

(** [json.dump(self.habits, f)]. *)
Definition dump (s : Store) : json :=
  JObj [ ("habits", dump_dict dump_habit (st_habits s));
         ("completions", dump_dict dump_dates (st_completions s)) ].

Definition load_str (j : json) : option string :=
  match j with
  | JStr s => Some s
  | _ => None
  end.

Definition load_num (j : json) : option Z :=
  match j with
  | JNum n => Some n
  | _ => None
  end.

Definition load_goal (j : json) : option (option string) :=
  match j with
  | JNull => Some None
  | JStr s => Some (Some s)
  | _ => None
  end.

Definition field {A : Type} (d : dict string json) (k : string)
    (f : json -> option A) : option A :=
  match dict_get k d with
  | Some j => f j
  | None => None
  end.

Definition load_habit (j : json) : option Habit :=
  match j with
  | JObj members =>
      let d := dict_of_members members in
      match field d "name" load_str, field d "category" load_str,
            field d "frequency" load_str, field d "goal" load_goal,
            field d "created_date" load_str,
            field d "current_streak" load_num,
            field d "longest_streak" load_num with
      | Some n, Some c, Some f, Some g, Some cd, Some cs, Some ls =>
          Some (mkHabit n c f g cd cs ls)
      | _, _, _, _, _, _, _ => None
      end
  | _ => None
  end.

Definition load_dates (j : json) : option (list string) :=
  match j with
  | JArr items => traverse load_str items
  | _ => None
  end.

(** An object read back as a [dict]: every key is a text. *)
Definition load_dict {V : Type} (f : json -> option V) (j : json)
  : option (dict Key V) :=
  match j with
  | JObj members =>
      match traverse (fun kv => option_map (pair (fst kv)) (f (snd kv)))
                     members with
      | Some kvs =>
          Some (map (fun kv => (KStr (fst kv), snd kv)) (dict_of_members kvs))
      | None => None
      end
  | _ => None
  end.

(** [json.load(f)], read as a store.  A document that does not have the
    shape of a store is outside the model ([None]). *)
Definition load (j : json) : option Store :=
  match j with
  | JObj members =>
      let d := dict_of_members members in
      match field d "habits" (load_dict load_habit),
            field d "completions" (load_dict load_dates) with
      | Some hs, Some cs => Some (mkStore hs cs)
      | _, _ => None
      end
  | _ => None
  end.

(* --------------------------------------------------------------------- *)
(** ** The streak engine: the body of [update_streaks] *)

Import Calendar.

(** [sorted(completions)] on texts: Python orders [str] by code point, which
    on the bytes of the text is [String.leb].  Equal texts cannot be told
    apart, so any sorting algorithm returns the same list. *)
Fixpoint insert_sorted (x : string) (l : list string) : list string :=
  match l with
  | [] => [x]
  | y :: l' => if String.leb x y then x :: l else y :: insert_sorted x l'
  end.

Fixpoint sorted (l : list string) : list string :=
  match l with
  | [] => []
  | x :: l' => insert_sorted x (sorted l')
  end.

Local Open Scope result_scope.

(** The loop [for i in range(len(completions)-1, -1, -1)]: it runs over the
    sorted texts from the newest to the oldest, and stops at the first date
    that is neither [prev_date] nor the day before it. *)
Fixpoint current_streak_loop (newest_first : list string) (prev_date : date)
    (current_streak : Z) : result Z :=
  match newest_first with
  | [] => Ok current_streak
  | c :: older =>
      comp_date <- fromisoformat c ;;
      if (comp_date =? prev_date) || (comp_date =? prev_date - 1) then
        current_streak_loop older comp_date (current_streak + 1)
      else Ok current_streak
  end.

(** The loop [for i in range(1, len(completions))]: [previous_text] is
    [completions[i-1]], the head of [rest] is [completions[i]].  It returns
    [longest_streak] and [temp_streak] as they stand after the loop. *)
Fixpoint longest_streak_loop (previous_text : string) (rest : list string)
    (longest_streak temp_streak : Z) : result (Z * Z) :=
  match rest with
  | [] => Ok (longest_streak, temp_streak)
  | c :: rest' =>
      current <- fromisoformat c ;;
      previous <- fromisoformat previous_text ;;
      if current - previous =? 1 then
        longest_streak_loop c rest' longest_streak (temp_streak + 1)
      else
        longest_streak_loop c rest' (Z.max longest_streak temp_streak) 1
  end.

(** Lines 69-99 of [update_streaks]: the pair
    [(current_streak, longest_streak)] for one completion list. *)
Definition compute_streaks (completions : list string) (current_date : date)
  : result (Z * Z) :=
  let completions := sorted completions in
  match completions with
  | [] => Ok (0, 0)
  | first :: rest =>
      current_streak <-
        current_streak_loop (rev completions) current_date 0 ;;
      ' (longest_streak, temp_streak) <-
        longest_streak_loop first rest 0 1 ;;
      Ok (current_streak, Z.max longest_streak temp_streak)
  end.

(** [a / b] on integers: true division, which raises on a zero divisor.
    The quotient is kept as an exact rational. *)
Definition truediv (a b : Z) : result Q :=
  if b =? 0 then Raise ZeroDivisionError else Ok (inject_Z a / inject_Z b)%Q.

(** [int(q)]: truncation towards zero. *)
Definition int_of_Q (q : Q) : Z :=
  if Qle_bool 0 q then Qfloor q else Qceiling q.

(* --------------------------------------------------------------------- *)
(** ** The tracker object *)

(** What the program prints, one constructor per message that carries
    information.  Banners, rulers and the menu are left out. *)
Inductive Msg : Type :=
| MsgAdded (habit_name : string)
| MsgAlreadyCompleted
| MsgMarked (habit_name : string)
| MsgDeleted (habit_name : string)
| MsgNotFound
| MsgInvalidId
| MsgInvalidChoice
| MsgGoodbye
| MsgHabit (done : bool) (h : Habit)
| MsgDay (day : date) (bar : Z) (completed total : Z) (percentage : Q)
| MsgWeek (week_percentage : Q) (week_completed week_possible : Z)
| MsgCategory (cat : string) (completed total : Z)
              (completion_rate avg_streak : Q) (best_streak : Z).

(** The tracker and what surrounds it: [self.habits], the contents of the
    file [self.data_file] ([None] while the file does not exist), and the
    messages printed so far. *)
Record HabitTracker : Type := mkTracker {
  habits : Store;
  data_file : option json;
  stdout : list Msg
}.

(** A method: it may change the tracker and then return or raise.  What it
    changed before raising stays changed. *)
Definition M (A : Type) : Type := HabitTracker -> result A * HabitTracker.

Definition ret {A : Type} (a : A) : M A := fun t => (Ok a, t).

Definition bind {A B : Type} (m : M A) (k : A -> M B) : M B :=
  fun t =>
    match m t with
    | (Ok a, t') => k a t'
    | (Raise e, t') => (Raise e, t')
    end.

Declare Scope method_scope.
Delimit Scope method_scope with method.
Notation "x <- m ;; k" := (bind m (fun x => k))
  (at level 61, m at next level, right associativity) : method_scope.
Notation "m ;; k" := (bind m (fun _ => k))
  (at level 61, right associativity) : method_scope.

Local Open Scope method_scope.

(** A fallible expression evaluated inside a method. *)
Definition lift {A : Type} (r : result A) : M A := fun t => (r, t).

(** [try: body / except: handler]. *)
Definition try_except {A : Type} (body handler : M A) : M A :=
  fun t =>
    match body t with
    | (Ok a, t') => (Ok a, t')
    | (Raise _, t') => handler t'
    end.

Definition get_habits : M (dict Key Habit) :=
  fun t => (Ok (st_habits (habits t)), t).

Definition get_completions : M (dict Key (list string)) :=
  fun t => (Ok (st_completions (habits t)), t).

Definition put_habits (hs : dict Key Habit) : M unit :=
  fun t =>
    (Ok tt, mkTracker (mkStore hs (st_completions (habits t)))
                      (data_file t) (stdout t)).

Definition put_completions (cs : dict Key (list string)) : M unit :=
  fun t =>
    (Ok tt, mkTracker (mkStore (st_habits (habits t)) cs)
                      (data_file t) (stdout t)).

Definition print (m : Msg) : M unit :=
  fun t => (Ok tt, mkTracker (habits t) (data_file t) (stdout t ++ [m])).

Definition when (b : bool) (m : M unit) : M unit := if b then m else ret tt.

Fixpoint for_each {A : Type} (l : list A) (body : A -> M unit) : M unit :=
  match l with
  | [] => ret tt
  | x :: l' => body x ;; for_each l' body
  end.

(** [load_data]: the store in the file, or the empty store when there is
    no file. *)
Definition load_data : M Store :=
  fun t =>
    match data_file t with
    | Some j =>
        match load j with
        | Some s => (Ok s, t)
        | None => (Raise ValueError, t)
        end
    | None => (Ok empty_store, t)
    end.

(** [save_data]: the file is rewritten with the whole store. *)
Definition save_data : M unit :=
  fun t => (Ok tt, mkTracker (habits t) (Some (dump (habits t))) (stdout t)).

(** [HabitTracker(data_file)]: the constructor, on a given file state. *)
Definition init (file : option json) : result HabitTracker :=
  match load_data (mkTracker empty_store file []) with
  | (Ok s, t) => Ok (mkTracker s (data_file t) (stdout t))
  | (Raise e, _) => Raise e
  end.

(** [add_habit(name, category, frequency, goal)]. *)
Definition add_habit (now : datetime) (name category frequency : string)
    (goal : option string) : M Key :=
  hs <- get_habits ;;
  let habit_id := KInt (len hs + 1) in
  put_habits
    (dict_set habit_id
       (mkHabit name category frequency goal (datetime_isoformat now) 0 0)
       hs) ;;
  cs <- get_completions ;;
  when (negb (dict_mem habit_id cs)) (put_completions (dict_set habit_id [] cs)) ;;
  save_data ;;
  print (MsgAdded name) ;;
  ret habit_id.

(** [update_streaks(habit_id)]. *)
Definition update_streaks (now : datetime) (habit_id : Key) : M unit :=
  cs <- get_completions ;;
  completions <- lift (dict_getitem habit_id cs) ;;
  streaks <- lift (compute_streaks completions (dt_date now)) ;;
  hs <- get_habits ;;
  h <- lift (dict_getitem habit_id hs) ;;
  put_habits
    (dict_set habit_id
       (mkHabit (name h) (category h) (frequency h) (goal h) (created_date h)
                (fst streaks) (longest_streak h))
       hs) ;;
  hs <- get_habits ;;
  h <- lift (dict_getitem habit_id hs) ;;
  put_habits
    (dict_set habit_id
       (mkHabit (name h) (category h) (frequency h) (goal h) (created_date h)
                (current_streak h) (snd streaks))
       hs).

(** [mark_complete(habit_id)]; the result is the returned [bool]. *)
Definition mark_complete (now : datetime) (habit_id : Key) : M bool :=
  let today := isoformat (dt_date now) in
  cs <- get_completions ;;
  when (negb (dict_mem habit_id cs)) (put_completions (dict_set habit_id [] cs)) ;;
  cs <- get_completions ;;
  completions <- lift (dict_getitem habit_id cs) ;;
  if list_mem today completions then
    print MsgAlreadyCompleted ;;
    ret false
  else
    put_completions (dict_set habit_id (completions ++ [today])%list cs) ;;
    update_streaks now habit_id ;;
    save_data ;;
    hs <- get_habits ;;
    h <- lift (dict_getitem habit_id hs) ;;
    print (MsgMarked (name h)) ;;
    ret true.

(** [get_today_completions()]. *)
Definition get_today_completions (now : datetime) : M (list Key) :=
  let today := isoformat (dt_date now) in
  cs <- get_completions ;;
  ret (map fst (filter (fun kv => list_mem today (snd kv)) cs)).

(** [delete_habit(habit_id)]. *)
Definition delete_habit (habit_id : Key) : M unit :=
  hs <- get_habits ;;
  if dict_mem habit_id hs then
    h <- lift (dict_getitem habit_id hs) ;;
    hs' <- lift (dict_del habit_id hs) ;;
    put_habits hs' ;;
    cs <- get_completions ;;
    cs' <- lift (dict_del habit_id cs) ;;
    put_completions cs' ;;
    save_data ;;
    print (MsgDeleted (name h))
  else
    print MsgNotFound.

(** [view_habits(filter_category)]: one message per habit shown. *)
Definition view_habits (now : datetime) (filter_category : option string)
  : M unit :=
  today_completions <- get_today_completions now ;;
  hs <- get_habits ;;
  for_each hs (fun kv =>
    let '(habit_id, habit) := kv in
    let skip :=
      match filter_category with
      | Some c => negb (String.eqb c "") && negb (String.eqb (category habit) c)
      | None => false
      end in
    if skip then ret tt
    else print (MsgHabit (list_mem habit_id today_completions) habit)).

(** [sum(l)]. *)
Definition sum (l : list Z) : Z := fold_left Z.add l 0.

(** [max(l)] for a list that is not empty. *)
Definition max_list (l : list Z) : Z :=
  match l with
  | [] => 0
  | x :: l' => fold_left Z.max l' x
  end.

(** [(completed / total) * 100 if total > 0 else 0]. *)
Definition percentage_of (completed total : Z) : result Q :=
  if 0 <? total then
    (q <- truediv completed total ;; Ok (q * 100)%Q)%result
  else Ok 0%Q.

(** The seven dates [week_start + timedelta(days=i)]. *)
Definition week_dates_of (today : date) : list date :=
  let week_start := today - weekday today in
  map (fun i => week_start + i) [0; 1; 2; 3; 4; 5; 6].

(** The inner loop of the weekly report: how many completion lists hold
    the text of [day]. *)
Definition day_completions_of (cs : dict Key (list string)) (day : date) : Z :=
  let date_str := isoformat day in
  fold_left (fun n completions =>
               if list_mem date_str completions then n + 1 else n)
            (dict_values cs) 0.

(** [view_weekly_report()]. *)
Definition view_weekly_report (now : datetime) : M unit :=
  let week_dates := week_dates_of (dt_date now) in
  hs <- get_habits ;;
  cs <- get_completions ;;
  let total_habits := len hs in
  let daily_completions := map (day_completions_of cs) week_dates in
  for_each (combine week_dates daily_completions) (fun dc =>
    let '(day, completed) := dc in
    let total := total_habits in
    percentage <- lift (percentage_of completed total) ;;
    print (MsgDay day (int_of_Q (percentage / 20)) completed total percentage)) ;;
  let week_completed := sum daily_completions in
  let week_possible := total_habits * 7 in
  week_percentage <- lift (percentage_of week_completed week_possible) ;;
  print (MsgWeek week_percentage week_completed week_possible).

(** One entry of [category_stats]. *)
Record CatStats : Type := mkCatStats {
  cat_total : Z;
  cat_completed : Z;
  cat_streaks : list Z
}.

(** The [defaultdict] factory. *)
Definition default_stats : CatStats := mkCatStats 0 0 [].

(** [category_stats[c]]: a missing entry is created on first access. *)
Definition stats_get (c : string) (d : dict string CatStats) : CatStats :=
  match dict_get c d with
  | Some s => s
  | None => default_stats
  end.

(** The first loop of [view_category_stats]. *)
Definition count_habit (d : dict string CatStats) (kv : Key * Habit)
  : dict string CatStats :=
  let c := category (snd kv) in
  let s := stats_get c d in
  let d := dict_set c (mkCatStats (cat_total s + 1) (cat_completed s)
                                  (cat_streaks s)) d in
  let s := stats_get c d in
  dict_set c (mkCatStats (cat_total s) (cat_completed s)
                         (cat_streaks s ++ [current_streak (snd kv)])) d.

(** The second loop: one completed habit is counted in its category. *)
Definition count_completed (hs : dict Key Habit) (d : dict string CatStats)
    (habit_id : Key) : result (dict string CatStats) :=
  (h <- dict_getitem habit_id hs ;;
   let c := category h in
   let s := stats_get c d in
   Ok (dict_set c (mkCatStats (cat_total s) (cat_completed s + 1)
                              (cat_streaks s)) d))%result.

Fixpoint count_all_completed (hs : dict Key Habit) (d : dict string CatStats)
    (ids : list Key) : result (dict string CatStats) :=
  match ids with
  | [] => Ok d
  | habit_id :: ids' =>
      (d' <- count_completed hs d habit_id ;;
       count_all_completed hs d' ids')%result
  end.

(** [sum(streaks) / len(streaks) if streaks else 0]. *)
Definition avg_streak_of (streaks : list Z) : result Q :=
  match streaks with
  | [] => Ok 0%Q
  | _ :: _ => truediv (sum streaks) (Z.of_nat (List.length streaks))
  end.

(** The line printed for one category. *)
Definition category_line (c : string) (stats : CatStats) : result Msg :=
  (completion_rate <- percentage_of (cat_completed stats) (cat_total stats) ;;
   avg_streak <- avg_streak_of (cat_streaks stats) ;;
   let best :=
     match cat_streaks stats with
     | [] => 0
     | _ :: _ => max_list (cat_streaks stats)
     end in
   Ok (MsgCategory c (cat_completed stats) (cat_total stats)
                   completion_rate avg_streak best))%result.

(** [view_category_stats()]. *)
Definition view_category_stats (now : datetime) : M unit :=
  hs <- get_habits ;;
  let category_stats := fold_left count_habit hs [] in
  today_completions <- get_today_completions now ;;
  category_stats <- lift (count_all_completed hs category_stats
                                              today_completions) ;;
  for_each category_stats (fun cs =>
    line <- lift (category_line (fst cs) (snd cs)) ;;
    print line).

(** One turn of the menu loop of [run], with the answers typed at its
    prompts. *)
Inductive command : Type :=
| Choice1 (name category frequency goal : string)
| Choice2 (habit_id : string)
| Choice3 (filter_cat : string)
| Choice4
| Choice5
| Choice6 (habit_id : string)
| Choice7
| ChoiceOther.

(** The body of the [while True] loop for one choice.  An exception that
    leaves it ends the process. *)
Definition run_command (now : datetime) (c : command) : M unit :=
  match c with
  | Choice1 name category frequency goal =>
      let frequency := if String.eqb frequency "" then "daily" else frequency in
      add_habit now name category frequency (Some goal) ;; ret tt
  | Choice2 habit_id =>
      view_habits now None ;;
      try_except
        (if String.eqb habit_id "" then ret tt
         else mark_complete now (KStr habit_id) ;; ret tt)
        (print MsgInvalidId)
  | Choice3 filter_cat =>
      view_habits now (if String.eqb filter_cat "" then None else Some filter_cat)
  | Choice4 => view_weekly_report now
  | Choice5 => view_category_stats now
  | Choice6 habit_id =>
      view_habits now None ;;
      try_except
        (if String.eqb habit_id "" then ret tt
         else delete_habit (KStr habit_id))
        (print MsgInvalidId)
  | Choice7 => print MsgGoodbye
  | ChoiceOther => print MsgInvalidChoice
  end.

(** [run()] on the choices made so far, each with the clock reading of its
    turn.  The loop ends at choice 7. *)
Fixpoint run (script : list (datetime * command)) : M unit :=
  match script with
  | [] => ret tt
  | (now, Choice7) :: _ => run_command now Choice7
  | (now, c) :: script' => run_command now c ;; run script'
  end.

(* --------------------------------------------------------------------- *)
(** ** Notions used to state the properties *)

(** A text that [fromisoformat] accepts. *)
Definition well_formed (s : string) : Prop :=
  exists d : date, fromisoformat s = Ok d.

(** The date a text stands for (day 0 for a malformed text). *)
Definition date_of (s : string) : date :=
  match fromisoformat s with
  | Ok d => d
  | Raise _ => 0
  end.

(** The two loops of [update_streaks] on dates already parsed. *)
Fixpoint current_walk (newest_first : list date) (prev_date : date)
    (current_streak : Z) : Z :=
  match newest_first with
  | [] => current_streak
  | comp_date :: older =>
      if (comp_date =? prev_date) || (comp_date =? prev_date - 1) then
        current_walk older comp_date (current_streak + 1)
      else current_streak
  end.

Fixpoint longest_scan (previous : date) (rest : list date)
    (longest_streak temp_streak : Z) : Z * Z :=
  match rest with
  | [] => (longest_streak, temp_streak)
  | current :: rest' =>
      if current - previous =? 1 then
        longest_scan current rest' longest_streak (temp_streak + 1)
      else
        longest_scan current rest' (Z.max longest_streak temp_streak) 1
  end.

Definition streaks_of (oldest_first : list date) (today : date) : Z * Z :=
  match oldest_first with
  | [] => (0, 0)
  | first :: rest =>
      (current_walk (rev oldest_first) today 0,
       let '(longest, temp) := longest_scan first rest 0 1 in
       Z.max longest temp)
  end.

(** Insertion sort on dates, the image of [sorted] on the texts. *)
Fixpoint insert_date (x : date) (l : list date) : list date :=
  match l with
  | [] => [x]
  | y :: l' => if x <=? y then x :: l else y :: insert_date x l'
  end.

Fixpoint sort_dates (l : list date) : list date :=
  match l with
  | [] => []
  | x :: l' => insert_date x (sort_dates l')
  end.

(** Length of the run of consecutive days that ends at the newest date. *)
Fixpoint trailing_run (newest_first : list date) : Z :=
  match newest_first with
  | [] => 0
  | x :: older =>
      1 + match older with
          | y :: _ => if x - y =? 1 then trailing_run older else 0
          | [] => 0
          end
  end.

(** The completions that are not after [today]. *)
Definition not_after (today : date) (completions : list string)
  : list string :=
  filter (fun s => match fromisoformat s with
                   | Ok d => d <=? today
                   | Raise _ => false
                   end) completions.

(** The current streak does not depend on the completions after [today]. *)
Definition future_dates_ignored (completions : list string) (today : date)
  : Prop :=
  rbind (compute_streaks completions today) (fun p => Ok (fst p)) =
  rbind (compute_streaks (not_after today completions) today)
        (fun p => Ok (fst p)).

(** The two collections of a store have the same identifiers. *)
Definition keys_agree (s : Store) : Prop :=
  forall k : Key, dict_mem k (st_habits s) = dict_mem k (st_completions s).

(** No key occurs twice. *)
Definition distinct_keys {K V : Type} (d : dict K V) : Prop :=
  NoDup (dict_keys d).

(** Every identifier is a text, as in a store read from the file. *)
Definition text_keys {V : Type} (d : dict Key V) : Prop :=
  Forall (fun kv => exists s, fst kv = KStr s) d.

(** A store as [json.load] returns it. *)
Definition loaded_shape (s : Store) : Prop :=
  text_keys (st_habits s) /\ distinct_keys (st_habits s) /\
  text_keys (st_completions s) /\ distinct_keys (st_completions s).

(** The tracker after printing [out]. *)
Definition printed (t : HabitTracker) (out : list Msg) : HabitTracker :=
  mkTracker (habits t) (data_file t) (stdout t ++ out).

(** The state a method leaves. *)
Definition after {A : Type} (m : M A) (t : HabitTracker) : HabitTracker :=
  snd (m t).

(** The percentage as the specification words it: [completed/total * 100],
    and 0 when [total] is 0. *)
Definition spec_percentage (completed total : Z) : Q :=
  if total =? 0 then 0%Q else (inject_Z completed / inject_Z total * 100)%Q.

(** The average as the specification words it: 0 for an empty group. *)
Definition spec_average (values : list Z) : Q :=
  match values with
  | [] => 0%Q
  | _ :: _ => (inject_Z (sum values) / inject_Z (Z.of_nat (List.length values)))%Q
  end.

(** A printed report line carries the specified percentage. *)
Definition line_ok (m : Msg) : Prop :=
  match m with
  | MsgDay _ _ completed total percentage =>
      percentage = spec_percentage completed total
  | MsgWeek week_percentage week_completed week_possible =>
      week_percentage = spec_percentage week_completed week_possible
  | MsgCategory _ completed total completion_rate _ _ =>
      completion_rate = spec_percentage completed total
  | _ => True
  end.

(** Every category of the table has a non-negative total. *)
Definition totals_nonneg (d : dict string CatStats) : Prop :=
  Forall (fun cs => 0 <= cat_total (snd cs)) d.

(** One store operation of a session, with the clock reading of its call. *)
Inductive operation : Type :=
| OpAdd (now : datetime) (name category frequency : string)
        (goal : option string)
| OpMark (now : datetime) (habit_id : Key)
| OpDelete (habit_id : Key).

(** The store operation as the caller sees it: an exception is caught by
    the caller, what the method did before raising stays done. *)
Definition apply_operation (t : HabitTracker) (o : operation) : HabitTracker :=
  match o with
  | OpAdd now name category frequency goal =>
      after (add_habit now name category frequency goal) t
  | OpMark now habit_id => after (mark_complete now habit_id) t
  | OpDelete habit_id => after (delete_habit habit_id) t
  end.

Definition apply_operations (t : HabitTracker) (ops : list operation)
  : HabitTracker :=
  fold_left apply_operation ops t.

(** A store as the program keeps it: no identifier twice in a collection,
    and the same identifiers in both. *)
Definition store_inv (s : Store) : Prop :=
  distinct_keys (st_habits s) /\ distinct_keys (st_completions s) /\
  keys_agree s.

(** Every [mark_complete] of the sequence is called for a habit that exists
    when it is called. *)
Fixpoint marks_known (t : HabitTracker) (ops : list operation) : Prop :=
  match ops with
  | [] => True
  | o :: ops' =>
      match o with
      | OpMark _ habit_id => dict_mem habit_id (st_habits (habits t)) = true
      | _ => True
      end /\ marks_known (apply_operation t o) ops'
  end.

(** The clock shows a date that [date] can hold. *)
Definition clock_ok (now : datetime) : Prop :=
  1 <= dt_date now <= MAXORDINAL.

(** A habit with its two streak fields replaced. *)
Definition with_streaks (h : Habit) (current longest : Z) : Habit :=
  mkHabit (name h) (category h) (frequency h) (goal h) (created_date h)
          current longest.

(** The tracker with its habit collection replaced. *)
Definition with_habits (t : HabitTracker) (hs : dict Key Habit)
  : HabitTracker :=
  mkTracker (mkStore hs (st_completions (habits t))) (data_file t) (stdout t).

(** *** Example data *)

(** The tracker built when no file exists. *)
Definition fresh : HabitTracker := mkTracker empty_store None [].

(** Sunday 2024-03-10, mid-morning. *)
Definition sunday : datetime := mkDatetime 738955 "10:00:00".

(** A first session on a machine without a file: three habits are added
    at the menu, then the program is left. *)
Definition first_session : HabitTracker :=
  after (run [ (sunday, Choice1 "Run" "Health" "" "");
               (sunday, Choice1 "Read" "Learning" "" "");
               (sunday, Choice1 "Save" "Finance" "" "");
               (sunday, Choice7) ]) fresh.

(** The program started again on the file the first session left. *)
Definition restarted : HabitTracker :=
  match init (data_file first_session) with
  | Ok t => t
  | Raise _ => fresh
  end.

(** The second session: habit 2 is deleted at the menu, one habit is added. *)
Definition second_session : HabitTracker :=
  after (run [ (sunday, Choice6 "2");
               (sunday, Choice1 "Walk" "Health" "" "") ]) restarted.

(** Two habits added by calls, the second marked, the first deleted. *)
Definition after_delete : HabitTracker :=
  apply_operations fresh
    [ OpAdd sunday "Run" "Health" "daily" None;
      OpAdd sunday "Read" "Learning" "daily" None;
      OpMark sunday (KInt 2);
      OpDelete (KInt 1) ].

(** One habit added to the empty store. *)
Definition one_added : HabitTracker :=
  after (add_habit sunday "Run" "Health" "daily" None) fresh.

(** Two habits in the week of 2024-03-04: the first completed on Monday
    and Wednesday, the second on Monday. *)
Definition two_habits : HabitTracker :=
  mkTracker
    (mkStore [ (KStr "1", mkHabit "Read" "Learning" "daily" None
                            "2024-03-01T08:00:00" 0 0);
               (KStr "2", mkHabit "Run" "Health" "daily" None
                            "2024-03-01T08:05:00" 0 0) ]
             [ (KStr "1", ["2024-03-04"; "2024-03-06"]);
               (KStr "2", ["2024-03-04"]) ])
    None [].

(** What a line of the weekly report says about its day. *)
Definition day_summary (m : Msg) : option (string * Z * Q) :=
  match m with
  | MsgDay day _ completed _ percentage =>
      Some (isoformat day, completed, Qred percentage)
  | _ => None
  end.

Definition reading : Habit :=
  mkHabit "Read" "Learning" "daily" None "2024-03-01T08:00:00" 0 0.

(** A store as loaded from the file: one habit, with the given log. *)
Definition tracker_with (completions : list string) : HabitTracker :=
  mkTracker (mkStore [(KStr "1", reading)] [(KStr "1", completions)]) None [].

(* --------------------------------------------------------------------- *)
(** ** Notions used for the further properties *)

(** The store as it is read back from the file it was written to: every
    identifier has become its text. *)
Definition as_loaded (s : Store) : Store :=
  mkStore (map (fun kv => (KStr (dump_key (fst kv)), snd kv)) (st_habits s))
          (map (fun kv => (KStr (dump_key (fst kv)), snd kv))
               (st_completions s)).

(** No two identifiers are written to the file under the same name. *)
Definition distinct_texts {V : Type} (d : dict Key V) : Prop :=
  NoDup (map dump_key (dict_keys d)).

(** The identifiers [1 .. n], in this order. *)
Definition int_ids (n : nat) : list Key :=
  map (fun i => KInt (Z.of_nat i)) (seq 1 n).

(** A store filled by [add_habit] alone: both collections are keyed by
    [1 .. n]. *)
Definition sequential (s : Store) : Prop :=
  dict_keys (st_habits s) = int_ids (List.length (st_habits s)) /\
  dict_keys (st_completions s) = int_ids (List.length (st_habits s)).

Definition is_add (o : operation) : Prop :=
  match o with
  | OpAdd _ _ _ _ _ => True
  | _ => False
  end.

(** The [n] days that end at [newest], the newest first. *)
Fixpoint countdown (newest : date) (n : nat) : list date :=
  match n with
  | O => []
  | S n' => newest :: countdown (newest - 1) n'
  end.

(** One list holds elements of the other, in the same order. *)
Inductive subsequence {A : Type} : list A -> list A -> Prop :=
| subsequence_nil : subsequence [] []
| subsequence_skip x l l' : subsequence l l' -> subsequence l (x :: l')
| subsequence_keep x l l' : subsequence l l' -> subsequence (x :: l) (x :: l').

(** What a day line of the weekly report says, the drawn bar apart: the
    day, the completions, the habits and the percentage. *)
Definition day_data (m : Msg) : option (date * Z * Z * Q) :=
  match m with
  | MsgDay day _ completed total percentage =>
      Some (day, completed, total, percentage)
  | _ => None
  end.

(** The week of [today] lies within the calendar, so that the date
    arithmetic of the weekly report does not overflow. *)
Definition week_in_calendar (today : date) : Prop :=
  1 <= today /\ today - weekday today + 6 <= MAXORDINAL.

(** A line of the category report is about a category that has a habit,
    and counts at most its habits. *)
Definition category_ok (m : Msg) : Prop :=
  match m with
  | MsgCategory _ completed total _ _ _ => 1 <= total /\ 0 <= completed
  | _ => True
  end.

(** The habits [view_habits] shows under a filter. *)
Definition shown (filter_category : option string) (habit : Habit) : bool :=
  match filter_category with
  | Some c => String.eqb c "" || String.eqb (category habit) c
  | None => true
  end.

Definition is_stats (c : command) : bool :=
  match c with
  | Choice5 => true
  | _ => false
  end.

(** A habit without a completion list, as a file edited by hand can
    hold it. *)
Definition habit_without_log : HabitTracker :=
  mkTracker (mkStore [(KStr "1", reading)] []) None [].

(** The line of the weekly report for one day with [completed] of [total]
    habits done. *)
Definition day_line (total : Z) (day : date) (completed : Z) : Msg :=
  MsgDay day (int_of_Q (spec_percentage completed total / 20))
         completed total (spec_percentage completed total).

(** Every category of the table has a habit, and no negative count. *)
Definition table_ok (d : dict string CatStats) : Prop :=
  Forall (fun cs => 1 <= cat_total (snd cs) /\ 0 <= cat_completed (snd cs)) d.

(** The line of the category report for one entry of the table. *)
Definition category_msg (c : string) (stats : CatStats) : Msg :=
  MsgCategory c (cat_completed stats) (cat_total stats)
    (spec_percentage (cat_completed stats) (cat_total stats))
    (spec_average (cat_streaks stats))
    (match cat_streaks stats with
     | [] => 0
     | _ :: _ => max_list (cat_streaks stats)
     end).

(** The habits and the completions counted by the lines of a category
    report. *)
Definition lines_total (out : list Msg) : Z :=
  sum (map (fun m => match m with
                     | MsgCategory _ _ total _ _ _ => total
                     | _ => 0
                     end) out).

Definition lines_completed (out : list Msg) : Z :=
  sum (map (fun m => match m with
                     | MsgCategory _ completed _ _ _ _ => completed
                     | _ => 0
                     end) out).


(** The filled part of a progress bar fits in its five cells. *)
Definition bar_ok (m : Msg) : Prop :=
  match m with
  | MsgDay _ bar _ _ _ => 0 <= bar <= 5
  | _ => True
  end.

(** The sum of one counter over the categories of the table. *)
Definition table_sum (f : CatStats -> Z) (d : dict string CatStats) : Z :=
  sum (map (fun cs => f (snd cs)) d).

(* ===================================================================== *)
(** * Part II.  Properties                                                *)
(* ===================================================================== *)

(* --------------------------------------------------------------------- *)
(** ** Calendar: the ISO text orders dates as their ordinals do *)

Section CalendarFacts.

Lemma digit_of_ascii_range c v : digit_of_ascii c = Some v -> 0 <= v <= 9.
Proof.
  unfold digit_of_ascii. 
  destruct (Z.leb_spec 48 (Z.of_N (N_of_ascii c))); simpl; try discriminate.
  destruct (Z.leb_spec (Z.of_N (N_of_ascii c)) 57); simpl; try discriminate.
  intros [= <-]. lia.
Qed.

Lemma digit_compare c1 c2 v1 v2 :
  digit_of_ascii c1 = Some v1 -> digit_of_ascii c2 = Some v2 ->
  Ascii.compare c1 c2 = (v1 ?= v2).
Proof.
  unfold digit_of_ascii, Ascii.compare.
  destruct (_ && _); try discriminate. intros [= <-].
  destruct (_ && _); try discriminate. intros [= <-].
  rewrite <- N2Z.inj_compare.
  destruct (Z.compare_spec (Z.of_N (N_of_ascii c1)) (Z.of_N (N_of_ascii c2))),
    (Z.compare_spec (Z.of_N (N_of_ascii c1) - 48) (Z.of_N (N_of_ascii c2) - 48));
    try reflexivity; lia.
Qed.

Lemma days_before_year_succ y :
  days_before_year (y + 1) =
  days_before_year y + 365 + (if is_leap y then 1 else 0).
Proof.
  unfold days_before_year, is_leap.
  replace (y + 1 - 1) with y by lia.
  destruct (Z.eqb_spec (y mod 4) 0), (Z.eqb_spec (y mod 100) 0),
    (Z.eqb_spec (y mod 400) 0); cbn [negb andb orb]. 
  all: Z.div_mod_to_equations; lia.
Qed.

Lemma days_before_year_mono y y' :
  y <= y' -> days_before_year y <= days_before_year y'.
Proof. unfold days_before_year. Z.div_mod_to_equations. lia. Qed.

Ltac month_cases m :=
  let Hm := fresh "Hm" in
  assert (m = 1 \/ m = 2 \/ m = 3 \/ m = 4 \/ m = 5 \/ m = 6 \/
          m = 7 \/ m = 8 \/ m = 9 \/ m = 10 \/ m = 11 \/ m = 12) as Hm by lia;
  repeat (destruct Hm as [Hm | Hm]; [subst m | ]); [ .. | subst m].

Lemma valid_ymd_inv y m d :
  valid_ymd y m d = true ->
  1 <= y <= 9999 /\ 1 <= m <= 12 /\ 1 <= d <= days_in_month y m.
Proof.
  unfold valid_ymd, MINYEAR, MAXYEAR. intros Hv.
  repeat (apply andb_prop in Hv; destruct Hv as [Hv ?]).
  repeat match goal with
         | H : (_ <=? _) = true |- _ => apply Z.leb_le in H
         end.
  lia.
Qed.

Lemma days_in_month_le_31 y m : days_in_month y m <= 31.
Proof.
  unfold days_in_month, DAYS_IN_MONTH.
  destruct ((m =? 2) && is_leap y); [lia|].
  destruct m as [|p|p]; try lia.
  do 4 (try destruct p as [p|p|]); lia.
Qed.

Lemma ymd2ord_bounds y m d :
  valid_ymd y m d = true ->
  days_before_year y < ymd2ord y m d <= days_before_year (y + 1).
Proof.
  intros Hv. apply valid_ymd_inv in Hv. destruct Hv as (_ & Hm & Hd).
  rewrite days_before_year_succ.
  unfold ymd2ord, days_before_month. unfold days_in_month in Hd.
  month_cases m; cbn in Hd |- *; destruct (is_leap y); cbn in Hd |- *; lia.
Qed.

Lemma ymd2ord_month_lt y m d m' d' :
  valid_ymd y m d = true -> valid_ymd y m' d' = true -> m < m' ->
  ymd2ord y m d < ymd2ord y m' d'.
Proof.
  intros Hv Hv' Hlt.
  apply valid_ymd_inv in Hv. destruct Hv as (_ & Hm & Hd).
  apply valid_ymd_inv in Hv'. destruct Hv' as (_ & Hm' & Hd').
  unfold ymd2ord, days_before_month. unfold days_in_month in Hd, Hd'.
  month_cases m; month_cases m'; try lia;
    cbn in Hd, Hd' |- *; destruct (is_leap y); cbn in Hd, Hd' |- *; lia.
Qed.

Lemma ymd2ord_lt y m d y' m' d' :
  valid_ymd y m d = true -> valid_ymd y' m' d' = true ->
  ymd_key y m d < ymd_key y' m' d' ->
  ymd2ord y m d < ymd2ord y' m' d'.
Proof.
  intros Hv Hv' Hk.
  pose proof (valid_ymd_inv Hv) as (Hy & Hm & Hd).
  pose proof (valid_ymd_inv Hv') as (Hy' & Hm' & Hd').
  pose proof (@days_in_month_le_31 y m).
  pose proof (@days_in_month_le_31 y' m').
  unfold ymd_key in Hk.
  assert (y < y' \/ (y = y' /\ m < m') \/ (y = y' /\ m = m' /\ d < d'))
    as [Hlt | [[-> Hlt] | (-> & -> & Hlt)]] by lia.
  - pose proof (ymd2ord_bounds Hv). pose proof (ymd2ord_bounds Hv').
    pose proof (@days_before_year_mono (y + 1) y'). lia.
  - now apply ymd2ord_month_lt.
  - unfold ymd2ord. lia.
Qed.

Lemma ymd2ord_compare y m d y' m' d' :
  valid_ymd y m d = true -> valid_ymd y' m' d' = true ->
  (ymd_key y m d ?= ymd_key y' m' d') = (ymd2ord y m d ?= ymd2ord y' m' d').
Proof.
  intros Hv Hv'.
  destruct (Z.compare_spec (ymd_key y m d) (ymd_key y' m' d')) as [He|Hl|Hg].
  - pose proof (valid_ymd_inv Hv) as (Hy & Hm & Hd).
    pose proof (valid_ymd_inv Hv') as (Hy' & Hm' & Hd').
    pose proof (@days_in_month_le_31 y m).
    pose proof (@days_in_month_le_31 y' m').
    unfold ymd_key in He.
    assert (y = y' /\ m = m' /\ d = d') as (-> & -> & ->) by lia.
    symmetry. apply Z.compare_refl.
  - symmetry. apply Z.compare_lt_iff. now apply ymd2ord_lt.
  - symmetry. apply Z.compare_gt_iff. now apply ymd2ord_lt.
Qed.

Lemma ascii_compare_refl c : Ascii.compare c c = Eq.
Proof. unfold Ascii.compare. apply N.compare_refl. Qed.

Lemma num2_inv a b n :
  num2 a b = Some n ->
  exists x y, digit_of_ascii a = Some x /\ digit_of_ascii b = Some y /\
              n = 10 * x + y /\ 0 <= x <= 9 /\ 0 <= y <= 9.
Proof.
  unfold num2.
  destruct (digit_of_ascii a) as [x|] eqn:Ha; try discriminate.
  destruct (digit_of_ascii b) as [y|] eqn:Hb; try discriminate.
  intros [= <-]. exists x, y.
  pose proof (digit_of_ascii_range Ha). pose proof (digit_of_ascii_range Hb).
  auto.
Qed.

Lemma parse_ymd_compare s s' y m d y' m' d' :
  parse_ymd s = Some (y, m, d) -> parse_ymd s' = Some (y', m', d') ->
  String.compare s s' = (ymd_key y m d ?= ymd_key y' m' d').
Proof.
  unfold parse_ymd.
  do 10 (destruct s as [|? s]; try discriminate).
  destruct s; try discriminate.
  do 10 (destruct s' as [|? s']; try discriminate).
  destruct s'; try discriminate.
  destruct (Ascii.eqb _ dash && Ascii.eqb _ dash)%bool eqn:Hd; try discriminate.
  apply andb_prop in Hd. destruct Hd as [->%Ascii.eqb_eq ->%Ascii.eqb_eq].
  destruct (Ascii.eqb _ dash && Ascii.eqb _ dash)%bool eqn:Hd'; try discriminate.
  apply andb_prop in Hd'. destruct Hd' as [->%Ascii.eqb_eq ->%Ascii.eqb_eq].
  unfold num4.
  repeat match goal with
         | |- context [num2 ?a ?b] =>
             let E := fresh "E" in
             destruct (num2 a b) eqn:E; try discriminate;
             apply num2_inv in E; destruct E as (? & ? & ? & ? & ? & ? & ?)
         end.
  intros Hs Hs'.
  apply (f_equal (fun o => match o with
                           | Some (a, b, c) => ymd_key a b c
                           | None => 0
                           end)) in Hs, Hs'.
  rewrite <- Hs, <- Hs'. clear Hs Hs'. subst.
  cbn [String.compare]. rewrite ascii_compare_refl.
  repeat match goal with
         | H : digit_of_ascii ?a = Some _, H' : digit_of_ascii ?a' = Some _
           |- context [Ascii.compare ?a ?a'] =>
             rewrite (digit_compare H H')
         end.
  unfold ymd_key.
  repeat match goal with
         | |- context [match (?a ?= ?b) with _ => _ end] =>
             destruct (Z.compare_spec a b)
         end.
  all: symmetry;
    first [ apply Z.compare_eq_iff; lia | apply Z.compare_lt_iff; lia
          | apply Z.compare_gt_iff; lia ].
Qed.

Lemma fromisoformat_compare s s' d d' :
  fromisoformat s = Ok d -> fromisoformat s' = Ok d' ->
  String.compare s s' = (d ?= d').
Proof.
  unfold fromisoformat.
  destruct (parse_ymd s) as [[[y m] dd]|] eqn:Hs; try discriminate.
  destruct (parse_ymd s') as [[[y' m'] dd']|] eqn:Hs'; try discriminate.
  destruct (valid_ymd y m dd) eqn:Hv; try discriminate.
  destruct (valid_ymd y' m' dd') eqn:Hv'; try discriminate.
  intros [= <-] [= <-].
  rewrite (parse_ymd_compare Hs Hs'). now apply ymd2ord_compare.
Qed.

Lemma fromisoformat_leb s s' d d' :
  fromisoformat s = Ok d -> fromisoformat s' = Ok d' ->
  String.leb s s' = (d <=? d').
Proof.
  intros Hs Hs'. unfold String.leb, Z.leb.
  now rewrite (fromisoformat_compare Hs Hs').
Qed.

Lemma fromisoformat_inj s s' d :
  fromisoformat s = Ok d -> fromisoformat s' = Ok d -> s = s'.
Proof.
  intros Hs Hs'. apply String.compare_eq_iff.
  rewrite (fromisoformat_compare Hs Hs'). apply Z.compare_refl.
Qed.

(** *** The ISO text of a date reads back as that date

    The year reached after [n400] cycles of 400 years, [n100] centuries,
    [n4] cycles of 4 years and [n1] single years. *)
Lemma is_leap_cycles n400 n100 n4 n1 :
  0 <= n100 <= 3 -> 0 <= n4 <= 24 -> 0 <= n1 <= 3 ->
  is_leap (n400 * 400 + 1 + n100 * 100 + n4 * 4 + n1)
  = (n1 =? 3) && (negb (n4 =? 24) || (n100 =? 3)).
Proof.
  intros H100 H4 H1. unfold is_leap.
  repeat match goal with
         | |- context [?a =? ?b] => destruct (Z.eqb_spec a b)
         end; cbn [andb orb negb]; try reflexivity; exfalso;
    Z.div_mod_to_equations; lia.
Qed.

Lemma days_before_year_cycles n400 n100 n4 n1 :
  0 <= n400 -> 0 <= n100 <= 3 -> 0 <= n4 <= 24 -> 0 <= n1 <= 3 ->
  days_before_year (n400 * 400 + 1 + n100 * 100 + n4 * 4 + n1)
  = n400 * 146097 + n100 * 36524 + n4 * 1461 + n1 * 365.
Proof.
  intros H400 H100 H4 H1. unfold days_before_year.
  Z.div_mod_to_equations. lia.
Qed.

Lemma valid_ymd_intro y m d :
  1 <= y <= 9999 -> 1 <= m <= 12 -> 1 <= d <= days_in_month y m ->
  valid_ymd y m d = true.
Proof.
  intros Hy Hm Hd. unfold valid_ymd, MINYEAR, MAXYEAR.
  repeat (apply andb_true_intro; split); apply Z.leb_le; lia.
Qed.

Lemma ord2ymd_spec d :
  1 <= d <= MAXORDINAL ->
  let '(y, m, dd) := ord2ymd d in
  valid_ymd y m dd = true /\ ymd2ord y m dd = d.
Proof.
  unfold MAXORDINAL. intros Hd. unfold ord2ymd, DI400Y, DI100Y, DI4Y.
  set (n0 := d - 1).
  set (n400 := n0 / 146097). set (r400 := n0 mod 146097).
  set (n100 := r400 / 36524). set (r100 := r400 mod 36524).
  set (n4 := r100 / 1461). set (r4 := r100 mod 1461).
  set (n1 := r4 / 365). set (r1 := r4 mod 365).
  assert (d = 1 + n400 * 146097 + n100 * 36524 + n4 * 1461 + n1 * 365 + r1 /\
          0 <= n400 <= 24 /\ 0 <= n100 <= 4 /\ 0 <= n4 <= 24 /\
          0 <= n1 <= 4 /\ 0 <= r1 <= 364 /\
          (n100 = 4 -> n4 = 0 /\ n1 = 0 /\ r1 = 0) /\
          (n1 = 4 -> r1 = 0 /\ n4 <= 23))
    as (Hdec & H400 & H100 & H4 & H1 & Hr1 & Hc & Hy).
  { pose proof (Z.div_mod n0 146097 ltac:(lia)) as D1.
    pose proof (Z.mod_pos_bound n0 146097 ltac:(lia)) as B1.
    pose proof (Z.div_mod r400 36524 ltac:(lia)) as D2.
    pose proof (Z.mod_pos_bound r400 36524 ltac:(lia)) as B2.
    pose proof (Z.div_mod r100 1461 ltac:(lia)) as D3.
    pose proof (Z.mod_pos_bound r100 1461 ltac:(lia)) as B3.
    pose proof (Z.div_mod r4 365 ltac:(lia)) as D4.
    pose proof (Z.mod_pos_bound r4 365 ltac:(lia)) as B4.
    fold n400 r400 in D1, B1. fold n100 r100 in D2, B2.
    fold n4 r4 in D3, B3. fold n1 r1 in D4, B4.
    assert (n0 = d - 1) as Hn0 by reflexivity.
    clearbody n1 r1 n4 r4 n100 r100 n400 r400 n0.
    repeat split; lia. }
  clearbody n1 r1 n4 r4 n100 r100 n400 r400. clear n0.
  destruct (Z.eqb_spec n1 4) as [E1|E1]; cbn [orb].
  - destruct (Hy E1) as [-> Hn4]. subst n1.
    assert (n100 <= 3) by (destruct (Z.eq_dec n100 4) as [E|E];
                           [destruct (Hc E); lia|lia]).
    replace (n400 * 400 + 1 + n100 * 100 + n4 * 4 + 4 - 1)
      with (n400 * 400 + 1 + n100 * 100 + n4 * 4 + 3) by lia.
    pose proof (@is_leap_cycles n400 n100 n4 3) as Hl.
    pose proof (@days_before_year_cycles n400 n100 n4 3) as Hb.
    split.
    + apply valid_ymd_intro; try lia. unfold days_in_month. cbn. lia.
    + unfold ymd2ord, days_before_month. rewrite Hb, Hl by lia.
      replace (n4 =? 24) with false by (symmetry; apply Z.eqb_neq; lia).
      cbn. lia.
  - destruct (Z.eqb_spec n100 4) as [E100|E100].
    + destruct (Hc E100) as (-> & -> & ->). subst n100.
      replace (n400 * 400 + 1 + 4 * 100 + 0 * 4 + 0 - 1)
        with (n400 * 400 + 1 + 3 * 100 + 24 * 4 + 3) by lia.
      pose proof (@is_leap_cycles n400 3 24 3) as Hl.
      pose proof (@days_before_year_cycles n400 3 24 3) as Hb.
      split.
      * apply valid_ymd_intro; try lia. unfold days_in_month. cbn. lia.
      * unfold ymd2ord, days_before_month. rewrite Hb, Hl by lia.
        cbn. lia.
    + pose proof (@is_leap_cycles n400 n100 n4 n1) as Hl.
      pose proof (@days_before_year_cycles n400 n100 n4 n1) as Hb.
      rewrite <- Hl by lia.
      set (year := n400 * 400 + 1 + n100 * 100 + n4 * 4 + n1) in *.
      assert (1 <= year <= 9999) as Hyear by (subst year; lia).
      specialize (Hb ltac:(lia) ltac:(lia) ltac:(lia) ltac:(lia)).
      clear Hl.
      rewrite Z.shiftr_div_pow2 by lia. change (2 ^ 5) with 32.
      set (month := (r1 + 50) / 32).
      assert (32 * month <= r1 + 50 < 32 * month + 32)
        by (subst month; Z.div_mod_to_equations; lia).
      clearbody month.
      assert (d = days_before_year year + r1 + 1) as Hd' by lia.
      clear Hdec Hc Hy.
      unfold ymd2ord, days_before_month. rewrite Hd'.
      clearbody year.
      month_cases month.
      all: destruct (is_leap year) eqn:El.
      all: repeat match goal with
        | |- context [?r <? ?p] => destruct (Z.ltb_spec r p)
        end.
      all: cbn in *; try lia.
      all: split;
         [ apply valid_ymd_intro; try lia; unfold days_in_month;
           rewrite ?El; cbn; try lia
         | cbn; rewrite ?El; cbn; try lia ].
Qed.

Lemma digit_of_ascii_of_digit k :
  digit_of_ascii (ascii_of_digit k) = Some (k mod 10).
Proof.
  unfold ascii_of_digit.
  pose proof (Z.mod_pos_bound k 10 ltac:(lia)) as Hb.
  assert (k mod 10 = 0 \/ k mod 10 = 1 \/ k mod 10 = 2 \/ k mod 10 = 3 \/
          k mod 10 = 4 \/ k mod 10 = 5 \/ k mod 10 = 6 \/ k mod 10 = 7 \/
          k mod 10 = 8 \/ k mod 10 = 9) as Hk by lia.
  repeat (destruct Hk as [Hk|Hk]; [rewrite Hk; reflexivity|]).
  rewrite Hk; reflexivity.
Qed.

Lemma parse_ymd_format y m d :
  0 <= y <= 9999 -> 0 <= m <= 99 -> 0 <= d <= 99 ->
  parse_ymd (pad4 y (String dash (pad2 m (String dash (pad2 d EmptyString)))))
  = Some (y, m, d).
Proof.
  intros Hy Hm Hd. unfold pad4, pad2, parse_ymd, num4, num2.
  rewrite !digit_of_ascii_of_digit. cbn [Ascii.eqb dash andb Bool.eqb].
  repeat f_equal; Z.div_mod_to_equations; lia.
Qed.

Lemma isoformat_fromisoformat d :
  1 <= d <= MAXORDINAL -> fromisoformat (isoformat d) = Ok d.
Proof.
  intros Hd. pose proof (ord2ymd_spec Hd) as Hs.
  unfold isoformat, fromisoformat.
  destruct (ord2ymd d) as [[y m] dd]. destruct Hs as [Hv Ho].
  pose proof (valid_ymd_inv Hv) as (Hy & Hm & Hdd).
  pose proof (@days_in_month_le_31 y m).
  rewrite parse_ymd_format by lia. now rewrite Hv, Ho.
Qed.

End CalendarFacts.

(* --------------------------------------------------------------------- *)
(** ** The streak engine on well-formed completion lists *)

Section StreakEngine.

Lemma well_formed_date_of s : well_formed s -> fromisoformat s = Ok (date_of s).
Proof. intros [d Hd]. unfold date_of. now rewrite Hd. Qed.

Lemma date_of_inj s s' :
  well_formed s -> well_formed s' -> date_of s = date_of s' -> s = s'.
Proof.
  intros Hs%well_formed_date_of Hs'%well_formed_date_of Heq.
  rewrite <- Heq in Hs'. exact (fromisoformat_inj Hs Hs').
Qed.

(** *** The loops on texts are the loops on dates *)

Lemma current_streak_loop_dates ss prev acc :
  Forall well_formed ss ->
  current_streak_loop ss prev acc
  = Ok (current_walk (map date_of ss) prev acc).
Proof.
  intros Hwf. revert prev acc.
  induction Hwf as [|s ss Hs _ IH]; intros prev acc; simpl.
  - reflexivity.
  - rewrite (well_formed_date_of Hs). simpl.
    destruct ((date_of s =? prev) || (date_of s =? prev - 1)); auto.
Qed.

Lemma longest_streak_loop_dates ss :
  Forall well_formed ss ->
  forall s longest temp,
    well_formed s ->
    longest_streak_loop s ss longest temp
    = Ok (longest_scan (date_of s) (map date_of ss) longest temp).
Proof.
  induction 1 as [|c ss Hc _ IH]; intros s longest temp Hs; simpl.
  - reflexivity.
  - rewrite (well_formed_date_of Hc), (well_formed_date_of Hs). simpl.
    destruct (date_of c - date_of s =? 1); now apply IH.
Qed.

(** *** Sorting the texts sorts the dates *)

Lemma insert_sorted_wf x l :
  well_formed x -> Forall well_formed l -> Forall well_formed (insert_sorted x l).
Proof.
  intros Hx Hl. induction Hl as [|y l Hy Hl IH]; simpl.
  - auto.
  - destruct (String.leb x y); auto.
Qed.

Lemma sorted_wf l : Forall well_formed l -> Forall well_formed (sorted l).
Proof.
  induction 1 as [|x l Hx Hl IH]; simpl; [constructor|].
  now apply insert_sorted_wf.
Qed.

Lemma insert_sorted_dates x l :
  well_formed x -> Forall well_formed l ->
  map date_of (insert_sorted x l) = insert_date (date_of x) (map date_of l).
Proof.
  intros Hx Hl. induction Hl as [|y l Hy Hl IH]; simpl.
  - reflexivity.
  - rewrite (fromisoformat_leb (well_formed_date_of Hx) (well_formed_date_of Hy)).
    destruct (date_of x <=? date_of y); simpl; congruence.
Qed.

Lemma sorted_dates l :
  Forall well_formed l -> map date_of (sorted l) = sort_dates (map date_of l).
Proof.
  induction 1 as [|x l Hx Hl IH]; simpl; [reflexivity|].
  rewrite insert_sorted_dates; auto using sorted_wf. now rewrite IH.
Qed.

(** [compute_streaks] never raises on well-formed texts, and its result is
    the one of the two loops run on the sorted dates. *)
Lemma compute_streaks_dates completions today :
  Forall well_formed completions ->
  compute_streaks completions today
  = Ok (streaks_of (sort_dates (map date_of completions)) today).
Proof.
  intros Hwf. unfold compute_streaks.
  pose proof (sorted_wf Hwf) as Hs. rewrite <- (sorted_dates Hwf).
  destruct (sorted completions) as [|first rest]; [reflexivity|].
  rewrite current_streak_loop_dates by now apply Forall_rev.
  inversion Hs; subst.
  rewrite longest_streak_loop_dates by assumption.
  cbn [rbind streaks_of map]. rewrite map_rev. cbn [map].
  now destruct (longest_scan _ _ 0 1).
Qed.

(** *** Facts about sorting dates *)

Lemma insert_date_perm x l : Permutation (insert_date x l) (x :: l).
Proof.
  induction l as [|y l IH]; simpl; [reflexivity|].
  destruct (x <=? y); [reflexivity|].
  rewrite IH. apply perm_swap.
Qed.

Lemma sort_dates_perm l : Permutation (sort_dates l) l.
Proof.
  induction l as [|x l IH]; simpl; [reflexivity|].
  rewrite insert_date_perm. now constructor.
Qed.

Lemma insert_date_sorted x l :
  StronglySorted Z.le l -> StronglySorted Z.le (insert_date x l).
Proof.
  induction 1 as [|y l Hl IH Hy]; simpl.
  - repeat constructor.
  - destruct (Z.leb_spec x y).
    + constructor; [now constructor|].
      constructor; [assumption|].
      eapply Forall_impl; [|exact Hy]. intros; lia.
    + constructor; [assumption|].
      rewrite insert_date_perm. constructor; [lia|assumption].
Qed.

Lemma sort_dates_sorted l : StronglySorted Z.le (sort_dates l).
Proof.
  induction l as [|x l IH]; simpl; [constructor|].
  now apply insert_date_sorted.
Qed.

(** A sorted list is determined by its elements. *)
Lemma sorted_perm_unique l l' :
  StronglySorted Z.le l -> StronglySorted Z.le l' -> Permutation l l' ->
  l = l'.
Proof.
  intros Hl. revert l'.
  induction Hl as [|x l Hl IH Hx]; intros l' Hl' Hp.
  - now apply Permutation_nil in Hp.
  - destruct Hl' as [|y l' Hl' Hy].
    + now apply Permutation_sym, Permutation_nil in Hp.
    + assert (x = y) as ->.
      { assert (In y (x :: l)) as [?|Hin]
          by (eapply Permutation_in; [symmetry; exact Hp|now left]);
          [assumption|].
        assert (In x (y :: l')) as [?|Hin']
          by (eapply Permutation_in; [exact Hp|now left]);
          [congruence|].
        rewrite Forall_forall in Hx, Hy.
        specialize (Hx _ Hin). specialize (Hy _ Hin'). lia. }
      f_equal. apply IH; [assumption|].
      now apply Permutation_cons_inv in Hp.
Qed.

Lemma sort_dates_of_perm l l' :
  StronglySorted Z.le l' -> Permutation l l' -> sort_dates l = l'.
Proof.
  intros Hl' Hp. apply sorted_perm_unique; auto using sort_dates_sorted.
  now rewrite sort_dates_perm.
Qed.

(** *** The current streak never exceeds the longest *)

Lemma last_cons (c : date) rest p : last (c :: rest) p = last rest c.
Proof.
  revert c p. induction rest as [|y rest IH]; intros c p; [reflexivity|].
  change (last (c :: y :: rest) p) with (last (y :: rest) p).
  now rewrite !IH.
Qed.

Lemma rev_cons_head (first : date) rest :
  exists tl, rev (first :: rest) = last rest first :: tl.
Proof.
  revert first. induction rest as [|y rest IH]; intros first.
  - now exists [].
  - destruct (IH y) as [tl Htl]. exists (tl ++ [first])%list.
    rewrite last_cons.
    change (rev (first :: y :: rest)) with (rev (y :: rest) ++ [first])%list.
    now rewrite Htl.
Qed.

(** One more turn of the second loop, seen from the end of the list. *)
Lemma longest_scan_snoc rest x :
  forall p longest temp,
    longest_scan p (rest ++ [x]) longest temp
    = let '(longest', temp') := longest_scan p rest longest temp in
      if x - last rest p =? 1 then (longest', temp' + 1)
      else (Z.max longest' temp', 1).
Proof.
  induction rest as [|c rest IH]; intros p longest temp.
  - reflexivity.
  - rewrite last_cons. cbn [app longest_scan].
    destruct (c - p =? 1); apply IH.
Qed.

Lemma trailing_run_cons x y r :
  trailing_run (x :: y :: r)
  = 1 + (if x - y =? 1 then trailing_run (y :: r) else 0).
Proof. reflexivity. Qed.

(** After the second loop [temp_streak] is the length of the newest run. *)
Lemma longest_scan_temp first rest longest :
  snd (longest_scan first rest longest 1) = trailing_run (rev (first :: rest)).
Proof.
  induction rest as [|x rest IH] using rev_ind.
  - reflexivity.
  - rewrite longest_scan_snoc.
    destruct (longest_scan first rest longest 1) as [longest' temp'].
    cbn [snd] in IH.
    change (first :: rest ++ [x])%list with ((first :: rest) ++ [x])%list.
    rewrite rev_unit.
    destruct (rev_cons_head first rest) as [tl Htl].
    rewrite Htl in IH |- *. rewrite trailing_run_cons, <- IH.
    destruct (x - last rest first =? 1); cbn [snd]; lia.
Qed.

Lemma trailing_run_nonneg r : 0 <= trailing_run r.
Proof.
  induction r as [|x r IH]; [simpl; lia|].
  destruct r as [|y r]; [simpl; lia|].
  rewrite trailing_run_cons. destruct (x - y =? 1); lia.
Qed.

(** The first loop counts a part of the newest run, when no date repeats. *)
Lemma current_walk_bound r :
  NoDup r ->
  forall prev acc, current_walk r prev acc <= acc + trailing_run r.
Proof.
  induction 1 as [|x r Hx Hr IH]; intros prev acc.
  - simpl. lia.
  - cbn [current_walk].
    destruct ((x =? prev) || (x =? prev - 1)).
    + specialize (IH x (acc + 1)).
      destruct r as [|y r'].
      * simpl in *. lia.
      * rewrite trailing_run_cons.
        destruct (Z.eqb_spec (x - y) 1) as [Hy|Hy]; [lia|].
        cbn [current_walk].
        destruct (Z.eqb_spec y x) as [->|Hne].
        { exfalso. apply Hx. now left. }
        destruct (Z.eqb_spec y (x - 1)); [lia|]. cbn [orb]. lia.
    + pose proof (@trailing_run_nonneg r).
      destruct r as [|y r']; [simpl; lia|].
      rewrite trailing_run_cons. pose proof (@trailing_run_nonneg (y :: r')).
      destruct (x - y =? 1); lia.
Qed.

Lemma streaks_of_le l today :
  NoDup l -> fst (streaks_of l today) <= snd (streaks_of l today).
Proof.
  intros Hnd. destruct l as [|first rest]; [simpl; lia|].
  unfold streaks_of. cbn [fst snd].
  pose proof (longest_scan_temp first rest 0) as Ht.
  pose proof (@current_walk_bound (rev (first :: rest))
                (NoDup_rev Hnd) today 0) as Hc.
  destruct (longest_scan first rest 0 1) as [longest temp].
  cbn [snd] in Ht. lia.
Qed.

Lemma dates_NoDup completions :
  Forall well_formed completions -> NoDup completions ->
  NoDup (sort_dates (map date_of completions)).
Proof.
  intros Hwf Hnd.
  apply (Permutation_NoDup (Permutation_sym (sort_dates_perm _))).
  apply NoDup_map_NoDup_ForallPairs; [|assumption].
  rewrite Forall_forall in Hwf.
  intros s s' Hs Hs'. apply date_of_inj; auto.
Qed.

(** *** The newest date decides whether the first loop starts *)

Lemma sorted_snoc_max l x :
  StronglySorted Z.le (l ++ [x]) -> Forall (fun y => y <= x) (l ++ [x]).
Proof.
  induction l as [|a l IH]; intros Hs.
  - repeat constructor. lia.
  - cbn [app] in *. inversion Hs as [|? ? Hs' Ha]; subst.
    constructor; [|now apply IH].
    rewrite Forall_forall in Ha. apply Ha, in_or_app. right. now left.
Qed.

Lemma current_walk_future l today d :
  In d l -> today < d ->
  fst (streaks_of (sort_dates l) today) = 0.
Proof.
  intros Hin Hlt.
  pose proof (sort_dates_sorted l) as Hs.
  assert (In d (sort_dates l)) as Hin'
      by (eapply Permutation_in; [symmetry; apply sort_dates_perm|exact Hin]).
  destruct (sort_dates l) as [|first rest] eqn:E; [contradiction|].
  unfold streaks_of. cbn [fst].
  destruct (rev (first :: rest)) as [|x r] eqn:Er.
  - reflexivity.
  - assert (first :: rest = rev r ++ [x])%list as El
        by (rewrite <- (rev_involutive (first :: rest)), Er; reflexivity).
    rewrite El in Hs, Hin'.
    pose proof (sorted_snoc_max Hs) as Hmax.
    rewrite Forall_forall in Hmax. specialize (Hmax _ Hin').
    cbn [current_walk].
    destruct (Z.eqb_spec x today); [lia|].
    destruct (Z.eqb_spec x (today - 1)); [lia|]. reflexivity.
Qed.

End StreakEngine.

(* --------------------------------------------------------------------- *)
(** ** Dictionaries *)

#[export] Instance string_LawfulHashable : LawfulHashable string.
Proof. intros a b. apply String.eqb_eq. Qed.

#[export] Instance Key_LawfulHashable : LawfulHashable Key.
Proof.
  intros [n|s] [m|u]; unfold key_eqb, Key_Hashable; simpl;
    try (split; discriminate).
  - rewrite Z.eqb_eq. split; congruence.
  - rewrite String.eqb_eq. split; congruence.
Qed.

Section DictFacts.

Context {K V : Type} `{LawfulHashable K}.

Implicit Types (k : K) (v : V) (d : dict K V).

Lemma key_eqb_refl k : key_eqb k k = true.
Proof. now apply key_eqb_eq. Qed.

Lemma key_eqb_neq k k' : k <> k' -> key_eqb k k' = false.
Proof.
  intros Hne. destruct (key_eqb k k') eqn:E; [|reflexivity].
  now apply key_eqb_eq in E.
Qed.

Lemma dict_get_set_eq k v d : dict_get k (dict_set k v d) = Some v.
Proof.
  induction d as [|[k' v'] d IH]; simpl.
  - now rewrite key_eqb_refl.
  - destruct (key_eqb k k') eqn:E; simpl; rewrite E; auto.
Qed.

Lemma dict_get_set_neq k k' v d :
  k' <> k -> dict_get k' (dict_set k v d) = dict_get k' d.
Proof.
  intros Hne. induction d as [|[k0 v0] d IH]; simpl.
  - now rewrite key_eqb_neq.
  - destruct (key_eqb k k0) eqn:E; simpl.
    + apply key_eqb_eq in E. subst k0. now rewrite key_eqb_neq.
    + now rewrite IH.
Qed.

Lemma dict_set_set k v v' d : dict_set k v' (dict_set k v d) = dict_set k v' d.
Proof.
  induction d as [|[k0 v0] d IH]; simpl.
  - now rewrite key_eqb_refl.
  - destruct (key_eqb k k0) eqn:E; simpl; rewrite E; congruence.
Qed.

Lemma dict_mem_get k d : dict_mem k d = true <-> exists v, dict_get k d = Some v.
Proof.
  unfold dict_mem. destruct (dict_get k d) as [v|].
  - split; eauto.
  - split; [discriminate|]. now intros [v Hv].
Qed.

Lemma dict_mem_set k k' v d :
  dict_mem k' (dict_set k v d) = (key_eqb k' k || dict_mem k' d)%bool.
Proof.
  unfold dict_mem. destruct (key_eqb k' k) eqn:E.
  - apply key_eqb_eq in E. subst k'. now rewrite dict_get_set_eq.
  - rewrite dict_get_set_neq; [reflexivity|].
    intros ->. now rewrite key_eqb_refl in E.
Qed.

Lemma list_mem_In (x : K) (xs : list K) : list_mem x xs = true <-> In x xs.
Proof.
  unfold list_mem. rewrite existsb_exists. split.
  - intros (y & Hy & ->%key_eqb_eq). exact Hy.
  - intros Hx. exists x. split; [exact Hx|apply key_eqb_refl].
Qed.

Lemma dict_get_absent k d : ~ In k (dict_keys d) -> dict_get k d = None.
Proof.
  induction d as [|[k' v'] d IH]; simpl; [reflexivity|].
  intros Hnin. rewrite key_eqb_neq by (intros ->; apply Hnin; now left).
  apply IH. intros Hin. apply Hnin. now right.
Qed.

Lemma dict_get_present k d :
  In k (dict_keys d) -> exists v, dict_get k d = Some v.
Proof.
  induction d as [|[k' v'] d IH]; simpl; [contradiction|].
  intros [->|Hin].
  - rewrite key_eqb_refl. eauto.
  - destruct (key_eqb k k'); eauto.
Qed.

Lemma dict_mem_keys k d : dict_mem k d = true <-> In k (dict_keys d).
Proof.
  split; [|intros Hin; apply dict_mem_get; now apply dict_get_present].
  unfold dict_mem. induction d as [|[k' v'] d IH]; simpl; [discriminate|].
  destruct (key_eqb k k') eqn:E.
  - apply key_eqb_eq in E. auto.
  - auto.
Qed.

Lemma dict_mem_absent k d : dict_mem k d = false <-> ~ In k (dict_keys d).
Proof.
  rewrite <- dict_mem_keys. destruct (dict_mem k d); split; congruence.
Qed.

Lemma dict_set_absent k v d :
  ~ In k (dict_keys d) -> dict_set k v d = (d ++ [(k, v)])%list.
Proof.
  induction d as [|[k' v'] d IH]; simpl; [reflexivity|].
  intros Hnin. rewrite key_eqb_neq by (intros ->; apply Hnin; now left).
  f_equal. apply IH. intros Hin. apply Hnin. now right.
Qed.

Lemma dict_keys_set_present k v d :
  dict_mem k d = true -> dict_keys (dict_set k v d) = dict_keys d.
Proof.
  unfold dict_mem. induction d as [|[k' v'] d IH]; simpl; [discriminate|].
  destruct (key_eqb k k'); simpl; [reflexivity|].
  intros Hm. now rewrite IH.
Qed.

Lemma dict_keys_set_absent k v d :
  dict_mem k d = false -> dict_keys (dict_set k v d) = (dict_keys d ++ [k])%list.
Proof.
  intros Hm. apply dict_mem_absent in Hm.
  rewrite (dict_set_absent v Hm). unfold dict_keys. now rewrite map_app.
Qed.

Lemma distinct_keys_set k v d :
  distinct_keys d -> distinct_keys (dict_set k v d).
Proof.
  unfold distinct_keys. intros Hnd. destruct (dict_mem k d) eqn:Hm.
  - now rewrite dict_keys_set_present.
  - rewrite dict_keys_set_absent by assumption.
    apply dict_mem_absent in Hm.
    apply NoDup_rev in Hnd. rewrite <- (rev_involutive (_ ++ _)).
    apply NoDup_rev. rewrite rev_unit. constructor; [|exact Hnd].
    now rewrite <- in_rev.
Qed.

Lemma dict_mem_set_keys k k' v d :
  In k' (dict_keys (dict_set k v d)) <-> k' = k \/ In k' (dict_keys d).
Proof.
  rewrite <- !dict_mem_keys, dict_mem_set, orb_true_iff, key_eqb_eq.
  reflexivity.
Qed.

Lemma dict_remove_keys k k' d :
  distinct_keys d ->
  In k' (dict_keys (dict_remove k d)) <-> k' <> k /\ In k' (dict_keys d).
Proof.
  unfold distinct_keys. induction d as [|[k0 v0] d IH]; simpl; intros Hnd.
  - tauto.
  - inversion Hnd as [|? ? Hnin Hnd']; subst.
    destruct (key_eqb k k0) eqn:E.
    + apply key_eqb_eq in E. subst k0. split.
      * intros Hin. split; [|now right]. intros ->. contradiction.
      * intros [Hne [Heq|Hin]]; [congruence|exact Hin].
    + simpl. rewrite (IH Hnd'). split.
      * intros [<-|[Hne Hin]].
        -- split; [|now left]. intros ->. now rewrite key_eqb_refl in E.
        -- auto.
      * intros [Hne [Heq|Hin]]; auto.
Qed.

Lemma distinct_keys_remove k d :
  distinct_keys d -> distinct_keys (dict_remove k d).
Proof.
  unfold distinct_keys. induction d as [|[k0 v0] d IH]; simpl; intros Hnd.
  - constructor.
  - inversion Hnd as [|? ? Hnin Hnd']; subst.
    destruct (key_eqb k k0); [exact Hnd'|].
    simpl. constructor; [|now apply IH].
    intros Hin. apply (dict_remove_keys k k0 Hnd') in Hin. tauto.
Qed.

End DictFacts.

(* --------------------------------------------------------------------- *)
(** ** Streaks as [update_streaks] stores them *)

Section UpdateStreaks.

Variables (now : datetime) (habit_id : Key) (t : HabitTracker).
Variables (completions : list string) (h : Habit).

Hypothesis Hlog :
  dict_get habit_id (st_completions (habits t)) = Some completions.
Hypothesis Hhabit : dict_get habit_id (st_habits (habits t)) = Some h.

(** When the computation returns, both fields of the habit are written and
    nothing else changes. *)
Lemma update_streaks_stores current longest :
  compute_streaks completions (dt_date now) = Ok (current, longest) ->
  update_streaks now habit_id t
  = (Ok tt,
     with_habits t (dict_set habit_id (with_streaks h current longest)
                             (st_habits (habits t)))).
Proof.
  intros Hc.
  unfold update_streaks, bind, get_completions, get_habits, lift,
    put_habits, dict_getitem.
  rewrite Hlog, Hc, Hhabit. cbn.
  rewrite dict_get_set_eq, dict_set_set. reflexivity.
Qed.

Lemma update_streaks_well_formed :
  Forall well_formed completions ->
  update_streaks now habit_id t
  = (Ok tt,
     with_habits t
       (dict_set habit_id
          (with_streaks h
             (fst (streaks_of (sort_dates (map date_of completions))
                              (dt_date now)))
             (snd (streaks_of (sort_dates (map date_of completions))
                              (dt_date now))))
          (st_habits (habits t)))).
Proof.
  intros Hwf. apply update_streaks_stores.
  rewrite (compute_streaks_dates _ Hwf). now destruct (streaks_of _ _).
Qed.

End UpdateStreaks.

(* --------------------------------------------------------------------- *)
(** ** The store operations and the invariant of the store *)

Lemma keys_agree_iff s :
  keys_agree s <->
  forall k, In k (dict_keys (st_habits s)) <-> In k (dict_keys (st_completions s)).
Proof.
  unfold keys_agree. split; intros Ha k; specialize (Ha k).
  - rewrite <- !dict_mem_keys. now rewrite Ha.
  - rewrite <- !dict_mem_keys in Ha.
    destruct (dict_mem k (st_habits s)), (dict_mem k (st_completions s));
      try reflexivity; destruct Ha as [Ha1 Ha2];
      [symmetry; now apply Ha1|now apply Ha2].
Qed.

Section Invariant.

Lemma add_habit_store now name category frequency goal t :
  habits (after (add_habit now name category frequency goal) t)
  = let hs := st_habits (habits t) in
    let cs := st_completions (habits t) in
    let habit_id := KInt (len hs + 1) in
    mkStore
      (dict_set habit_id
         (mkHabit name category frequency goal (datetime_isoformat now) 0 0) hs)
      (if dict_mem habit_id cs then cs else dict_set habit_id [] cs).
Proof.
  unfold after, add_habit, bind, get_habits, put_habits, get_completions, when.
  cbn. destruct (dict_mem _ _); reflexivity.
Qed.

Lemma delete_habit_store habit_id t :
  habits (after (delete_habit habit_id) t)
  = let hs := st_habits (habits t) in
    let cs := st_completions (habits t) in
    if dict_mem habit_id hs then
      mkStore (dict_remove habit_id hs)
              (if dict_mem habit_id cs then dict_remove habit_id cs else cs)
    else habits t.
Proof.
  unfold after, delete_habit, bind, get_habits, put_habits, get_completions,
    put_completions, lift, dict_getitem, dict_del, dict_mem.
  cbn. destruct (dict_get habit_id (st_habits (habits t))); cbn; [|reflexivity].
  destruct (dict_get habit_id (st_completions (habits t))); reflexivity.
Qed.

(** Whatever [update_streaks] does, the completion log is untouched and the
    habit collection keeps its identifiers. *)
Lemma update_streaks_keys now habit_id t :
  st_completions (habits (after (update_streaks now habit_id) t))
  = st_completions (habits t) /\
  dict_keys (st_habits (habits (after (update_streaks now habit_id) t)))
  = dict_keys (st_habits (habits t)).
Proof.
  unfold after, update_streaks, bind, get_completions, get_habits, put_habits,
    lift, dict_getitem.
  cbn -[dict_keys dict_set dict_get compute_streaks].
  destruct (dict_get habit_id (st_completions (habits t)));
    cbn -[dict_keys dict_set dict_get compute_streaks]; [|auto].
  destruct (compute_streaks _ _);
    cbn -[dict_keys dict_set dict_get compute_streaks]; [|auto].
  destruct (dict_get habit_id (st_habits (habits t))) eqn:Hh;
    cbn -[dict_keys dict_set dict_get compute_streaks]; [|auto].
  rewrite dict_get_set_eq. cbn -[dict_keys dict_set dict_get].
  split; [reflexivity|].
  rewrite !dict_keys_set_present; [reflexivity| |].
  - unfold dict_mem. now rewrite Hh.
  - unfold dict_mem. now rewrite dict_get_set_eq.
Qed.

Lemma after_bind (A B : Type) (m : M A) (k : A -> M B) t :
  after (bind m k) t
  = match m t with
    | (Ok a, t') => after (k a) t'
    | (Raise _, t') => t'
    end.
Proof. unfold after, bind. now destruct (m t) as [[a|e] t']. Qed.

Lemma mark_complete_keys now habit_id t :
  dict_mem habit_id (st_completions (habits t)) = true ->
  dict_keys (st_habits (habits (after (mark_complete now habit_id) t)))
  = dict_keys (st_habits (habits t)) /\
  dict_keys (st_completions (habits (after (mark_complete now habit_id) t)))
  = dict_keys (st_completions (habits t)).
Proof.
  intros Hm. unfold mark_complete.
  rewrite after_bind. cbn [get_completions]. rewrite Hm. cbn [negb when].
  rewrite after_bind. cbn [ret]. rewrite after_bind. cbn [get_completions].
  rewrite after_bind. unfold lift, dict_getitem.
  pose proof Hm as Hm'. unfold dict_mem in Hm'.
  destruct (dict_get habit_id (st_completions (habits t))) as [log|];
    [|discriminate].
  destruct (list_mem _ log); [cbn; auto|].
  rewrite after_bind. cbn [put_completions].
  set (t1 := mkTracker _ _ _).
  assert (dict_keys (st_completions (habits t1))
          = dict_keys (st_completions (habits t))
          /\ st_habits (habits t1) = st_habits (habits t)) as [Hc1 Hh1].
  { subst t1. cbn [habits st_completions st_habits].
    now rewrite (dict_keys_set_present _ Hm). }
  clearbody t1.
  pose proof (update_streaks_keys now habit_id t1) as [Hc Hh].
  rewrite after_bind. unfold after in Hc, Hh.
  destruct (update_streaks now habit_id t1) as [[u|e] t2]; cbn [snd] in Hc, Hh.
  - rewrite after_bind. cbn [save_data]. rewrite after_bind. cbn [get_habits].
    cbn [habits]. rewrite after_bind. unfold lift, dict_getitem.
    destruct (dict_get habit_id (st_habits (habits t2))).
    + rewrite after_bind. cbn. rewrite Hc, Hh, Hc1, Hh1. auto.
    + cbn [habits]. rewrite Hc, Hh, Hc1, Hh1. auto.
  - rewrite Hc, Hh, Hc1, Hh1. auto.
Qed.

Lemma store_inv_keys s s' :
  dict_keys (st_habits s') = dict_keys (st_habits s) ->
  dict_keys (st_completions s') = dict_keys (st_completions s) ->
  store_inv s -> store_inv s'.
Proof.
  unfold store_inv, distinct_keys. rewrite !keys_agree_iff.
  intros -> ->. auto.
Qed.

Lemma add_habit_inv now name category frequency goal t :
  store_inv (habits t) ->
  store_inv (habits (after (add_habit now name category frequency goal) t)).
Proof.
  intros (Hdh & Hdc & Ha). rewrite add_habit_store. cbn zeta.
  set (habit_id := KInt _). unfold store_inv. cbn [st_habits st_completions].
  split; [now apply distinct_keys_set|].
  split; [destruct (dict_mem habit_id _); [assumption|now apply distinct_keys_set]|].
  apply keys_agree_iff. cbn [st_habits st_completions].
  rewrite keys_agree_iff in Ha. intros k. rewrite dict_mem_set_keys, Ha.
  destruct (dict_mem habit_id (st_completions (habits t))) eqn:Hm.
  - apply dict_mem_keys in Hm. split; [intros [->|?]; assumption|auto].
  - now rewrite dict_mem_set_keys.
Qed.

Lemma delete_habit_inv habit_id t :
  store_inv (habits t) -> store_inv (habits (after (delete_habit habit_id) t)).
Proof.
  intros (Hdh & Hdc & Ha). rewrite delete_habit_store. cbn zeta.
  destruct (dict_mem habit_id (st_habits (habits t))) eqn:Hm;
    [|now repeat split].
  rewrite <- (Ha habit_id), Hm.
  unfold store_inv. cbn [st_habits st_completions].
  split; [now apply distinct_keys_remove|].
  split; [now apply distinct_keys_remove|].
  apply keys_agree_iff. cbn [st_habits st_completions].
  rewrite keys_agree_iff in Ha. intros k.
  rewrite !dict_remove_keys by assumption. now rewrite Ha.
Qed.

Lemma mark_complete_inv now habit_id t :
  dict_mem habit_id (st_habits (habits t)) = true ->
  store_inv (habits t) -> store_inv (habits (after (mark_complete now habit_id) t)).
Proof.
  intros Hm Hinv. pose proof Hinv as (_ & _ & Ha).
  rewrite (Ha habit_id) in Hm.
  destruct (mark_complete_keys now Hm) as [Hh Hc].
  exact (store_inv_keys Hh Hc Hinv).
Qed.

(** The invariant of the store is kept by every sequence of operations in
    which [mark_complete] is called for existing habits only. *)
Lemma store_inv_preserved ops :
  forall t, store_inv (habits t) -> marks_known t ops ->
            store_inv (habits (apply_operations t ops)).
Proof.
  induction ops as [|o ops IH]; intros t Hinv Hk; [exact Hinv|].
  destruct Hk as [Ho Hk]. cbn [apply_operations fold_left].
  apply IH; [|exact Hk].
  destruct o as [now name category frequency goal|now habit_id|habit_id];
    cbn [apply_operation].
  - now apply add_habit_inv.
  - now apply mark_complete_inv.
  - now apply delete_habit_inv.
Qed.

End Invariant.

Section MarkComplete.

Variables (now : datetime) (habit_id : Key) (t : HabitTracker).

Local Abbreviation today := (isoformat (dt_date now)).

Lemma today_well_formed : clock_ok now -> well_formed today.
Proof. intros Hc. exists (dt_date now). now apply isoformat_fromisoformat. Qed.

(** The rejection of a second completion on the same day. *)
Lemma mark_complete_already log :
  dict_get habit_id (st_completions (habits t)) = Some log ->
  In today log ->
  mark_complete now habit_id t = (Ok false, printed t [MsgAlreadyCompleted]).
Proof.
  intros Hlog Hin.
  unfold mark_complete, bind, get_completions, when, lift, dict_getitem,
    dict_mem.
  rewrite Hlog. cbn. rewrite Hlog.
  apply list_mem_In in Hin. rewrite Hin. reflexivity.
Qed.

(** The first completion of the day, for an existing habit with a
    well-formed log: the date is appended, both streaks are recomputed, the
    file is rewritten and [True] is returned. *)
Lemma mark_complete_succeeds log h :
  clock_ok now ->
  dict_get habit_id (st_completions (habits t)) = Some log ->
  dict_get habit_id (st_habits (habits t)) = Some h ->
  Forall well_formed log ->
  ~ In today log ->
  exists current longest,
    compute_streaks (log ++ [today]) (dt_date now) = Ok (current, longest) /\
    mark_complete now habit_id t
    = (Ok true,
       let s := mkStore
                  (dict_set habit_id (with_streaks h current longest)
                            (st_habits (habits t)))
                  (dict_set habit_id (log ++ [today])%list
                            (st_completions (habits t))) in
       mkTracker s (Some (dump s)) (stdout t ++ [MsgMarked (name h)])).
Proof.
  intros Hclock Hlog Hhabit Hwf Hnin.
  assert (Forall well_formed (log ++ [today])) as Hwf'
      by (apply Forall_app; split;
          [exact Hwf|repeat constructor; now apply today_well_formed]).
  pose proof (compute_streaks_dates (dt_date now) Hwf') as Hc.
  destruct (streaks_of _ _) as [current longest].
  exists current, longest. split; [exact Hc|].
  unfold mark_complete.
  unfold bind at 1, get_completions at 1.
  assert (dict_mem habit_id (st_completions (habits t)) = true) as Hm
      by (unfold dict_mem; now rewrite Hlog).
  rewrite Hm. cbn [negb when]. unfold bind at 1, ret at 1.
  unfold bind at 1, get_completions at 1.
  unfold bind at 1, lift at 1, dict_getitem. rewrite Hlog.
  destruct (list_mem today log) eqn:Hmem;
    [apply list_mem_In in Hmem; contradiction|].
  unfold bind at 1, put_completions at 1.
  unfold bind at 1.
  erewrite update_streaks_stores;
    [| cbn [habits st_completions]; apply dict_get_set_eq
     | cbn [habits st_habits]; exact Hhabit
     | exact Hc ].
  unfold bind, save_data, get_habits, lift, dict_getitem, with_habits.
  cbn [habits st_habits st_completions data_file stdout].
  rewrite dict_get_set_eq. reflexivity.
Qed.

(** The same call for an identifier that neither collection has: the log
    gets an entry with today's date before the lookup of the habit
    raises. *)
Lemma mark_complete_unknown :
  clock_ok now ->
  dict_mem habit_id (st_habits (habits t)) = false ->
  dict_mem habit_id (st_completions (habits t)) = false ->
  mark_complete now habit_id t
  = (Raise KeyError,
     mkTracker (mkStore (st_habits (habits t))
                        (dict_set habit_id [today] (st_completions (habits t))))
               (data_file t) (stdout t)).
Proof.
  intros Hclock Hh Hc.
  assert (compute_streaks [today] (dt_date now) = Ok (1, 1)) as Hs.
  { rewrite compute_streaks_dates
      by (repeat constructor; now apply today_well_formed).
    cbn [map sort_dates insert_date]. unfold date_of.
    rewrite isoformat_fromisoformat by exact Hclock.
    unfold streaks_of. cbn [rev app current_walk longest_scan].
    now rewrite Z.eqb_refl. }
  unfold mark_complete.
  unfold bind at 1, get_completions at 1. rewrite Hc. cbn [negb when].
  unfold bind at 1, put_completions at 1.
  unfold bind at 1, get_completions at 1.
  cbn [habits st_completions st_habits data_file stdout].
  unfold bind at 1, lift at 1, dict_getitem. rewrite dict_get_set_eq.
  cbn [list_mem existsb]. unfold bind at 1, put_completions at 1.
  cbn [habits st_completions st_habits data_file stdout app].
  rewrite dict_set_set.
  unfold bind at 1.
  unfold update_streaks, bind, get_completions, get_habits, lift, dict_getitem.
  cbn [habits st_completions st_habits data_file stdout].
  rewrite dict_get_set_eq, Hs.
  unfold dict_mem in Hh.
  destruct (dict_get habit_id (st_habits (habits t))); [discriminate|].
  reflexivity.
Qed.

End MarkComplete.

(** Scenario C for every store: after a completion that succeeded, the
    same call on the same day is rejected and nothing changes. *)
Lemma mark_complete_twice now habit_id t log h :
  clock_ok now ->
  dict_get habit_id (st_completions (habits t)) = Some log ->
  dict_get habit_id (st_habits (habits t)) = Some h ->
  Forall well_formed log ->
  ~ In (isoformat (dt_date now)) log ->
  let t1 := after (mark_complete now habit_id) t in
  fst (mark_complete now habit_id t) = Ok true /\
  mark_complete now habit_id t1 = (Ok false, printed t1 [MsgAlreadyCompleted]) /\
  dict_get habit_id (st_completions (habits t1))
  = Some (log ++ [isoformat (dt_date now)])%list.
Proof.
  intros Hclock Hlog Hhabit Hwf Hnin t1.
  destruct (mark_complete_succeeds Hclock Hlog Hhabit Hwf Hnin)
    as (current & longest & _ & Heq).
  assert (dict_get habit_id (st_completions (habits t1))
          = Some (log ++ [isoformat (dt_date now)])%list) as Hlog1.
  { subst t1. unfold after. rewrite Heq. cbn. apply dict_get_set_eq. }
  split; [now rewrite Heq|]. split; [|exact Hlog1].
  apply (mark_complete_already Hlog1). apply in_or_app. right. now left.
Qed.

(* --------------------------------------------------------------------- *)
(** ** The streak properties *)

(** C1.  For every completion-date set (a list of well-formed dates without
    repetition) and every reference date from 0001-01-02 on, where the day
    before is a date too, [update_streaks] returns, and the habit it leaves
    has [longest_streak >= current_streak]; the two fields are the pair
    computed from the completion list. *)
Theorem longest_streak_ge_current_streak
    (now : datetime) (habit_id : Key) (t : HabitTracker)
    (completions : list string) (h : Habit) :
  2 <= dt_date now <= MAXORDINAL ->
  dict_get habit_id (st_completions (habits t)) = Some completions ->
  dict_get habit_id (st_habits (habits t)) = Some h ->
  NoDup completions ->
  Forall well_formed completions ->
  exists (t' : HabitTracker) (h' : Habit),
    update_streaks now habit_id t = (Ok tt, t') /\
    dict_get habit_id (st_habits (habits t')) = Some h' /\
    compute_streaks completions (dt_date now)
    = Ok (current_streak h', longest_streak h') /\
    longest_streak h' >= current_streak h'.
Proof.
  intros _ Hlog Hhabit Hnd Hwf.
  pose proof (compute_streaks_dates (dt_date now) Hwf) as Hc.
  pose proof (@streaks_of_le _ (dt_date now) (dates_NoDup Hwf Hnd)) as Hle.
  destruct (streaks_of _ _) as [current longest]. cbn [fst snd] in Hle.
  eexists. exists (with_streaks h current longest).
  split; [exact (update_streaks_stores Hlog Hhabit Hc)|].
  split; [cbn; apply dict_get_set_eq|].
  split; [exact Hc|]. cbn. lia.
Qed.

Lemma longest_streak_ge_current_streak_witness :
  exists (t' : HabitTracker) (h' : Habit),
    update_streaks sunday (KStr "1")
      (tracker_with ["2024-03-10"; "2024-03-05"; "2024-03-04"; "2024-03-03"])
    = (Ok tt, t') /\
    dict_get (KStr "1") (st_habits (habits t')) = Some h' /\
    compute_streaks ["2024-03-10"; "2024-03-05"; "2024-03-04"; "2024-03-03"]
                    (dt_date sunday)
    = Ok (current_streak h', longest_streak h') /\
    longest_streak h' >= current_streak h'.
Proof.
  apply (@longest_streak_ge_current_streak sunday (KStr "1")
           (tracker_with ["2024-03-10"; "2024-03-05"; "2024-03-04";
                          "2024-03-03"])
           ["2024-03-10"; "2024-03-05"; "2024-03-04"; "2024-03-03"] reading).
  - unfold MAXORDINAL. simpl. lia.
  - reflexivity.
  - reflexivity.
  - repeat constructor; simpl; intuition discriminate.
  - repeat constructor; eexists; vm_compute; reflexivity.
Defined.

(** C5.  Scenario B: when the completion list holds, in any order, the
    texts of today and of the days 5, 6 and 7 before it, the recomputation
    yields [current_streak = 1] and [longest_streak = 3]. *)
Theorem scenario_B_gap_before_today
    (now : datetime) (habit_id : Key) (t : HabitTracker)
    (completions : list string) (h : Habit) (s0 s5 s6 s7 : string) :
  dict_get habit_id (st_completions (habits t)) = Some completions ->
  dict_get habit_id (st_habits (habits t)) = Some h ->
  fromisoformat s0 = Ok (dt_date now) ->
  fromisoformat s5 = Ok (dt_date now - 5) ->
  fromisoformat s6 = Ok (dt_date now - 6) ->
  fromisoformat s7 = Ok (dt_date now - 7) ->
  Permutation completions [s0; s5; s6; s7] ->
  compute_streaks completions (dt_date now) = Ok (1, 3) /\
  update_streaks now habit_id t
  = (Ok tt,
     with_habits t (dict_set habit_id (with_streaks h 1 3)
                             (st_habits (habits t)))).
Proof.
  intros Hlog Hhabit H0 H5 H6 H7 Hp.
  set (today := dt_date now) in *.
  assert (Forall well_formed completions) as Hwf.
  { apply (Permutation_Forall (Permutation_sym Hp)).
    repeat constructor; eexists; eassumption. }
  assert (compute_streaks completions today = Ok (1, 3)) as Hc.
  { rewrite (compute_streaks_dates today Hwf).
    rewrite (@sort_dates_of_perm _ [today - 7; today - 6; today - 5; today]).
    - unfold streaks_of. cbn [rev app current_walk longest_scan].
      rewrite Z.eqb_refl. cbn [orb].
      replace (today - 5 =? today) with false by (symmetry; apply Z.eqb_neq; lia).
      replace (today - 5 =? today - 1) with false
        by (symmetry; apply Z.eqb_neq; lia).
      replace (today - 6 - (today - 7) =? 1) with true
        by (symmetry; apply Z.eqb_eq; lia).
      replace (today - 5 - (today - 6) =? 1) with true
        by (symmetry; apply Z.eqb_eq; lia).
      replace (today - (today - 5) =? 1) with false
        by (symmetry; apply Z.eqb_neq; lia).
      reflexivity.
    - repeat constructor; lia.
    - rewrite (Permutation_map date_of Hp). cbn [map]. unfold date_of.
      rewrite H0, H5, H6, H7.
      apply (Permutation_rev [today; today - 5; today - 6; today - 7]). }
  split; [exact Hc|]. exact (update_streaks_stores Hlog Hhabit Hc).
Qed.

Lemma scenario_B_gap_before_today_witness :
  compute_streaks ["2024-03-04"; "2024-03-10"; "2024-03-03"; "2024-03-05"]
                  (dt_date sunday) = Ok (1, 3) /\
  update_streaks sunday (KStr "1")
    (tracker_with ["2024-03-04"; "2024-03-10"; "2024-03-03"; "2024-03-05"])
  = (Ok tt,
     with_habits
       (tracker_with ["2024-03-04"; "2024-03-10"; "2024-03-03"; "2024-03-05"])
       (dict_set (KStr "1") (with_streaks reading 1 3) [(KStr "1", reading)])).
Proof.
  apply (@scenario_B_gap_before_today sunday (KStr "1")
           (tracker_with ["2024-03-04"; "2024-03-10"; "2024-03-03";
                          "2024-03-05"])
           ["2024-03-04"; "2024-03-10"; "2024-03-03"; "2024-03-05"] reading
           "2024-03-10" "2024-03-05" "2024-03-04" "2024-03-03").
  - reflexivity.
  - reflexivity.
  - vm_compute; reflexivity.
  - vm_compute; reflexivity.
  - vm_compute; reflexivity.
  - vm_compute; reflexivity.
  - apply perm_trans with ["2024-03-10"; "2024-03-04"; "2024-03-03"; "2024-03-05"].
    + apply perm_swap.
    + apply perm_skip.
      apply perm_trans with ["2024-03-04"; "2024-03-05"; "2024-03-03"].
      * apply perm_skip, perm_swap.
      * apply perm_trans with ["2024-03-05"; "2024-03-04"; "2024-03-03"].
        -- apply perm_swap.
        -- apply Permutation_refl.
Defined.

(** C6, as stated, fails: with yesterday, today and tomorrow completed the
    loop meets tomorrow first and stops, so the current streak is 0, while
    on the dates up to today it is 2. *)
Lemma future_date_hides_current_run :
  ~ future_dates_ignored ["2024-03-09"; "2024-03-10"; "2024-03-11"]
                         (dt_date sunday).
Proof. unfold future_dates_ignored. vm_compute. discriminate. Qed.

(** C6, amended.  When the completion list holds a date strictly after
    today, and today is 0001-01-02 or later, so that yesterday is a date,
    the walk starts at the newest completion, which is neither today nor
    yesterday, and stops there: [current_streak] is 0.  No future date is
    counted, and neither is a run that ends today or yesterday. *)
Theorem future_date_stops_current_streak
    (completions : list string) (today : date) (s : string) (d : date) :
  2 <= today <= MAXORDINAL ->
  Forall well_formed completions ->
  In s completions ->
  fromisoformat s = Ok d ->
  today < d ->
  exists longest : Z, compute_streaks completions today = Ok (0, longest).
Proof.
  intros _ Hwf Hin Hs Hlt.
  rewrite (compute_streaks_dates today Hwf).
  assert (In d (map date_of completions)) as Hd.
  { apply in_map_iff. exists s. split; [|exact Hin].
    unfold date_of. now rewrite Hs. }
  pose proof (current_walk_future Hd Hlt) as H0.
  destruct (streaks_of _ _) as [current longest]. cbn [fst] in H0. subst.
  now exists longest.
Qed.

Lemma future_date_stops_current_streak_witness :
  exists longest : Z,
    compute_streaks ["2024-03-09"; "2024-03-10"; "2024-03-11"] (dt_date sunday)
    = Ok (0, longest).
Proof.
  apply (@future_date_stops_current_streak
           ["2024-03-09"; "2024-03-10"; "2024-03-11"] (dt_date sunday)
           "2024-03-11" 738956).
  - unfold MAXORDINAL. simpl. lia.
  - repeat constructor; eexists; vm_compute; reflexivity.
  - simpl. auto.
  - vm_compute; reflexivity.
  - vm_compute; reflexivity.
Defined.

(* --------------------------------------------------------------------- *)
(** ** Marking a habit twice on one day *)

(** C8.  When the habit's completion list already holds today's date,
    [mark_complete] prints the rejection and returns [False]; the store and
    the file are as before, so the completion list has kept its size. *)
Theorem second_mark_complete_is_rejected
    (now : datetime) (habit_id : Key) (t : HabitTracker)
    (completions : list string) :
  dict_get habit_id (st_completions (habits t)) = Some completions ->
  In (isoformat (dt_date now)) completions ->
  mark_complete now habit_id t = (Ok false, printed t [MsgAlreadyCompleted]) /\
  habits (after (mark_complete now habit_id) t) = habits t /\
  data_file (after (mark_complete now habit_id) t) = data_file t.
Proof.
  intros Hlog Hin.
  pose proof (mark_complete_already Hlog Hin) as Heq.
  unfold after. rewrite Heq. auto.
Qed.

Lemma second_mark_complete_is_rejected_witness :
  mark_complete sunday (KStr "1")
    (after (mark_complete sunday (KStr "1")) (tracker_with []))
  = (Ok false,
     printed (after (mark_complete sunday (KStr "1")) (tracker_with []))
             [MsgAlreadyCompleted]) /\
  habits (after (mark_complete sunday (KStr "1"))
            (after (mark_complete sunday (KStr "1")) (tracker_with [])))
  = habits (after (mark_complete sunday (KStr "1")) (tracker_with [])) /\
  data_file (after (mark_complete sunday (KStr "1"))
               (after (mark_complete sunday (KStr "1")) (tracker_with [])))
  = data_file (after (mark_complete sunday (KStr "1")) (tracker_with [])).
Proof.
  apply (@second_mark_complete_is_rejected sunday (KStr "1")
           (after (mark_complete sunday (KStr "1")) (tracker_with []))
           ["2024-03-10"]).
  - vm_compute; reflexivity.
  - vm_compute. left. reflexivity.
Defined.

(* --------------------------------------------------------------------- *)
(** ** The two reports *)

Section Reports.

Lemma printed_nil t : printed t [] = t.
Proof. destruct t. unfold printed. cbn. now rewrite app_nil_r. Qed.

Lemma printed_app t out out' :
  printed (printed t out) out' = printed t (out ++ out').
Proof. unfold printed. cbn. now rewrite app_assoc. Qed.

(** A loop whose body prints one line at every turn prints the lines one
    after the other and changes nothing else. *)
Lemma for_each_prints (A : Type) (l : list A) (body : A -> M unit)
    (P : Msg -> Prop) :
  (forall x t, In x l -> exists m, body x t = (Ok tt, printed t [m]) /\ P m) ->
  forall t, exists out,
    for_each l body t = (Ok tt, printed t out) /\ Forall P out.
Proof.
  induction l as [|x l IH]; intros Hbody t.
  - exists []. cbn. rewrite printed_nil. auto.
  - destruct (Hbody x t (or_introl eq_refl)) as (m & Hm & Pm).
    destruct (IH (fun y t' Hy => Hbody y t' (or_intror Hy)) (printed t [m]))
      as (out & Hout & Pout).
    exists (m :: out). cbn [for_each]. unfold bind at 1.
    rewrite Hm, Hout, printed_app. auto.
Qed.

(** The guard [total > 0] keeps the division away from zero, and the value
    is the specified one for every count [total]. *)
Lemma percentage_of_spec completed total :
  0 <= total ->
  percentage_of completed total = Ok (spec_percentage completed total).
Proof.
  intros Hge. unfold percentage_of, spec_percentage, truediv.
  destruct (Z.ltb_spec 0 total), (Z.eqb_spec total 0); try lia; reflexivity.
Qed.

Lemma avg_streak_of_spec streaks :
  avg_streak_of streaks = Ok (spec_average streaks).
Proof.
  destruct streaks as [|x streaks]; [reflexivity|].
  unfold avg_streak_of, spec_average, truediv.
  destruct (Z.eqb_spec (Z.of_nat (List.length (x :: streaks))) 0) as [E|_];
    [|reflexivity].
  cbn [List.length] in E. lia.
Qed.

Lemma len_nonneg (K V : Type) (d : dict K V) : 0 <= len d.
Proof. unfold len. lia. Qed.

(** *** The category table keeps non-negative totals *)

Lemma stats_get_nonneg c d : totals_nonneg d -> 0 <= cat_total (stats_get c d).
Proof.
  unfold stats_get. intros Hd.
  induction Hd as [|[c' s'] d Hs Hd IH]; simpl; [lia|].
  destruct (key_eqb c c'); auto.
Qed.

Lemma dict_set_nonneg c st d :
  0 <= cat_total st -> totals_nonneg d -> totals_nonneg (dict_set c st d).
Proof.
  intros Hst Hd. induction Hd as [|[c' s'] d Hs Hd IH]; simpl.
  - repeat constructor. exact Hst.
  - destruct (key_eqb c c'); constructor; auto.
Qed.

Lemma count_habit_nonneg d kv :
  totals_nonneg d -> totals_nonneg (count_habit d kv).
Proof.
  intros Hd. unfold count_habit.
  apply dict_set_nonneg; cbn.
  - apply stats_get_nonneg, dict_set_nonneg; [|exact Hd].
    cbn. pose proof (@stats_get_nonneg (category (snd kv)) d Hd). lia.
  - apply dict_set_nonneg; [|exact Hd].
    cbn. pose proof (@stats_get_nonneg (category (snd kv)) d Hd). lia.
Qed.

Lemma fold_count_habit_nonneg hs d :
  totals_nonneg d -> totals_nonneg (fold_left count_habit hs d).
Proof.
  revert d. induction hs as [|kv hs IH]; intros d Hd; simpl; [exact Hd|].
  now apply IH, count_habit_nonneg.
Qed.

(** The second loop can only fail on a missing habit. *)
Lemma count_all_completed_cases hs ids :
  forall d, totals_nonneg d ->
    (exists d', count_all_completed hs d ids = Ok d' /\ totals_nonneg d') \/
    count_all_completed hs d ids = Raise KeyError.
Proof.
  induction ids as [|habit_id ids IH]; intros d Hd; cbn.
  - left. eauto.
  - unfold count_completed, dict_getitem.
    destruct (dict_get habit_id hs) as [h|]; cbn; [|now right].
    apply IH. apply dict_set_nonneg; [|exact Hd].
    cbn. exact (@stats_get_nonneg (category h) d Hd).
Qed.

Lemma category_line_spec c stats :
  0 <= cat_total stats ->
  exists m, category_line c stats = Ok m /\ line_ok m.
Proof.
  intros Hge. unfold category_line.
  rewrite (percentage_of_spec _ Hge), avg_streak_of_spec. cbn.
  eexists. split; reflexivity.
Qed.

Lemma view_weekly_report_prints now t :
  exists out,
    view_weekly_report now t = (Ok tt, printed t out) /\ Forall line_ok out.
Proof.
  unfold view_weekly_report.
  unfold bind at 1, get_habits at 1. unfold bind at 1, get_completions at 1.
  set (hs := st_habits (habits t)). set (cs := st_completions (habits t)).
  match goal with
  | |- context [for_each ?l ?body] =>
      destruct (@for_each_prints _ l body line_ok) with (t := t)
        as (out & Hout & Pout)
  end.
  { intros [day completed] t' _.
    unfold bind, lift. rewrite (percentage_of_spec _ (@len_nonneg _ _ hs)).
    eexists. split; reflexivity. }
  unfold bind at 1. rewrite Hout.
  unfold bind, lift.
  rewrite percentage_of_spec by (pose proof (@len_nonneg _ _ hs); lia).
  eexists. unfold print. fold (printed (printed t out)).
  change (mkTracker (habits (printed t out)) (data_file (printed t out))
            (stdout (printed t out) ++ ?m))
    with (printed (printed t out) m).
  rewrite printed_app. split; [reflexivity|].
  apply Forall_app. split; [exact Pout|]. repeat constructor.
Qed.

Lemma view_category_stats_prints now t :
  exists r out,
    view_category_stats now t = (r, printed t out) /\
    r <> Raise ZeroDivisionError /\ Forall line_ok out.
Proof.
  unfold view_category_stats, get_today_completions.
  unfold bind at 1, get_habits at 1.
  unfold bind at 1. unfold bind at 1, get_completions at 1, ret at 1.
  unfold bind at 1, lift at 1.
  set (hs := st_habits (habits t)).
  match goal with
  | |- context [count_all_completed hs ?d ?ids] =>
      destruct (@count_all_completed_cases hs ids d) as [(d' & Hd' & Hnn)|Hraise]
  end.
  - apply fold_count_habit_nonneg. constructor.
  - rewrite Hd'.
    match goal with
    | |- context [for_each ?l ?body] =>
        destruct (@for_each_prints _ l body line_ok) with (t := t)
          as (out & Hout & Pout)
    end.
    { intros [c stats] t' Hin. unfold bind, lift. cbn [fst snd].
      unfold totals_nonneg in Hnn. rewrite Forall_forall in Hnn.
      destruct (@category_line_spec c stats (Hnn _ Hin)) as (m & Hm & Pm).
      rewrite Hm. exists m. split; [reflexivity|exact Pm]. }
    exists (Ok tt), out. rewrite Hout. repeat split; [discriminate|exact Pout].
  - rewrite Hraise. exists (Raise KeyError), []. rewrite printed_nil.
    repeat split; [discriminate|constructor].
Qed.

End Reports.

(** C9.  Both reports guard every division: neither ever raises
    [ZeroDivisionError].  In a week that lies within the calendar the
    weekly report returns; the category report can only fail on a missing
    habit, never on a division.  Every percentage printed is
    [completed/total * 100], and 0 when [total] is 0; the average of a
    group is the sum over the count, and 0 for an empty group. *)
Theorem reports_guard_every_division (now : datetime) (t : HabitTracker) :
  fst (view_weekly_report now t) <> Raise ZeroDivisionError /\
  (week_in_calendar (dt_date now) ->
   exists out,
     view_weekly_report now t = (Ok tt, printed t out) /\
     Forall line_ok out) /\
  (exists r out,
     view_category_stats now t = (r, printed t out) /\
     r <> Raise ZeroDivisionError /\ Forall line_ok out) /\
  (forall completed, percentage_of completed 0 = Ok 0%Q) /\
  (forall completed (total : positive),
     percentage_of completed (Z.pos total)
     = Ok (inject_Z completed / inject_Z (Z.pos total) * 100)%Q) /\
  (forall streaks, avg_streak_of streaks = Ok (spec_average streaks)) /\
  avg_streak_of [] = Ok 0%Q.
Proof.
  split.
  { destruct (view_weekly_report_prints now t) as (out & Hout & _).
    rewrite Hout. discriminate. }
  split; [intros _; apply view_weekly_report_prints|].
  split; [apply view_category_stats_prints|].
  split; [reflexivity|].
  split; [reflexivity|].
  split; [apply avg_streak_of_spec|reflexivity].
Qed.

Lemma reports_guard_every_division_witness :
  exists out,
    view_weekly_report sunday two_habits = (Ok tt, printed two_habits out) /\
    Forall line_ok out.
Proof.
  apply (proj1 (proj2 (reports_guard_every_division sunday two_habits))).
  unfold week_in_calendar, weekday, MAXORDINAL. simpl. lia.
Defined.

(* --------------------------------------------------------------------- *)
(** ** Writing the file and reading it back *)

Section RoundTrip.

Lemma traverse_map (A B C : Type) (f : B -> option C) (g : A -> B)
    (h : A -> C) (l : list A) :
  (forall x, In x l -> f (g x) = Some (h x)) ->
  traverse f (map g l) = Some (map h l).
Proof.
  induction l as [|x l IH]; intros Hf; simpl; [reflexivity|].
  rewrite Hf by now left. rewrite IH; [reflexivity|].
  intros y Hy. apply Hf. now right.
Qed.

(** Members with pairwise different names are read back in the order
    written. *)
Lemma dict_of_members_distinct (V : Type) (l : list (string * V)) :
  NoDup (map fst l) -> dict_of_members l = l.
Proof.
  unfold dict_of_members.
  enough (forall acc, NoDup (map fst (acc ++ l)) ->
            fold_left (fun d kv => dict_set (fst kv) (snd kv) d) l acc
            = (acc ++ l)%list) as Hgen by (intros Hnd; exact (Hgen [] Hnd)).
  induction l as [|[k v] l IH]; intros acc Hnd; simpl.
  - now rewrite app_nil_r.
  - rewrite dict_set_absent.
    + rewrite IH; rewrite <- app_assoc; [reflexivity|exact Hnd].
    + rewrite map_app in Hnd. apply NoDup_remove_2 in Hnd.
      intros Hin. apply Hnd. apply in_or_app. now left.
Qed.

Lemma load_dump_habit h : load_habit (dump_habit h) = Some h.
Proof. destruct h as [n c f [g|] cd cs ls]; reflexivity. Qed.

Lemma load_dump_dates dates : load_dates (dump_dates dates) = Some dates.
Proof.
  unfold load_dates, dump_dates.
  rewrite (@traverse_map _ _ _ load_str JStr (fun s => s)) by reflexivity.
  now rewrite map_id.
Qed.

Lemma text_keys_dump (V : Type) (d : dict Key V) :
  text_keys d ->
  map (fun kv => (KStr (dump_key (fst kv)), snd kv)) d = d.
Proof.
  induction 1 as [|[k v] d [s Hs] _ IH]; simpl; [reflexivity|].
  simpl in Hs. subst k. simpl. now rewrite IH.
Qed.

Lemma text_keys_distinct (V : Type) (d : dict Key V) :
  text_keys d -> distinct_keys d -> NoDup (map dump_key (dict_keys d)).
Proof.
  unfold distinct_keys, dict_keys. intros Ht Hnd.
  apply NoDup_map_NoDup_ForallPairs; [|exact Hnd].
  intros k k' Hk Hk' Heq.
  unfold text_keys in Ht. rewrite Forall_forall in Ht.
  apply in_map_iff in Hk. destruct Hk as ([k0 v] & <- & Hin).
  apply in_map_iff in Hk'. destruct Hk' as ([k0' v'] & <- & Hin').
  destruct (Ht _ Hin) as [s Hs]. destruct (Ht _ Hin') as [s' Hs'].
  simpl in *. subst. simpl in Heq. now subst.
Qed.

Lemma load_dump_dict (V : Type) (f : json -> option V) (g : V -> json)
    (d : dict Key V) :
  (forall v, f (g v) = Some v) ->
  text_keys d -> distinct_keys d ->
  load_dict f (dump_dict g d) = Some d.
Proof.
  intros Hfg Ht Hnd. unfold load_dict, dump_dict.
  erewrite (@traverse_map _ _ _ _ _ (fun kv => (dump_key (fst kv), snd kv))).
  - rewrite dict_of_members_distinct.
    + rewrite map_map. cbn [fst snd]. now rewrite text_keys_dump.
    + rewrite map_map. cbn [fst]. rewrite <- (map_map fst dump_key).
      now apply text_keys_distinct.
  - intros kv _. cbn [fst snd]. now rewrite Hfg.
Qed.

Lemma load_two_fields (A B : Type) (f : json -> option A)
    (g : json -> option B) (a b : json) :
  field (dict_of_members [("habits", a); ("completions", b)]) "habits" f = f a
  /\ field (dict_of_members [("habits", a); ("completions", b)])
            "completions" g = g b.
Proof. split; reflexivity. Qed.

(** A store with text identifiers is read back exactly as written. *)
Lemma load_dump s : loaded_shape s -> load (dump s) = Some s.
Proof.
  intros (Hth & Hdh & Htc & Hdc). destruct s as [hs cs].
  cbn [st_habits st_completions] in *. unfold load, dump.
  cbn [st_habits st_completions].
  destruct (load_two_fields (load_dict load_habit) (load_dict load_dates)
              (dump_dict dump_habit hs) (dump_dict dump_dates cs)) as [-> ->].
  rewrite (load_dump_dict load_dump_habit Hth Hdh).
  rewrite (load_dump_dict load_dump_dates Htc Hdc). reflexivity.
Qed.

Lemma save_then_load t :
  loaded_shape (habits t) ->
  bind save_data (fun _ => load_data) t
  = (Ok (habits t), mkTracker (habits t) (Some (dump (habits t))) (stdout t)).
Proof.
  intros Hs. unfold bind, save_data, load_data.
  cbn [data_file habits stdout]. now rewrite (load_dump Hs).
Qed.

End RoundTrip.

(* --------------------------------------------------------------------- *)
(** ** Identifiers: integers in the session, texts in the file *)

(** [add_habit] always keys the new habit by the integer [len + 1]. *)
Lemma add_habit_returns now name category frequency goal t :
  fst (add_habit now name category frequency goal t)
  = Ok (KInt (len (st_habits (habits t)) + 1)).
Proof.
  unfold add_habit, bind, get_habits, put_habits, get_completions, when.
  cbn. destruct (dict_mem _ _); reflexivity.
Qed.

(** On a store that has no habit and no log under the next integer, the
    new habit is appended with both streaks 0 and an empty log. *)
Lemma add_habit_fresh now name category frequency goal t :
  let habit_id := KInt (len (st_habits (habits t)) + 1) in
  dict_mem habit_id (st_habits (habits t)) = false ->
  dict_mem habit_id (st_completions (habits t)) = false ->
  habits (after (add_habit now name category frequency goal) t)
  = mkStore
      (st_habits (habits t)
       ++ [(habit_id,
            mkHabit name category frequency goal (datetime_isoformat now) 0 0)])%list
      (st_completions (habits t) ++ [(habit_id, [])])%list.
Proof.
  intros habit_id Hh Hc. rewrite add_habit_store. cbn zeta.
  fold habit_id. rewrite Hc.
  apply dict_mem_absent in Hh. apply dict_mem_absent in Hc.
  now rewrite (dict_set_absent _ Hh), (dict_set_absent _ Hc).
Qed.

(** Scenario E: deleting an identifier that no habit has prints "not
    found" and changes neither the store nor the file. *)
Lemma delete_habit_unknown habit_id t :
  dict_mem habit_id (st_habits (habits t)) = false ->
  delete_habit habit_id t = (Ok tt, printed t [MsgNotFound]).
Proof. intros Hm. unfold delete_habit, bind, get_habits. now rewrite Hm. Qed.

(** C10, as stated, fails: in the second session the habit added at the
    menu has the integer id 3, and deleting the text "3" finds the habit
    loaded from the file under that text, removes it and prints its name. *)
Lemma delete_by_text_hits_loaded_habit :
  dict_mem (KInt 3) (st_habits (habits second_session)) = true /\
  delete_habit (KStr (str_of_int 3)) second_session
  <> (Ok tt, printed second_session [MsgNotFound]) /\
  stdout (after (delete_habit (KStr (str_of_int 3))) second_session)
  = (stdout second_session ++ [MsgDeleted "Save"])%list.
Proof.
  split; [reflexivity|]. split; [|reflexivity].
  intros Heq. apply (f_equal (fun r => stdout (snd r))) in Heq.
  vm_compute in Heq. discriminate.
Qed.

(** C10, amended.  Keys are compared exactly: for a habit stored under the
    integer [n], when no habit is stored under the text of [n],
    [delete_habit] called with that text prints "not found" and leaves the
    store and the file unchanged; the habit is still there. *)
Theorem delete_by_text_misses_integer_key (t : HabitTracker) (n : Z) :
  dict_mem (KInt n) (st_habits (habits t)) = true ->
  dict_mem (KStr (str_of_int n)) (st_habits (habits t)) = false ->
  delete_habit (KStr (str_of_int n)) t = (Ok tt, printed t [MsgNotFound]) /\
  dict_mem (KInt n)
    (st_habits (habits (after (delete_habit (KStr (str_of_int n))) t)))
  = true.
Proof.
  intros Hint Htext.
  pose proof (delete_habit_unknown Htext) as Heq.
  unfold after. rewrite Heq. auto.
Qed.

Lemma delete_by_text_misses_integer_key_witness :
  delete_habit (KStr (str_of_int 1)) one_added
  = (Ok tt, printed one_added [MsgNotFound]) /\
  dict_mem (KInt 1)
    (st_habits (habits (after (delete_habit (KStr (str_of_int 1))) one_added)))
  = true.
Proof.
  apply (@delete_by_text_misses_integer_key one_added 1).
  - vm_compute; reflexivity.
  - vm_compute; reflexivity.
Defined.

(* --------------------------------------------------------------------- *)
(** ** Where the code leaves the specified behaviour *)

(** C2.  [mark_complete] on an identifier that no habit has: the code
    creates a completion list for it, appends today's date and only then
    raises [KeyError], in [update_streaks].  The menu loop catches the
    exception and prints "invalid id"; the store has changed.  The category
    report that follows ends the process. *)
Theorem mark_complete_unknown_id_changes_store :
  dict_mem (KStr "7") (st_habits (habits fresh)) = false /\
  mark_complete sunday (KStr "7") fresh
  = (Raise KeyError,
     mkTracker (mkStore [] [(KStr "7", ["2024-03-10"])]) None []) /\
  run [(sunday, Choice2 "7")] fresh
  = (Ok tt,
     mkTracker (mkStore [] [(KStr "7", ["2024-03-10"])]) None [MsgInvalidId]) /\
  fst (run [(sunday, Choice2 "7"); (sunday, Choice5)] fresh) = Raise KeyError.
Proof. repeat split; vm_compute; reflexivity. Qed.

(** C3.  [add_habit] after a deletion: with habits 1 and 2 added, 2 marked
    and 1 deleted, the collection has one habit, so the next id is 2 again.
    The live habit 2 is overwritten and the new habit inherits its
    completion list.  Across a restart the integer 3 and the text "3" are
    different keys of the store and the same name in the file: the habit
    loaded under "3" is lost when the file is read back. *)
Theorem add_habit_reuses_live_id :
  option_map name (dict_get (KInt 2) (st_habits (habits after_delete)))
  = Some "Read" /\
  fst (add_habit sunday "Walk" "Health" "daily" None after_delete)
  = Ok (KInt 2) /\
  habits (after (add_habit sunday "Walk" "Health" "daily" None) after_delete)
  = mkStore
      [(KInt 2, mkHabit "Walk" "Health" "daily" None "2024-03-10T10:00:00" 0 0)]
      [(KInt 2, ["2024-03-10"])] /\
  option_map name (dict_get (KStr "3") (st_habits (habits second_session)))
  = Some "Save" /\
  option_map name (dict_get (KInt 3) (st_habits (habits second_session)))
  = Some "Walk" /\
  option_map (fun s => map (fun kv => (fst kv, name (snd kv))) (st_habits s))
             (load (dump (habits second_session)))
  = Some [(KStr "1", "Run"); (KStr "3", "Walk")].
Proof. repeat split; vm_compute; reflexivity. Qed.

(** C4.  The empty store has the same identifiers in both collections;
    after one [mark_complete] on an identifier that no habit has, the
    completion log has an identifier without a habit. *)
Theorem mark_complete_unknown_id_breaks_keys_agree :
  keys_agree (habits fresh) /\
  ~ keys_agree (habits (apply_operations fresh [OpMark sunday (KStr "7")])).
Proof.
  split.
  - intros k. reflexivity.
  - intros Hagree. specialize (Hagree (KStr "7")).
    vm_compute in Hagree. discriminate.
Qed.

(** C7.  A habit added in the session is stored under the integer 1; the
    file holds the name "1", and what is read back has the text "1" as its
    key.  The store read back differs from the one written, and the habit
    is no longer found under its identifier. *)
Theorem round_trip_turns_integer_keys_into_texts :
  dict_mem (KInt 1) (st_habits (habits one_added)) = true /\
  fst (bind save_data (fun _ => load_data) one_added)
  = Ok (mkStore
          [(KStr "1",
            mkHabit "Run" "Health" "daily" None "2024-03-10T10:00:00" 0 0)]
          [(KStr "1", [])]) /\
  fst (bind save_data (fun _ => load_data) one_added)
  <> Ok (habits one_added) /\
  rbind (fst (bind save_data (fun _ => load_data) one_added))
        (fun s => Ok (dict_mem (KInt 1) (st_habits s)))
  = Ok false.
Proof.
  split; [reflexivity|]. split; [reflexivity|]. split; [|reflexivity].
  vm_compute. discriminate.
Qed.

(* --------------------------------------------------------------------- *)
(** ** Scenarios of the specification, run on the model *)

(** Scenario A: today, yesterday and the day before give 3 and 3. *)
Example scenario_A :
  compute_streaks ["2024-03-09"; "2024-03-10"; "2024-03-08"] (dt_date sunday)
  = Ok (3, 3).
Proof. reflexivity. Qed.

(** A single completion older than yesterday gives 0 and 1. *)
Example scenario_old_completion :
  compute_streaks ["2024-03-08"] (dt_date sunday) = Ok (0, 1).
Proof. reflexivity. Qed.

(** A list in which a date is written twice is not a set, and the bound of
    the longest streak on the current one is lost. *)
Example repeated_date :
  compute_streaks ["2024-03-10"; "2024-03-10"] (dt_date sunday) = Ok (2, 1).
Proof. reflexivity. Qed.

(** Scenario D: Monday 2 of 2 (100%), Wednesday 1 of 2 (50%), the other
    days 0. *)
Example scenario_D :
  map day_summary (stdout (after (view_weekly_report sunday) two_habits))
  = [ Some ("2024-03-04", 2, 100%Q); Some ("2024-03-05", 0, 0%Q);
      Some ("2024-03-06", 1, 50%Q); Some ("2024-03-07", 0, 0%Q);
      Some ("2024-03-08", 0, 0%Q); Some ("2024-03-09", 0, 0%Q);
      Some ("2024-03-10", 0, 0%Q); None ].
Proof. vm_compute. reflexivity. Qed.

(* ===================================================================== *)
(** * Part III.  Further properties of the code                           *)
(* ===================================================================== *)

(* --------------------------------------------------------------------- *)
(** ** Supporting facts *)

Section MoreDictFacts.

Context {K V : Type} `{LawfulHashable K}.

Implicit Types (k : K) (v : V) (d : dict K V).

Lemma dict_get_remove_neq k k' d :
  k' <> k -> dict_get k' (dict_remove k d) = dict_get k' d.
Proof.
  intros Hne. induction d as [|[k0 v0] d IH]; simpl; [reflexivity|].
  destruct (key_eqb k k0) eqn:E; simpl.
  - apply key_eqb_eq in E. subst k0. now rewrite key_eqb_neq.
  - now rewrite IH.
Qed.

Lemma dict_mem_remove_eq k d :
  distinct_keys d -> dict_mem k (dict_remove k d) = false.
Proof.
  intros Hd. apply dict_mem_absent. intros Hin.
  apply (dict_remove_keys k k Hd) in Hin. tauto.
Qed.

Lemma dict_get_In k v d : dict_get k d = Some v -> In (k, v) d.
Proof.
  induction d as [|[k0 v0] d IH]; simpl; [discriminate|].
  destruct (key_eqb k k0) eqn:E.
  - apply key_eqb_eq in E. intros [= ->]. subst. now left.
  - auto.
Qed.

Lemma In_dict_get k v d :
  distinct_keys d -> In (k, v) d -> dict_get k d = Some v.
Proof.
  unfold distinct_keys. induction d as [|[k0 v0] d IH]; simpl; [tauto|].
  intros Hnd [[= -> ->]|Hin].
  - now rewrite key_eqb_refl.
  - inversion Hnd as [|? ? Hnin Hnd']; subst.
    rewrite key_eqb_neq; [now apply IH|].
    intros ->. apply Hnin. change k0 with (fst (k0, v)). now apply in_map.
Qed.

End MoreDictFacts.

(* --------------------------------------------------------------------- *)
(** ** The store operations *)

(** X1.  A store in which no identifier occurs twice and both collections
    have the same identifiers stays so under every sequence of [add_habit],
    [delete_habit] and [mark_complete] calls in which [mark_complete] is
    called for habits that exist. *)
Theorem store_invariant_kept (ops : list operation) (t : HabitTracker) :
  store_inv (habits t) ->
  marks_known t ops ->
  store_inv (habits (apply_operations t ops)).
Proof. intros Hinv Hk. exact (store_inv_preserved Hinv Hk). Qed.

Lemma store_invariant_kept_witness : store_inv (habits after_delete).
Proof.
  apply (@store_invariant_kept
           [ OpAdd sunday "Run" "Health" "daily" None;
             OpAdd sunday "Read" "Learning" "daily" None;
             OpMark sunday (KInt 2);
             OpDelete (KInt 1) ] fresh).
  - repeat split; try constructor.
  - simpl. repeat split; vm_compute; reflexivity.
Defined.

(** X2.  [add_habit] always returns the integer [len + 1], stores the new
    record under it with both streaks 0, leaves every other habit and every
    other completion list as it was, rewrites the file with the whole store
    and prints one line.  The identifier has a completion list afterwards:
    the one it had, or the empty one. *)
Theorem add_habit_effect
    (now : datetime) (name category frequency : string)
    (goal : option string) (t : HabitTracker) :
  let habit_id := KInt (len (st_habits (habits t)) + 1) in
  let t' := after (add_habit now name category frequency goal) t in
  fst (add_habit now name category frequency goal t) = Ok habit_id /\
  dict_get habit_id (st_habits (habits t'))
  = Some (mkHabit name category frequency goal (datetime_isoformat now) 0 0) /\
  dict_get habit_id (st_completions (habits t'))
  = Some (match dict_get habit_id (st_completions (habits t)) with
          | Some log => log
          | None => []
          end) /\
  (forall k, k <> habit_id ->
     dict_get k (st_habits (habits t')) = dict_get k (st_habits (habits t)) /\
     dict_get k (st_completions (habits t'))
     = dict_get k (st_completions (habits t))) /\
  data_file t' = Some (dump (habits t')) /\
  stdout t' = (stdout t ++ [MsgAdded name])%list.
Proof.
  intros habit_id t'.
  split; [apply add_habit_returns|].
  assert (habits t'
          = mkStore
              (dict_set habit_id
                 (mkHabit name category frequency goal
                          (datetime_isoformat now) 0 0)
                 (st_habits (habits t)))
              (if dict_mem habit_id (st_completions (habits t))
               then st_completions (habits t)
               else dict_set habit_id [] (st_completions (habits t))))
    as Hs by apply add_habit_store.
  assert (data_file t' = Some (dump (habits t'))
          /\ stdout t' = (stdout t ++ [MsgAdded name])%list) as [Hf Ho].
  { subst t'. unfold after, add_habit, bind, get_habits, put_habits,
      get_completions, when, save_data, print, ret, put_completions.
    cbn. destruct (dict_mem _ _); cbn; auto. }
  rewrite Hs. cbn [st_habits st_completions].
  split; [apply dict_get_set_eq|].
  split.
  { unfold dict_mem.
    destruct (dict_get habit_id (st_completions (habits t))) eqn:E;
      [exact E|apply dict_get_set_eq]. }
  split; [|rewrite <- Hs; auto].
  intros k Hk. split; [now apply dict_get_set_neq|].
  destruct (dict_mem habit_id (st_completions (habits t)));
    [reflexivity|now apply dict_get_set_neq].
Qed.

(** X3.  The first completion of the day for an existing habit whose log is
    well formed, on a day from 0001-01-02 on (the day before is a date
    too): today's text is appended to the log, both streaks are recomputed
    from the new log, the file is rewritten with the new store, the habit's
    name is printed and [True] is returned. *)
Theorem first_mark_complete_succeeds
    (now : datetime) (habit_id : Key) (t : HabitTracker)
    (log : list string) (h : Habit) :
  2 <= dt_date now <= MAXORDINAL ->
  dict_get habit_id (st_completions (habits t)) = Some log ->
  dict_get habit_id (st_habits (habits t)) = Some h ->
  Forall well_formed log ->
  ~ In (isoformat (dt_date now)) log ->
  exists current longest,
    compute_streaks (log ++ [isoformat (dt_date now)]) (dt_date now)
    = Ok (current, longest) /\
    mark_complete now habit_id t
    = (Ok true,
       let s := mkStore
                  (dict_set habit_id (with_streaks h current longest)
                            (st_habits (habits t)))
                  (dict_set habit_id (log ++ [isoformat (dt_date now)])%list
                            (st_completions (habits t))) in
       mkTracker s (Some (dump s)) (stdout t ++ [MsgMarked (name h)])).
Proof.
  intros Hday Hlog Hhabit Hwf Hnin.
  assert (clock_ok now) as Hclock by (unfold clock_ok; lia).
  exact (mark_complete_succeeds Hclock Hlog Hhabit Hwf Hnin).
Qed.

Lemma first_mark_complete_succeeds_witness :
  fst (mark_complete sunday (KStr "1") (tracker_with ["2024-03-09"])) = Ok true.
Proof.
  destruct (@first_mark_complete_succeeds sunday (KStr "1")
              (tracker_with ["2024-03-09"]) ["2024-03-09"] reading)
    as (current & longest & _ & Heq).
  - unfold MAXORDINAL. simpl. lia.
  - reflexivity.
  - reflexivity.
  - repeat constructor. eexists. vm_compute. reflexivity.
  - vm_compute. intros [H|[]]. discriminate H.
  - rewrite Heq. reflexivity.
Defined.

(** X4.  [mark_complete] for an identifier that neither collection has, on
    any store: the completion log gets the identifier with today's date,
    then [KeyError] is raised; the file and the output are untouched. *)
Theorem mark_complete_unknown_id_raises
    (now : datetime) (habit_id : Key) (t : HabitTracker) :
  clock_ok now ->
  dict_mem habit_id (st_habits (habits t)) = false ->
  dict_mem habit_id (st_completions (habits t)) = false ->
  mark_complete now habit_id t
  = (Raise KeyError,
     mkTracker (mkStore (st_habits (habits t))
                        (dict_set habit_id [isoformat (dt_date now)]
                                  (st_completions (habits t))))
               (data_file t) (stdout t)).
Proof. intros Hc Hh Hl. exact (mark_complete_unknown Hc Hh Hl). Qed.

Lemma mark_complete_unknown_id_raises_witness :
  mark_complete sunday (KInt 5) (tracker_with [])
  = (Raise KeyError,
     mkTracker (mkStore [(KStr "1", reading)]
                        [(KStr "1", []); (KInt 5, ["2024-03-10"])])
               None []).
Proof.
  apply (@mark_complete_unknown_id_raises sunday (KInt 5) (tracker_with [])).
  - unfold clock_ok, MAXORDINAL. simpl. lia.
  - reflexivity.
  - reflexivity.
Defined.

(** X5.  [delete_habit] for an existing habit of a store that satisfies the
    invariant: the habit and its completion list are removed, every other
    entry is as before, the file is rewritten with the new store and the
    habit's name is printed.  A second [delete_habit] for the same
    identifier prints "not found" and changes nothing. *)
Theorem delete_existing_habit (habit_id : Key) (t : HabitTracker) (h : Habit) :
  store_inv (habits t) ->
  dict_get habit_id (st_habits (habits t)) = Some h ->
  let s := mkStore (dict_remove habit_id (st_habits (habits t)))
                   (dict_remove habit_id (st_completions (habits t))) in
  let t' := mkTracker s (Some (dump s)) (stdout t ++ [MsgDeleted (name h)]) in
  delete_habit habit_id t = (Ok tt, t') /\
  dict_mem habit_id (st_habits s) = false /\
  dict_mem habit_id (st_completions s) = false /\
  (forall k, k <> habit_id ->
     dict_get k (st_habits s) = dict_get k (st_habits (habits t)) /\
     dict_get k (st_completions s) = dict_get k (st_completions (habits t))) /\
  delete_habit habit_id t' = (Ok tt, printed t' [MsgNotFound]).
Proof.
  intros (Hdh & Hdc & Ha) Hh s t'.
  assert (dict_mem habit_id (st_habits (habits t)) = true) as Hm
      by (unfold dict_mem; now rewrite Hh).
  assert (dict_mem habit_id (st_completions (habits t)) = true) as Hmc
      by (now rewrite <- (Ha habit_id)).
  assert (dict_mem habit_id (st_habits s) = false) as Hgone
      by (now apply dict_mem_remove_eq).
  split.
  { unfold delete_habit, bind, get_habits, lift, dict_getitem, dict_del,
      put_habits, get_completions, put_completions, save_data, print.
    rewrite Hm, Hh. cbn. rewrite Hmc. reflexivity. }
  split; [exact Hgone|].
  split; [now apply dict_mem_remove_eq|].
  split; [intros k Hk; split; now apply dict_get_remove_neq|].
  now apply delete_habit_unknown.
Qed.

Lemma delete_existing_habit_witness :
  delete_habit (KStr "1") (tracker_with ["2024-03-10"])
  = (Ok tt,
     mkTracker (mkStore [] [])
               (Some (dump (mkStore [] []))) [MsgDeleted "Read"]).
Proof.
  apply (@delete_existing_habit (KStr "1") (tracker_with ["2024-03-10"])
           reading).
  - repeat split; try (repeat constructor; simpl; tauto).
    intros k. unfold dict_mem. simpl. destruct (key_eqb k (KStr "1")); reflexivity.
  - reflexivity.
Defined.

(** X6.  [delete_habit] for a habit that has no completion list: the habit
    is removed from the collection, then [del] on the completion log raises
    [KeyError]; the file is not rewritten and nothing is printed. *)
Theorem delete_habit_without_log_raises
    (habit_id : Key) (t : HabitTracker) (h : Habit) :
  dict_get habit_id (st_habits (habits t)) = Some h ->
  dict_mem habit_id (st_completions (habits t)) = false ->
  delete_habit habit_id t
  = (Raise KeyError,
     mkTracker (mkStore (dict_remove habit_id (st_habits (habits t)))
                        (st_completions (habits t)))
               (data_file t) (stdout t)).
Proof.
  intros Hh Hc.
  unfold delete_habit, bind, get_habits, lift, dict_getitem, dict_del,
    put_habits, get_completions, dict_mem.
  rewrite Hh. cbn. unfold dict_mem in Hc.
  destruct (dict_get habit_id (st_completions (habits t))); [discriminate|].
  reflexivity.
Qed.

Lemma delete_habit_without_log_raises_witness :
  delete_habit (KStr "1") habit_without_log
  = (Raise KeyError, mkTracker (mkStore [] []) None []).
Proof.
  apply (@delete_habit_without_log_raises (KStr "1") habit_without_log reading).
  - reflexivity.
  - reflexivity.
Defined.

(* --------------------------------------------------------------------- *)
(** ** The file *)

Section Reload.

Lemma load_dump_dict_texts (V : Type) (f : json -> option V) (g : V -> json)
    (d : dict Key V) :
  (forall v, f (g v) = Some v) ->
  distinct_texts d ->
  load_dict f (dump_dict g d)
  = Some (map (fun kv => (KStr (dump_key (fst kv)), snd kv)) d).
Proof.
  intros Hfg Hnd. unfold load_dict, dump_dict.
  erewrite (@traverse_map _ _ _ _ _ (fun kv => (dump_key (fst kv), snd kv))).
  - rewrite dict_of_members_distinct.
    + now rewrite map_map.
    + rewrite map_map. cbn [fst]. rewrite <- (map_map fst dump_key).
      exact Hnd.
  - intros kv _. cbn [fst snd]. now rewrite Hfg.
Qed.

Lemma load_dump_texts s :
  distinct_texts (st_habits s) -> distinct_texts (st_completions s) ->
  load (dump s) = Some (as_loaded s).
Proof.
  intros Hh Hc. destruct s as [hs cs].
  cbn [st_habits st_completions] in *. unfold load, dump, as_loaded.
  cbn [st_habits st_completions].
  destruct (load_two_fields (load_dict load_habit) (load_dict load_dates)
              (dump_dict dump_habit hs) (dump_dict dump_dates cs)) as [-> ->].
  rewrite (load_dump_dict_texts load_dump_habit Hh).
  rewrite (load_dump_dict_texts load_dump_dates Hc). reflexivity.
Qed.

Lemma renamed_lookup (V : Type) (d : dict Key V) k v :
  distinct_texts d -> dict_get k d = Some v ->
  dict_get (KStr (dump_key k))
           (map (fun kv => (KStr (dump_key (fst kv)), snd kv)) d)
  = Some v.
Proof.
  intros Hnd Hget. apply In_dict_get.
  - unfold distinct_keys, dict_keys. rewrite map_map. cbn [fst].
    rewrite <- (map_map (fun kv => dump_key (fst kv)) KStr).
    apply NoDup_map_NoDup_ForallPairs.
    + intros a b _ _ [= Heq]. exact Heq.
    + unfold distinct_texts, dict_keys in Hnd. now rewrite map_map in Hnd.
  - apply dict_get_In in Hget.
    apply in_map_iff. exists (k, v). auto.
Qed.

End Reload.

(** X7.  A store whose identifiers are all texts and occur once each is read
    back from the file exactly as it was written. *)
Theorem text_store_round_trip (t : HabitTracker) :
  loaded_shape (habits t) ->
  bind save_data (fun _ => load_data) t
  = (Ok (habits t), mkTracker (habits t) (Some (dump (habits t))) (stdout t)).
Proof. intros Hs. exact (save_then_load Hs). Qed.

Lemma text_store_round_trip_witness :
  fst (bind save_data (fun _ => load_data) two_habits) = Ok (habits two_habits).
Proof.
  rewrite (@text_store_round_trip two_habits); [reflexivity|].
  repeat split;
    try (repeat constructor; simpl; eauto);
    try (simpl; intuition discriminate).
Defined.

(** X8.  Starting the program on the file written from a store in which no
    two identifiers have the same text gives the same habits and completion
    lists in the same order, each under the text of its identifier; a habit
    stored under [k] is found under the text of [k]. *)
Theorem restart_renames_ids (t : HabitTracker) :
  distinct_texts (st_habits (habits t)) ->
  distinct_texts (st_completions (habits t)) ->
  init (data_file (after save_data t))
  = Ok (mkTracker (as_loaded (habits t)) (Some (dump (habits t))) []) /\
  (forall k h, dict_get k (st_habits (habits t)) = Some h ->
     dict_get (KStr (dump_key k)) (st_habits (as_loaded (habits t))) = Some h) /\
  (forall k log, dict_get k (st_completions (habits t)) = Some log ->
     dict_get (KStr (dump_key k)) (st_completions (as_loaded (habits t)))
     = Some log).
Proof.
  intros Hh Hc. split.
  - unfold init, load_data, after, save_data. cbn [snd data_file stdout habits].
    now rewrite (load_dump_texts Hh Hc).
  - split; intros k v Hget; now apply renamed_lookup.
Qed.

Lemma restart_renames_ids_witness :
  init (data_file (after save_data one_added))
  = Ok (mkTracker
          (mkStore
             [(KStr "1",
               mkHabit "Run" "Health" "daily" None "2024-03-10T10:00:00" 0 0)]
             [(KStr "1", [])])
          (data_file one_added) []).
Proof.
  destruct (@restart_renames_ids one_added) as [Heq _].
  - repeat constructor. simpl. tauto.
  - repeat constructor. simpl. tauto.
  - rewrite Heq. reflexivity.
Defined.

(* --------------------------------------------------------------------- *)
(** ** Identifiers without deletions *)

Section Sequential.

Lemma int_ids_S n : int_ids (S n) = (int_ids n ++ [KInt (Z.of_nat (S n))])%list.
Proof. unfold int_ids. now rewrite seq_S, map_app. Qed.

Lemma int_ids_fresh n : ~ In (KInt (Z.of_nat (S n))) (int_ids n).
Proof.
  unfold int_ids. intros Hin. apply in_map_iff in Hin.
  destruct Hin as (i & [= Heq] & Hi). apply in_seq in Hi. lia.
Qed.

Lemma int_ids_NoDup n : NoDup (int_ids n).
Proof.
  unfold int_ids. apply NoDup_map_NoDup_ForallPairs; [|apply seq_NoDup].
  intros a b _ _ [= Heq]. lia.
Qed.

Lemma add_habit_sequential now name category frequency goal t :
  sequential (habits t) ->
  sequential (habits (after (add_habit now name category frequency goal) t)) /\
  List.length
    (st_habits (habits (after (add_habit now name category frequency goal) t)))
  = S (List.length (st_habits (habits t))).
Proof.
  intros [Hh Hc].
  set (n := List.length (st_habits (habits t))) in *.
  assert (KInt (len (st_habits (habits t)) + 1) = KInt (Z.of_nat (S n))) as Hid
      by (unfold len; fold n; f_equal; lia).
  pose proof (@add_habit_fresh now name category frequency goal t) as Hs.
  cbn zeta in Hs. rewrite Hid in Hs.
  rewrite Hs.
  - unfold sequential. cbn [st_habits st_completions].
    unfold dict_keys in *. rewrite !map_app, !length_app. cbn [map fst List.length].
    fold n. replace (n + 1)%nat with (S n) by lia.
    rewrite int_ids_S, Hh, Hc. auto.
  - apply dict_mem_absent. unfold dict_keys in *. rewrite Hh.
    apply int_ids_fresh.
  - apply dict_mem_absent. unfold dict_keys in *. rewrite Hc.
    apply int_ids_fresh.
Qed.

End Sequential.

(** X9.  As long as nothing is deleted, the identifiers never collide:
    from a store keyed by [1 .. n], any number of [add_habit] calls leaves a
    store keyed by [1 .. n + m], one habit and one completion list per call,
    no identifier twice. *)
Theorem add_habit_without_deletion (ops : list operation) (t : HabitTracker) :
  sequential (habits t) ->
  Forall is_add ops ->
  sequential (habits (apply_operations t ops)) /\
  List.length (st_habits (habits (apply_operations t ops)))
  = (List.length (st_habits (habits t)) + List.length ops)%nat /\
  distinct_keys (st_habits (habits (apply_operations t ops))) /\
  distinct_keys (st_completions (habits (apply_operations t ops))).
Proof.
  intros Hseq Hadd.
  assert (sequential (habits (apply_operations t ops)) /\
          List.length (st_habits (habits (apply_operations t ops)))
          = (List.length (st_habits (habits t)) + List.length ops)%nat)
    as [Hs Hl].
  { revert t Hseq. induction Hadd as [|o ops Ho _ IH]; intros t Hseq.
    - cbn. split; [exact Hseq|lia].
    - destruct o as [now name category frequency goal| |]; try contradiction.
      cbn [apply_operations fold_left apply_operation].
      destruct (@add_habit_sequential now name category frequency goal t Hseq)
        as [Hseq' Hlen].
      destruct (IH _ Hseq') as [Hs Hl]. split; [exact Hs|].
      unfold apply_operations in Hl. rewrite Hl, Hlen. cbn [List.length]. lia. }
  split; [exact Hs|]. split; [exact Hl|].
  destruct Hs as [Hh Hc]. unfold distinct_keys. rewrite Hh, Hc.
  split; apply int_ids_NoDup.
Qed.

Lemma add_habit_without_deletion_witness :
  dict_keys (st_habits (habits first_session)) = [KInt 1; KInt 2; KInt 3].
Proof.
  destruct (@add_habit_without_deletion
              [ OpAdd sunday "Run" "Health" "daily" (Some "");
                OpAdd sunday "Read" "Learning" "daily" (Some "");
                OpAdd sunday "Save" "Finance" "daily" (Some "") ] fresh)
    as ([Hh _] & Hl & _).
  - split; reflexivity.
  - repeat constructor.
  - exact Hh.
Defined.

(* --------------------------------------------------------------------- *)
(** ** The streak engine *)

Section MoreStreaks.

Lemma insert_sorted_perm x l : Permutation (insert_sorted x l) (x :: l).
Proof.
  induction l as [|y l IH]; simpl; [reflexivity|].
  destruct (String.leb x y); [reflexivity|].
  rewrite IH. apply perm_swap.
Qed.

Lemma sorted_perm l : Permutation (sorted l) l.
Proof.
  induction l as [|x l IH]; simpl; [reflexivity|].
  rewrite insert_sorted_perm. now constructor.
Qed.

Lemma sort_dates_length l : List.length (sort_dates l) = List.length l.
Proof. apply Permutation_length, sort_dates_perm. Qed.

Lemma current_walk_range r :
  forall prev acc,
    acc <= current_walk r prev acc <= acc + Z.of_nat (List.length r).
Proof.
  induction r as [|x r IH]; intros prev acc; cbn [current_walk List.length].
  - lia.
  - destruct ((x =? prev) || (x =? prev - 1)).
    + specialize (IH x (acc + 1)). lia.
    + lia.
Qed.

Lemma longest_scan_range rest :
  forall previous longest temp,
    1 <= temp ->
    1 <= snd (longest_scan previous rest longest temp) /\
    Z.max (fst (longest_scan previous rest longest temp))
          (snd (longest_scan previous rest longest temp))
    <= Z.max longest (temp + Z.of_nat (List.length rest)).
Proof.
  induction rest as [|c rest IH]; intros previous longest temp Ht;
    cbn [longest_scan List.length fst snd].
  - lia.
  - destruct (c - previous =? 1).
    + destruct (IH c longest (temp + 1) ltac:(lia)) as [H1 H2]. lia.
    + destruct (IH c (Z.max longest temp) 1 ltac:(lia)) as [H1 H2]. lia.
Qed.

Lemma streaks_of_range l today :
  0 <= fst (streaks_of l today) <= Z.of_nat (List.length l) /\
  snd (streaks_of l today) <= Z.of_nat (List.length l) /\
  (l <> [] -> 1 <= snd (streaks_of l today)).
Proof.
  destruct l as [|first rest]; [cbn; repeat split; try lia; congruence|].
  unfold streaks_of. cbn [fst snd].
  pose proof (current_walk_range (rev (first :: rest)) today 0) as Hc.
  rewrite length_rev in Hc.
  pose proof (@longest_scan_range rest first 0 1 ltac:(lia)) as [H1 H2].
  destruct (longest_scan first rest 0 1) as [longest temp].
  cbn [fst snd List.length] in *. repeat split; lia.
Qed.

(** The newest date of a sorted list is its maximum. *)
Lemma sort_dates_newest l m :
  In m l -> (forall d, In d l -> d <= m) ->
  exists older, rev (sort_dates l) = m :: older.
Proof.
  intros Hin Hmax.
  pose proof (sort_dates_sorted l) as Hs.
  pose proof (sort_dates_perm l) as Hp.
  destruct (rev (sort_dates l)) as [|x older] eqn:Er.
  - apply (f_equal (@rev _)) in Er. rewrite rev_involutive in Er.
    rewrite Er in Hp. apply Permutation_nil in Hp. now subst.
  - assert (sort_dates l = rev older ++ [x])%list as El
        by (rewrite <- (rev_involutive (sort_dates l)), Er; reflexivity).
    assert (In x l) as Hx.
    { apply (Permutation_in _ Hp). rewrite El. apply in_or_app. right.
      now left. }
    assert (In m (sort_dates l)) as Hm
        by (apply (Permutation_in _ (Permutation_sym Hp)); exact Hin).
    rewrite El in Hs, Hm. pose proof (sorted_snoc_max Hs) as Hle.
    rewrite Forall_forall in Hle.
    specialize (Hle _ Hm). specialize (Hmax _ Hx).
    exists older. f_equal. lia.
Qed.

Lemma streaks_of_newest l today m :
  In m l -> (forall d, In d l -> d <= m) ->
  (m = today \/ m = today - 1 -> 1 <= fst (streaks_of (sort_dates l) today)) /\
  (m <> today -> m <> today - 1 -> fst (streaks_of (sort_dates l) today) = 0).
Proof.
  intros Hin Hmax.
  destruct (sort_dates_newest Hin Hmax) as [older Hr].
  destruct (sort_dates l) as [|first rest] eqn:E; [discriminate|].
  unfold streaks_of. cbn [fst]. rewrite Hr. cbn [current_walk].
  split.
  - intros Hm.
    replace ((m =? today) || (m =? today - 1)) with true
      by (symmetry; apply orb_true_iff; rewrite !Z.eqb_eq; exact Hm).
    pose proof (current_walk_range older m (0 + 1)). lia.
  - intros H1 H2.
    destruct (Z.eqb_spec m today); [contradiction|].
    destruct (Z.eqb_spec m (today - 1)); [contradiction|]. reflexivity.
Qed.

(** *** A run of consecutive days *)

Lemma countdown_length x n : List.length (countdown x n) = n.
Proof. revert x. induction n as [|n IH]; intros x; cbn; [|rewrite IH]; auto. Qed.

Lemma countdown_bound x n d : In d (countdown x n) -> x - Z.of_nat n < d <= x.
Proof.
  revert x. induction n as [|n IH]; intros x; cbn [countdown In]; [tauto|].
  intros [<-|Hin]; [lia|]. apply IH in Hin. lia.
Qed.

Lemma countdown_sorted x n : StronglySorted Z.le (rev (countdown x n)).
Proof.
  revert x. induction n as [|n IH]; intros x; cbn [countdown rev].
  - constructor.
  - specialize (IH (x - 1)).
    assert (Forall (fun d => d <= x) (rev (countdown (x - 1) n))) as Hle.
    { apply Forall_forall. intros d Hd. apply in_rev in Hd.
      apply countdown_bound in Hd. lia. }
    revert IH Hle. generalize (rev (countdown (x - 1) n)). intros l.
    induction l as [|a l IHl]; intros Hs Hle; cbn [app].
    + repeat constructor.
    + inversion Hs as [|? ? Hs' Ha]; subst.
      inversion Hle as [|? ? Hax Hle']; subst.
      constructor; [now apply IHl|].
      apply Forall_app. split; [exact Ha|]. repeat constructor. exact Hax.
Qed.

Lemma current_walk_countdown n :
  forall x prev acc,
    x = prev \/ x = prev - 1 ->
    current_walk (countdown x n) prev acc = acc + Z.of_nat n.
Proof.
  induction n as [|n IH]; intros x prev acc Hx; cbn [countdown current_walk].
  - lia.
  - replace ((x =? prev) || (x =? prev - 1)) with true
      by (symmetry; apply orb_true_iff; rewrite !Z.eqb_eq; exact Hx).
    rewrite IH by (right; reflexivity). lia.
Qed.

Lemma longest_scan_run n :
  forall x previous longest temp,
    previous = x - Z.of_nat n ->
    longest_scan previous (rev (countdown x n)) longest temp
    = (longest, temp + Z.of_nat n).
Proof.
  induction n as [|n IH]; intros x previous longest temp Hp;
    cbn [countdown rev].
  - cbn. f_equal. lia.
  - rewrite longest_scan_snoc.
    rewrite (IH (x - 1) previous longest temp) by lia.
    assert (last (rev (countdown (x - 1) n)) previous = x - 1) as ->.
    { destruct n as [|n']; [cbn; lia|].
      cbn [countdown rev]. rewrite last_last. reflexivity. }
    replace (x - (x - 1) =? 1) with true by (symmetry; apply Z.eqb_eq; lia).
    f_equal. lia.
Qed.

Lemma streaks_of_run x n today :
  x = today \/ x = today - 1 ->
  streaks_of (rev (countdown x (S n))) today
  = (Z.of_nat (S n), Z.of_nat (S n)).
Proof.
  intros Hx.
  assert (rev (countdown x (S n))
          = (x - Z.of_nat n) :: rev (countdown x n)) as Hl.
  { clear Hx. revert x. induction n as [|n IH]; intros x.
    - cbn. f_equal. lia.
    - change (countdown x (S (S n))) with (x :: countdown (x - 1) (S n)).
      cbn [rev]. rewrite (IH (x - 1)).
      change (countdown x (S n)) with (x :: countdown (x - 1) n).
      cbn [rev app]. f_equal. lia. }
  rewrite Hl. unfold streaks_of. rewrite <- Hl, rev_involutive.
  rewrite current_walk_countdown by exact Hx.
  rewrite (@longest_scan_run n x (x - Z.of_nat n) 0 1) by reflexivity.
  f_equal; lia.
Qed.

End MoreStreaks.

(** X10.  [sorted] on a list of well-formed date texts returns the same
    texts in chronological order: the order of the texts is the order of
    the dates. *)
Theorem sorted_is_chronological (completions : list string) :
  Forall well_formed completions ->
  Permutation (sorted completions) completions /\
  StronglySorted Z.le (map date_of (sorted completions)).
Proof.
  intros Hwf. split; [apply sorted_perm|].
  rewrite (sorted_dates Hwf). apply sort_dates_sorted.
Qed.

Lemma sorted_is_chronological_witness :
  StronglySorted Z.le
    (map date_of (sorted ["2024-03-10"; "2023-12-31"; "2024-01-02"])).
Proof.
  apply (@sorted_is_chronological ["2024-03-10"; "2023-12-31"; "2024-01-02"]).
  repeat constructor; eexists; vm_compute; reflexivity.
Defined.

(** X11.  The streaks do not depend on the order in which the completions
    are stored. *)
Theorem streaks_ignore_storage_order
    (completions completions' : list string) (today : date) :
  Forall well_formed completions ->
  Permutation completions completions' ->
  compute_streaks completions today = compute_streaks completions' today.
Proof.
  intros Hwf Hp.
  assert (Forall well_formed completions') as Hwf'
      by exact (Permutation_Forall Hp Hwf).
  rewrite (compute_streaks_dates today Hwf), (compute_streaks_dates today Hwf').
  do 2 f_equal. apply sort_dates_of_perm; [apply sort_dates_sorted|].
  rewrite sort_dates_perm. now apply Permutation_map.
Qed.

Lemma streaks_ignore_storage_order_witness :
  compute_streaks ["2024-03-09"; "2024-03-10"] (dt_date sunday)
  = compute_streaks ["2024-03-10"; "2024-03-09"] (dt_date sunday).
Proof.
  apply (@streaks_ignore_storage_order
           ["2024-03-09"; "2024-03-10"] ["2024-03-10"; "2024-03-09"]
           (dt_date sunday)).
  - repeat constructor; eexists; vm_compute; reflexivity.
  - apply perm_swap.
Defined.

(** X12.  On well-formed texts, and a today from 0001-01-02 on, the
    computation returns, neither streak is negative or exceeds the number
    of completions, both are 0 for the empty list, and the longest streak
    is at least 1 as soon as there is a completion. *)
Theorem streak_bounds (completions : list string) (today : date) :
  2 <= today <= MAXORDINAL ->
  Forall well_formed completions ->
  exists current longest,
    compute_streaks completions today = Ok (current, longest) /\
    0 <= current <= Z.of_nat (List.length completions) /\
    longest <= Z.of_nat (List.length completions) /\
    (completions = [] -> current = 0 /\ longest = 0) /\
    (completions <> [] -> 1 <= longest).
Proof.
  intros _ Hwf. rewrite (compute_streaks_dates today Hwf).
  pose proof (streaks_of_range (sort_dates (map date_of completions)) today)
    as (Hc & Hl & Hne).
  rewrite sort_dates_length, length_map in Hc, Hl.
  destruct (streaks_of _ _) as [current longest] eqn:E. cbn [fst snd] in *.
  exists current, longest.
  split; [reflexivity|]. split; [lia|]. split; [lia|]. split.
  - intros ->. cbn in E. now inversion E.
  - intros Hcs. apply Hne. intros Hnil.
    apply (f_equal (@List.length _)) in Hnil.
    rewrite sort_dates_length, length_map in Hnil.
    destruct completions; [congruence|discriminate].
Qed.

Lemma streak_bounds_witness :
  exists current longest,
    compute_streaks ["2024-03-10"; "2024-03-08"] (dt_date sunday)
    = Ok (current, longest) /\ 0 <= current <= 2 /\ longest <= 2.
Proof.
  destruct (@streak_bounds ["2024-03-10"; "2024-03-08"] (dt_date sunday))
    as (current & longest & Heq & Hc & Hl & _).
  - unfold MAXORDINAL. simpl. lia.
  - repeat constructor; eexists; vm_compute; reflexivity.
  - exists current, longest. auto.
Defined.

(** X13.  For a today from 0001-01-02 on, the current streak is alive
    exactly when the newest completion is today or yesterday: then it is at
    least 1, otherwise (the newest completion is older, or after today) it
    is 0. *)
Theorem current_streak_alive_iff
    (completions : list string) (today : date) (newest : string) :
  2 <= today <= MAXORDINAL ->
  Forall well_formed completions ->
  In newest completions ->
  (forall s, In s completions -> date_of s <= date_of newest) ->
  exists current longest,
    compute_streaks completions today = Ok (current, longest) /\
    (date_of newest = today \/ date_of newest = today - 1 -> 1 <= current) /\
    (date_of newest <> today -> date_of newest <> today - 1 -> current = 0).
Proof.
  intros _ Hwf Hin Hmax. rewrite (compute_streaks_dates today Hwf).
  destruct (@streaks_of_newest (map date_of completions) today
              (date_of newest)) as [Halive Hdead].
  - now apply in_map.
  - intros d Hd. apply in_map_iff in Hd. destruct Hd as (s & <- & Hs).
    now apply Hmax.
  - destruct (streaks_of _ _) as [current longest]. cbn [fst] in *.
    exists current, longest. auto.
Qed.

Lemma current_streak_alive_iff_witness :
  exists current longest,
    compute_streaks ["2024-03-09"; "2024-03-01"] (dt_date sunday)
    = Ok (current, longest) /\ 1 <= current.
Proof.
  destruct (@current_streak_alive_iff ["2024-03-09"; "2024-03-01"]
              (dt_date sunday) "2024-03-09")
    as (current & longest & Heq & Halive & _).
  - unfold MAXORDINAL. simpl. lia.
  - repeat constructor; eexists; vm_compute; reflexivity.
  - simpl. auto.
  - intros s [<-|[<-|[]]]; vm_compute; discriminate.
  - exists current, longest. split; [exact Heq|].
    apply Halive. right. vm_compute. reflexivity.
Defined.

(** X14.  When the completions are exactly [n] consecutive days that end
    today or yesterday, stored in any order, both streaks are [n]. *)
Theorem consecutive_days_streak
    (completions : list string) (today newest : date) (n : nat) :
  Forall well_formed completions ->
  newest = today \/ newest = today - 1 ->
  Permutation (map date_of completions) (countdown newest (S n)) ->
  compute_streaks completions today = Ok (Z.of_nat (S n), Z.of_nat (S n)).
Proof.
  intros Hwf Hnew Hp. rewrite (compute_streaks_dates today Hwf).
  rewrite (@sort_dates_of_perm _ (rev (countdown newest (S n)))).
  - now rewrite streaks_of_run.
  - apply countdown_sorted.
  - rewrite Hp. apply Permutation_rev.
Qed.

Lemma consecutive_days_streak_witness :
  compute_streaks ["2024-03-08"; "2024-03-09"; "2024-03-07"] (dt_date sunday)
  = Ok (3, 3).
Proof.
  apply (@consecutive_days_streak
           ["2024-03-08"; "2024-03-09"; "2024-03-07"] (dt_date sunday)
           738954 2).
  - repeat constructor; eexists; vm_compute; reflexivity.
  - right. reflexivity.
  - vm_compute. apply perm_swap.
Defined.

(** X15.  After a first completion of the day that succeeds, on a log
    without dates after today, the habit's stored current streak is at
    least 1 and does not exceed its stored longest streak. *)
Theorem marked_habit_has_live_streak
    (now : datetime) (habit_id : Key) (t : HabitTracker)
    (log : list string) (h : Habit) :
  clock_ok now ->
  dict_get habit_id (st_completions (habits t)) = Some log ->
  dict_get habit_id (st_habits (habits t)) = Some h ->
  Forall well_formed log ->
  NoDup log ->
  ~ In (isoformat (dt_date now)) log ->
  (forall s, In s log -> date_of s <= dt_date now) ->
  exists h',
    dict_get habit_id (st_habits (habits (after (mark_complete now habit_id) t)))
    = Some h' /\
    1 <= current_streak h' <= longest_streak h'.
Proof.
  intros Hclock Hlog Hhabit Hwf Hnd Hnin Hpast.
  destruct (mark_complete_succeeds Hclock Hlog Hhabit Hwf Hnin)
    as (current & longest & Hc & Heq).
  exists (with_streaks h current longest). split.
  { unfold after. rewrite Heq. cbn. apply dict_get_set_eq. }
  cbn [with_streaks current_streak longest_streak].
  set (today := isoformat (dt_date now)) in *.
  assert (well_formed today) as Hwt by (now apply today_well_formed).
  assert (date_of today = dt_date now) as Hdt
      by (unfold date_of, today; now rewrite isoformat_fromisoformat).
  assert (Forall well_formed (log ++ [today])) as Hwf'
      by (apply Forall_app; split; [exact Hwf|repeat constructor; exact Hwt]).
  assert (NoDup (log ++ [today])) as Hnd'.
  { apply NoDup_rev in Hnd. rewrite <- (rev_involutive (_ ++ _)).
    apply NoDup_rev. rewrite rev_unit. constructor; [|exact Hnd].
    now rewrite <- in_rev. }
  pose proof (compute_streaks_dates (dt_date now) Hwf') as Hd.
  rewrite Hc in Hd. injection Hd as Hd.
  pose proof (@streaks_of_le _ (dt_date now) (dates_NoDup Hwf' Hnd')) as Hle.
  destruct (@streaks_of_newest (map date_of (log ++ [today])) (dt_date now)
              (dt_date now)) as [Halive _].
  - rewrite <- Hdt at 1. apply in_map, in_or_app. right. now left.
  - intros d Hd'. apply in_map_iff in Hd'. destruct Hd' as (s & <- & Hs).
    apply in_app_or in Hs. destruct Hs as [Hs|[<-|[]]]; [now apply Hpast|lia].
  - rewrite <- Hd in Hle, Halive. cbn [fst snd] in Hle, Halive.
    split; [apply Halive; now left|exact Hle].
Qed.

Lemma marked_habit_has_live_streak_witness :
  exists h',
    dict_get (KStr "1")
      (st_habits (habits (after (mark_complete sunday (KStr "1"))
                                (tracker_with ["2024-03-09"]))))
    = Some h' /\
    1 <= current_streak h' <= longest_streak h'.
Proof.
  apply (@marked_habit_has_live_streak sunday (KStr "1")
           (tracker_with ["2024-03-09"]) ["2024-03-09"] reading).
  - unfold clock_ok, MAXORDINAL. simpl. lia.
  - reflexivity.
  - reflexivity.
  - repeat constructor. eexists. vm_compute. reflexivity.
  - repeat constructor. simpl. tauto.
  - vm_compute. intros [H|[]]. discriminate H.
  - intros s [<-|[]]. vm_compute. discriminate.
Defined.

(* --------------------------------------------------------------------- *)
(** ** Today's completions *)

(** X16.  [get_today_completions] changes nothing and returns the
    identifiers whose list holds today's text, in the order in which the
    completion log has them; when no identifier occurs twice these are the
    identifiers whose own list holds it. *)
Theorem today_completions_spec (now : datetime) (t : HabitTracker) :
  exists ids,
    get_today_completions now t = (Ok ids, t) /\
    subsequence ids (dict_keys (st_completions (habits t))) /\
    (forall k, In k ids <->
       exists log, In (k, log) (st_completions (habits t)) /\
                   In (isoformat (dt_date now)) log) /\
    (distinct_keys (st_completions (habits t)) ->
     forall k, In k ids <->
       exists log, dict_get k (st_completions (habits t)) = Some log /\
                   In (isoformat (dt_date now)) log).
Proof.
  eexists. split; [reflexivity|].
  split.
  { unfold dict_keys.
    induction (st_completions (habits t)) as [|[k log] cs IH];
      cbn [filter map fst snd]; [constructor|].
    destruct (list_mem (isoformat (dt_date now)) log); cbn [map fst];
      now constructor. }
  assert (forall k,
            In k (map fst (filter (fun kv => list_mem (isoformat (dt_date now))
                                                      (snd kv))
                                  (st_completions (habits t)))) <->
            exists log, In (k, log) (st_completions (habits t)) /\
                        In (isoformat (dt_date now)) log) as Hspec.
  { intros k. rewrite in_map_iff. split.
    - intros ([k' log] & <- & Hin). apply filter_In in Hin.
      destruct Hin as [Hin Hm]. apply list_mem_In in Hm. eauto.
    - intros (log & Hin & Hlog). exists (k, log). split; [reflexivity|].
      apply filter_In. split; [exact Hin|]. now apply list_mem_In. }
  split; [exact Hspec|].
  intros Hd k. rewrite Hspec. split; intros (log & Hin & Hlog); exists log.
  - split; [now apply In_dict_get|exact Hlog].
  - split; [now apply dict_get_In|exact Hlog].
Qed.

(** X17.  A habit whose completion has just been accepted is among today's
    completions. *)
Theorem marked_habit_is_completed_today
    (now : datetime) (habit_id : Key) (t : HabitTracker)
    (log : list string) (h : Habit) :
  clock_ok now ->
  dict_get habit_id (st_completions (habits t)) = Some log ->
  dict_get habit_id (st_habits (habits t)) = Some h ->
  Forall well_formed log ->
  ~ In (isoformat (dt_date now)) log ->
  exists ids,
    fst (get_today_completions now (after (mark_complete now habit_id) t))
    = Ok ids /\ In habit_id ids.
Proof.
  intros Hclock Hlog Hhabit Hwf Hnin.
  destruct (mark_complete_succeeds Hclock Hlog Hhabit Hwf Hnin)
    as (current & longest & _ & Heq).
  unfold after. rewrite Heq. cbn [snd].
  eexists. split; [reflexivity|].
  apply in_map_iff.
  exists (habit_id, (log ++ [isoformat (dt_date now)])%list).
  split; [reflexivity|]. apply filter_In. split.
  - cbn [habits st_completions]. apply dict_get_In, dict_get_set_eq.
  - cbn [snd]. apply list_mem_In, in_or_app. right. now left.
Qed.

Lemma marked_habit_is_completed_today_witness :
  exists ids,
    fst (get_today_completions sunday
           (after (mark_complete sunday (KStr "1")) (tracker_with [])))
    = Ok ids /\ In (KStr "1") ids.
Proof.
  apply (@marked_habit_is_completed_today sunday (KStr "1") (tracker_with [])
           [] reading).
  - unfold clock_ok, MAXORDINAL. simpl. lia.
  - reflexivity.
  - reflexivity.
  - constructor.
  - simpl. tauto.
Defined.

(* --------------------------------------------------------------------- *)
(** ** The weekly report *)

(** X18.  The week of the report is the seven consecutive days that start
    at the Monday on or before today; today is one of them, and when the
    Sunday is still a date of the calendar so are all seven. *)
Theorem week_is_monday_to_sunday (today : date) :
  week_in_calendar today ->
  let week_start := today - weekday today in
  week_dates_of today
  = [ week_start; week_start + 1; week_start + 2; week_start + 3;
      week_start + 4; week_start + 5; week_start + 6 ] /\
  weekday week_start = 0 /\
  week_start <= today <= week_start + 6 /\
  In today (week_dates_of today) /\
  map weekday (week_dates_of today) = [0; 1; 2; 3; 4; 5; 6] /\
  Forall (fun d => 1 <= d <= MAXORDINAL) (week_dates_of today).
Proof.
  intros [Hlo Hhi] week_start.
  assert (weekday week_start = 0 /\ 0 <= weekday today <= 6) as [Hw Hr]
      by (subst week_start; unfold weekday; Z.div_mod_to_equations; lia).
  assert (week_dates_of today
          = [ week_start; week_start + 1; week_start + 2; week_start + 3;
              week_start + 4; week_start + 5; week_start + 6 ]) as Hweek.
  { unfold week_dates_of. fold week_start. cbn [map]. f_equal. lia. }
  split; [exact Hweek|]. split; [exact Hw|].
  split; [subst week_start; lia|]. split.
  - rewrite Hweek. cbn [In].
    assert (today = week_start + weekday today) as Ht
        by (subst week_start; lia).
    assert (weekday today = 0 \/ weekday today = 1 \/ weekday today = 2 \/
            weekday today = 3 \/ weekday today = 4 \/ weekday today = 5 \/
            weekday today = 6) as Hc by lia.
    repeat (destruct Hc as [Hc|Hc]; [rewrite Hc in Ht; lia|]).
    rewrite Hc in Ht. lia.
  - split.
    + rewrite Hweek. cbn [map]. unfold weekday in *.
      repeat f_equal; Z.div_mod_to_equations; lia.
    + assert (1 <= week_start) as Hs
          by (subst week_start; unfold weekday in *;
              Z.div_mod_to_equations; lia).
      rewrite Hweek. fold week_start in Hhi.
      repeat constructor; lia.
Qed.

Lemma week_is_monday_to_sunday_witness :
  map isoformat (week_dates_of (dt_date sunday))
  = [ "2024-03-04"; "2024-03-05"; "2024-03-06"; "2024-03-07";
      "2024-03-08"; "2024-03-09"; "2024-03-10" ] /\
  Forall (fun d => 1 <= d <= MAXORDINAL) (week_dates_of (dt_date sunday)).
Proof.
  split; [reflexivity|].
  apply (@week_is_monday_to_sunday (dt_date sunday)).
  unfold week_in_calendar, weekday, MAXORDINAL. simpl. lia.
Defined.

Section WeeklyCounts.

Lemma for_each_prints_map (A : Type) (l : list A) (body : A -> M unit)
    (line : A -> Msg) :
  (forall x t, body x t = (Ok tt, printed t [line x])) ->
  forall t, for_each l body t = (Ok tt, printed t (map line l)).
Proof.
  intros Hbody. induction l as [|x l IH]; intros t; cbn [for_each map].
  - cbn. now rewrite printed_nil.
  - unfold bind. rewrite Hbody, IH, printed_app. reflexivity.
Qed.

Lemma fold_count_range (A : Type) (p : A -> bool) (l : list A) :
  forall n,
    n <= fold_left (fun n x => if p x then n + 1 else n) l n
      <= n + Z.of_nat (List.length l).
Proof.
  induction l as [|x l IH]; intros n; cbn [fold_left List.length]; [lia|].
  destruct (p x).
  - specialize (IH (n + 1)). lia.
  - specialize (IH n). lia.
Qed.

Lemma day_completions_range cs day :
  0 <= day_completions_of cs day <= len cs.
Proof.
  unfold day_completions_of, len, dict_values.
  pose proof (@fold_count_range _ (list_mem (isoformat day)) (map snd cs) 0)
    as Hr.
  rewrite length_map in Hr. exact Hr.
Qed.

Lemma store_inv_len s : store_inv s -> len (st_habits s) = len (st_completions s).
Proof.
  intros (Hdh & Hdc & Ha). unfold len. f_equal.
  rewrite <- (length_map fst (st_habits s)).
  rewrite <- (length_map fst (st_completions s)).
  apply Permutation_length, NoDup_Permutation; try assumption.
  now apply keys_agree_iff.
Qed.

Lemma sum_fold_range l :
  forall acc lo hi,
    Forall (fun c => lo <= c <= hi) l -> 0 <= lo ->
    acc <= fold_left Z.add l acc <= acc + Z.of_nat (List.length l) * hi.
Proof.
  induction l as [|c l IH]; intros acc lo hi Hl Hlo;
    cbn [fold_left List.length]; [lia|].
  inversion Hl as [|? ? Hc Hl']; subst.
  specialize (IH (acc + c) lo hi Hl' Hlo). nia.
Qed.

Lemma view_weekly_report_lines now t :
  let total := len (st_habits (habits t)) in
  let counts := map (day_completions_of (st_completions (habits t)))
                    (week_dates_of (dt_date now)) in
  view_weekly_report now t
  = (Ok tt,
     printed t
       (map (fun dc => day_line total (fst dc) (snd dc))
            (combine (week_dates_of (dt_date now)) counts)
        ++ [MsgWeek (spec_percentage (sum counts) (total * 7))
                    (sum counts) (total * 7)])).
Proof.
  intros total counts. unfold view_weekly_report.
  unfold bind at 1, get_habits at 1. unfold bind at 1, get_completions at 1.
  fold total. fold counts.
  unfold bind at 1.
  rewrite (@for_each_prints_map _ _ _
             (fun dc => day_line total (fst dc) (snd dc))).
  - unfold bind, lift.
    rewrite percentage_of_spec
      by (pose proof (@len_nonneg _ _ (st_habits (habits t))); subst total; lia).
    unfold print. cbn [habits data_file stdout printed].
    unfold printed. cbn [habits data_file stdout]. now rewrite app_assoc.
  - intros [day completed] t'. unfold bind, lift.
    rewrite percentage_of_spec
      by (subst total; apply len_nonneg).
    reflexivity.
Qed.

End WeeklyCounts.

(** X19.  In a week that lies within the calendar the weekly report only
    prints: seven day lines, Monday to Sunday, each with the number of
    completion lists that hold the day, the number of habits and the
    specified percentage, then the week line with the sum of the seven
    counts out of 7 times the number of habits.  (The bar drawn on a day
    line is left aside here.)  On a store that satisfies the invariant
    every count is between 0 and the number of habits, and the sum at most
    7 times that number. *)
Theorem weekly_report_lines (now : datetime) (t : HabitTracker) :
  week_in_calendar (dt_date now) ->
  let total := len (st_habits (habits t)) in
  let counts := map (day_completions_of (st_completions (habits t)))
                    (week_dates_of (dt_date now)) in
  (exists days,
     view_weekly_report now t
     = (Ok tt,
        printed t
          (days ++ [MsgWeek (spec_percentage (sum counts) (total * 7))
                            (sum counts) (total * 7)])) /\
     map day_data days
     = map (fun dc => Some (fst dc, snd dc, total,
                            spec_percentage (snd dc) total))
           (combine (week_dates_of (dt_date now)) counts)) /\
  List.length counts = 7%nat /\
  (store_inv (habits t) ->
   Forall (fun c => 0 <= c <= total) counts /\ 0 <= sum counts <= total * 7).
Proof.
  intros _ total counts.
  split.
  { eexists. split; [apply view_weekly_report_lines|].
    rewrite map_map. apply map_ext. intros [day completed]. reflexivity. }
  split; [reflexivity|].
  intros Hinv.
  assert (Forall (fun c => 0 <= c <= total) counts) as Hc.
  { subst counts total. rewrite (store_inv_len Hinv).
    apply Forall_forall. intros c Hin. apply in_map_iff in Hin.
    destruct Hin as (day & <- & _). apply day_completions_range. }
  split; [exact Hc|].
  pose proof (@sum_fold_range counts 0 0 total Hc ltac:(lia)) as Hs.
  unfold sum. assert (List.length counts = 7%nat) as Hl by reflexivity.
  rewrite Hl in Hs. lia.
Qed.

Lemma weekly_report_lines_witness :
  exists days,
    view_weekly_report sunday two_habits
    = (Ok tt,
       printed two_habits (days ++ [MsgWeek (spec_percentage 3 14) 3 14])) /\
    map (option_map (fun d => isoformat (fst (fst (fst d))))) (map day_data days)
    = [ Some "2024-03-04"; Some "2024-03-05"; Some "2024-03-06";
        Some "2024-03-07"; Some "2024-03-08"; Some "2024-03-09";
        Some "2024-03-10" ].
Proof.
  assert (week_in_calendar (dt_date sunday)) as Hweek
      by (unfold week_in_calendar, weekday, MAXORDINAL; simpl; lia).
  pose proof (@weekly_report_lines sunday two_habits Hweek) as Hlines.
  cbv zeta in Hlines. destruct Hlines as ((days & Heq & Hdata) & _ & _).
  exists days. split; [exact Heq|]. rewrite Hdata. reflexivity.
Defined.

(* --------------------------------------------------------------------- *)
(** ** The category report *)

Section CategoryTable.

Lemma table_ok_set c st d :
  1 <= cat_total st -> 0 <= cat_completed st -> table_ok d ->
  table_ok (dict_set c st d).
Proof.
  intros Ht Hc Hd. induction Hd as [|[c' s'] d Hs Hd IH]; simpl.
  - repeat constructor; assumption.
  - destruct (key_eqb c c'); constructor; auto.
Qed.

Lemma table_ok_get c d :
  table_ok d -> dict_mem c d = true ->
  1 <= cat_total (stats_get c d) /\ 0 <= cat_completed (stats_get c d).
Proof.
  unfold stats_get, dict_mem. intros Hd.
  induction Hd as [|[c' s'] d Hs Hd IH]; simpl; [discriminate|].
  destruct (key_eqb c c'); auto.
Qed.

Lemma stats_get_completed c d :
  table_ok d -> 0 <= cat_completed (stats_get c d) /\ 0 <= cat_total (stats_get c d).
Proof.
  unfold stats_get. intros Hd.
  induction Hd as [|[c' s'] d [Hs1 Hs2] Hd IH]; simpl; [lia|].
  destruct (key_eqb c c'); [cbn in *; lia|exact IH].
Qed.

Lemma count_habit_ok d kv :
  table_ok d ->
  table_ok (count_habit d kv) /\
  dict_mem (category (snd kv)) (count_habit d kv) = true /\
  (forall c, dict_mem c d = true -> dict_mem c (count_habit d kv) = true).
Proof.
  intros Hd. unfold count_habit.
  set (c := category (snd kv)).
  destruct (@stats_get_completed c d Hd) as [Hc Ht].
  assert (table_ok
            (dict_set c (mkCatStats (cat_total (stats_get c d) + 1)
                                    (cat_completed (stats_get c d))
                                    (cat_streaks (stats_get c d))) d)) as Hd1
      by (apply table_ok_set; cbn; try lia; exact Hd).
  assert (forall d', stats_get c (dict_set c d' d) = d') as Hget
      by (intros d'; unfold stats_get; now rewrite dict_get_set_eq).
  rewrite Hget. cbn [cat_total cat_completed cat_streaks].
  split; [apply table_ok_set; cbn; try lia; exact Hd1|].
  split.
  - rewrite dict_mem_set, key_eqb_refl. reflexivity.
  - intros c' Hc'. rewrite !dict_mem_set, Hc'. now rewrite !orb_true_r.
Qed.

Lemma fold_count_habit_ok hs :
  forall d, table_ok d ->
    table_ok (fold_left count_habit hs d) /\
    (forall c, dict_mem c d = true ->
               dict_mem c (fold_left count_habit hs d) = true) /\
    (forall kv, In kv hs ->
                dict_mem (category (snd kv)) (fold_left count_habit hs d) = true).
Proof.
  induction hs as [|kv hs IH]; intros d Hd; cbn [fold_left].
  - split; [exact Hd|]. split; [auto|]. intros kv [].
  - destruct (@count_habit_ok d kv Hd) as (Hd' & Hme & Hkeep).
    destruct (IH _ Hd') as (Hok & Hmono & Hall).
    split; [exact Hok|]. split; [auto|].
    intros kv' [<-|Hin]; auto.
Qed.

(** The second loop succeeds when every identifier has a habit, and keeps
    the table well formed when every category of a habit is in it. *)
Lemma count_all_completed_ok hs ids :
  (forall k, In k ids -> dict_mem k hs = true) ->
  forall d,
    table_ok d ->
    (forall kv, In kv hs -> dict_mem (category (snd kv)) d = true) ->
    exists d', count_all_completed hs d ids = Ok d' /\ table_ok d'.
Proof.
  induction ids as [|habit_id ids IH]; intros Hids d Hd Hcat;
    cbn [count_all_completed].
  - eauto.
  - unfold count_completed, dict_getitem.
    pose proof (Hids habit_id (or_introl eq_refl)) as Hm.
    unfold dict_mem in Hm.
    destruct (dict_get habit_id hs) as [h|] eqn:Hh; [|discriminate].
    cbn [rbind].
    pose proof (Hcat _ (dict_get_In Hh)) as Hc. cbn [snd] in Hc.
    destruct (table_ok_get Hd Hc) as [Ht Hcm].
    apply IH.
    + intros k Hk. apply Hids. now right.
    + apply table_ok_set; cbn; try lia. exact Hd.
    + intros kv Hkv. rewrite dict_mem_set, (Hcat _ Hkv). apply orb_true_r.
Qed.

Lemma count_all_completed_missing hs ids k :
  In k ids -> dict_mem k hs = false ->
  forall d, count_all_completed hs d ids = Raise KeyError.
Proof.
  intros Hin Hk. induction ids as [|habit_id ids IH]; [contradiction|].
  intros d. cbn [count_all_completed]. unfold count_completed, dict_getitem.
  destruct (dict_get habit_id hs) as [h|] eqn:Hh; cbn [rbind]; [|reflexivity].
  destruct Hin as [->|Hin].
  - unfold dict_mem in Hk. now rewrite Hh in Hk.
  - now apply IH.
Qed.

Lemma category_line_ok c stats :
  1 <= cat_total stats -> 0 <= cat_completed stats ->
  exists m, category_line c stats = Ok m /\ line_ok m /\ category_ok m.
Proof.
  intros Ht Hc. unfold category_line.
  rewrite percentage_of_spec by lia. rewrite avg_streak_of_spec. cbn.
  eexists. split; [reflexivity|]. split; [reflexivity|]. cbn. auto.
Qed.

End CategoryTable.

(** X20.  When every identifier of the completion log has a habit, the
    category report returns and only prints; every line is about a category
    that has at least one habit and shows the specified percentage. *)
Theorem category_report_returns (now : datetime) (t : HabitTracker) :
  (forall k, dict_mem k (st_completions (habits t)) = true ->
             dict_mem k (st_habits (habits t)) = true) ->
  exists out,
    view_category_stats now t = (Ok tt, printed t out) /\
    Forall category_ok out /\ Forall line_ok out.
Proof.
  intros Hkeys.
  unfold view_category_stats, get_today_completions.
  unfold bind at 1, get_habits at 1.
  unfold bind at 1. unfold bind at 1, get_completions at 1, ret at 1.
  unfold bind at 1, lift at 1.
  set (hs := st_habits (habits t)).
  destruct (@fold_count_habit_ok hs [] ltac:(constructor))
    as (Htab & _ & Hcat).
  match goal with
  | |- context [count_all_completed hs ?d ?ids] =>
      assert (forall k, In k ids -> dict_mem k hs = true) as Hids;
      [|destruct (@count_all_completed_ok hs ids Hids d Htab Hcat)
          as (d' & Hd' & Hok)]
  end.
  - intros k Hk. apply Hkeys. apply in_map_iff in Hk.
    destruct Hk as ([k' log] & <- & Hin). apply filter_In in Hin.
    destruct Hin as [Hin _]. apply dict_mem_keys.
    change k' with (fst (k', log)). now apply in_map.
  - rewrite Hd'.
    match goal with
    | |- context [for_each ?l ?body] =>
        destruct (@for_each_prints _ l body
                    (fun m => category_ok m /\ line_ok m)) with (t := t)
          as (out & Hout & Pout)
    end.
    { intros [c stats] t' Hin. unfold bind, lift. cbn [fst snd].
      unfold table_ok in Hok. rewrite Forall_forall in Hok.
      destruct (Hok _ Hin) as [Ht Hc]. cbn [snd] in Ht, Hc.
      destruct (@category_line_ok c stats Ht Hc) as (m & Hm & Pl & Pc).
      rewrite Hm. exists m. split; [reflexivity|]. split; assumption. }
    exists out. rewrite Hout. split; [reflexivity|].
    split; eapply Forall_impl; try exact Pout; cbn; tauto.
Qed.

Lemma category_report_returns_witness :
  fst (view_category_stats sunday two_habits) = Ok tt.
Proof.
  destruct (@category_report_returns sunday two_habits) as (out & Heq & _).
  - intros k. unfold dict_mem. simpl.
    destruct (key_eqb k (KStr "1")); [reflexivity|].
    destruct (key_eqb k (KStr "2")); [reflexivity|discriminate].
  - rewrite Heq. reflexivity.
Defined.

(** X21.  When a completion list that holds today's date belongs to an
    identifier without a habit, the category report raises [KeyError]
    before it prints anything. *)
Theorem category_report_raises_on_orphan
    (now : datetime) (t : HabitTracker) (k : Key) (log : list string) :
  In (k, log) (st_completions (habits t)) ->
  In (isoformat (dt_date now)) log ->
  dict_mem k (st_habits (habits t)) = false ->
  view_category_stats now t = (Raise KeyError, t).
Proof.
  intros Hin Hlog Hk.
  unfold view_category_stats, get_today_completions.
  unfold bind at 1, get_habits at 1.
  unfold bind at 1. unfold bind at 1, get_completions at 1, ret at 1.
  unfold bind at 1, lift at 1.
  rewrite (@count_all_completed_missing _ _ k); [reflexivity| |exact Hk].
  apply in_map_iff. exists (k, log). split; [reflexivity|].
  apply filter_In. split; [exact Hin|]. now apply list_mem_In.
Qed.

Lemma category_report_raises_on_orphan_witness :
  view_category_stats sunday
    (after (mark_complete sunday (KStr "7")) fresh)
  = (Raise KeyError, after (mark_complete sunday (KStr "7")) fresh).
Proof.
  apply (@category_report_raises_on_orphan sunday
           (after (mark_complete sunday (KStr "7")) fresh)
           (KStr "7") ["2024-03-10"]).
  - vm_compute. left. reflexivity.
  - vm_compute. left. reflexivity.
  - reflexivity.
Defined.

(* --------------------------------------------------------------------- *)
(** ** The habit list and the menu loop *)

Section Menu.

Lemma for_each_prints_filter (A : Type) (l : list A) (body : A -> M unit)
    (keep : A -> bool) (line : A -> Msg) :
  (forall x t, body x t
               = if keep x then (Ok tt, printed t [line x]) else (Ok tt, t)) ->
  forall t,
    for_each l body t = (Ok tt, printed t (map line (filter keep l))).
Proof.
  intros Hbody. induction l as [|x l IH]; intros t;
    cbn [for_each map filter].
  - cbn. now rewrite printed_nil.
  - unfold bind. rewrite Hbody. destruct (keep x).
    + rewrite IH. cbn [map]. now rewrite printed_app.
    + apply IH.
Qed.

Lemma view_habits_lines now filter_category t :
  view_habits now filter_category t
  = (Ok tt,
     printed t
       (map (fun kv =>
               MsgHabit
                 (list_mem (fst kv)
                    (map fst
                       (filter (fun kv => list_mem (isoformat (dt_date now))
                                                   (snd kv))
                               (st_completions (habits t)))))
                 (snd kv))
            (filter (fun kv => shown filter_category (snd kv))
                    (st_habits (habits t))))).
Proof.
  unfold view_habits, get_today_completions.
  unfold bind at 1. unfold bind at 1, get_completions at 1, ret at 1.
  unfold bind at 1, get_habits at 1.
  apply for_each_prints_filter.
  intros [habit_id habit] t'. cbn [fst snd]. unfold shown.
  destruct filter_category as [c|]; [|reflexivity].
  destruct (String.eqb c ""), (String.eqb (category habit) c); reflexivity.
Qed.

Lemma bind_returns (A : Type) (m : M A) (k : A -> M unit) t :
  (exists a, fst (m t) = Ok a) ->
  (forall a t', fst (k a t') = Ok tt) ->
  fst (bind m k t) = Ok tt.
Proof.
  intros [a Ha] Hk. unfold bind. destruct (m t) as [[a'|e] t'].
  - apply Hk.
  - discriminate.
Qed.

Lemma try_except_returns (body : M unit) (m : Msg) t :
  fst (try_except body (print m) t) = Ok tt.
Proof.
  unfold try_except. destruct (body t) as [[[]|e] t']; reflexivity.
Qed.

Lemma run_command_returns now c t :
  is_stats c = false -> fst (run_command now c t) = Ok tt.
Proof.
  intros Hc. destruct c; try discriminate; cbn [run_command].
  - apply bind_returns; [|reflexivity].
    eexists. apply add_habit_returns.
  - apply bind_returns; [rewrite view_habits_lines; exists tt; reflexivity|].
    intros. apply try_except_returns.
  - now rewrite view_habits_lines.
  - destruct (view_weekly_report_prints now t) as (out & -> & _). reflexivity.
  - apply bind_returns; [rewrite view_habits_lines; exists tt; reflexivity|].
    intros. apply try_except_returns.
  - reflexivity.
  - reflexivity.
Qed.

End Menu.

(** X22.  [view_habits] changes nothing and prints one line per habit that
    passes the filter, in the order of the collection, each marked as done
    when its identifier is among today's completions.  No filter and the
    empty filter show every habit. *)
Theorem view_habits_lists_filtered
    (now : datetime) (filter_category : option string) (t : HabitTracker) :
  view_habits now filter_category t
  = (Ok tt,
     printed t
       (map (fun kv =>
               MsgHabit
                 (list_mem (fst kv)
                    (map fst
                       (filter (fun kv => list_mem (isoformat (dt_date now))
                                                   (snd kv))
                               (st_completions (habits t)))))
                 (snd kv))
            (filter (fun kv => shown filter_category (snd kv))
                    (st_habits (habits t))))) /\
  (forall habit, shown None habit = true /\ shown (Some "") habit = true) /\
  (forall c habit, c <> "" ->
     shown (Some c) habit = true <-> category habit = c).
Proof.
  split; [apply view_habits_lines|]. split; [intros; split; reflexivity|].
  intros c habit Hc. unfold shown.
  destruct (String.eqb_spec c ""); [contradiction|]. cbn [orb].
  apply String.eqb_eq.
Qed.

(** X23.  Apart from the category report, no choice of the menu makes the
    loop raise: on any store and for any answers typed, in weeks that lie
    within the calendar, a run without choice 5 returns. *)
Theorem menu_loop_returns
    (script : list (datetime * command)) (t : HabitTracker) :
  Forall (fun turn => week_in_calendar (dt_date (fst turn)) /\
                      is_stats (snd turn) = false) script ->
  fst (run script t) = Ok tt.
Proof.
  intros Hs. revert t.
  induction Hs as [|[now c] script [_ Hc] _ IH]; intros t.
  - reflexivity.
  - cbn [snd] in Hc. cbn [run].
    assert (fst (bind (run_command now c) (fun _ => run script) t) = Ok tt)
      as Hstep.
    { apply bind_returns; [|intros; apply IH].
      exists tt. now apply run_command_returns. }
    destruct c; try exact Hstep. now apply run_command_returns.
Qed.

Lemma menu_loop_returns_witness :
  fst (run [ (sunday, Choice2 "7"); (sunday, Choice6 "9");
             (sunday, Choice1 "Run" "Health" "" ""); (sunday, Choice4);
             (sunday, ChoiceOther) ] fresh) = Ok tt.
Proof.
  apply (@menu_loop_returns
           [ (sunday, Choice2 "7"); (sunday, Choice6 "9");
             (sunday, Choice1 "Run" "Health" "" ""); (sunday, Choice4);
             (sunday, ChoiceOther) ] fresh).
  repeat constructor;
    unfold week_in_calendar, weekday, MAXORDINAL; simpl; lia.
Defined.

(** X24.  Choice 2 with an identifier that neither collection has: the
    habits are listed, [mark_complete] leaves the identifier in the
    completion log with today's date and raises, the loop prints "invalid
    id" and goes on; the file is not rewritten. *)
Theorem menu_mark_unknown_id
    (now : datetime) (habit_id : string) (t : HabitTracker) :
  clock_ok now ->
  habit_id <> "" ->
  dict_mem (KStr habit_id) (st_habits (habits t)) = false ->
  dict_mem (KStr habit_id) (st_completions (habits t)) = false ->
  exists listing,
    view_habits now None t = (Ok tt, printed t listing) /\
    run_command now (Choice2 habit_id) t
    = (Ok tt,
       mkTracker
         (mkStore (st_habits (habits t))
                  (dict_set (KStr habit_id) [isoformat (dt_date now)]
                            (st_completions (habits t))))
         (data_file t)
         (stdout t ++ listing ++ [MsgInvalidId])).
Proof.
  intros Hclock Hid Hh Hc.
  eexists. split; [apply view_habits_lines|].
  cbn [run_command]. unfold bind at 1. rewrite view_habits_lines.
  destruct (String.eqb_spec habit_id ""); [contradiction|].
  unfold try_except, bind.
  rewrite (@mark_complete_unknown now (KStr habit_id) (printed t _) Hclock Hh Hc).
  unfold print, printed. cbn [habits data_file stdout st_habits st_completions].
  now rewrite <- app_assoc.
Qed.

Lemma menu_mark_unknown_id_witness :
  habits (after (run_command sunday (Choice2 "1")) one_added)
  = mkStore (st_habits (habits one_added))
            [(KInt 1, []); (KStr "1", ["2024-03-10"])].
Proof.
  destruct (@menu_mark_unknown_id sunday "1" one_added)
    as (listing & _ & Heq).
  - unfold clock_ok, MAXORDINAL. simpl. lia.
  - discriminate.
  - reflexivity.
  - reflexivity.
  - unfold after. rewrite Heq. reflexivity.
Defined.

(* --------------------------------------------------------------------- *)
(** ** Malformed dates *)

Section Malformed.





End Malformed.



(* --------------------------------------------------------------------- *)
(** ** The progress bar and the category counts *)

Section Bar.

Lemma bar_fraction_range completed total :
  0 <= completed <= total ->
  (0 <= spec_percentage completed total / 20)%Q /\
  (spec_percentage completed total / 20 <= 5)%Q.
Proof.
  intros Hc. unfold spec_percentage.
  destruct (Z.eqb_spec total 0) as [->|Hne].
  - split; unfold Qle; cbn; lia.
  - destruct total as [|p|p]; try lia.
    unfold Qle, Qdiv, Qmult, Qinv, inject_Z. cbn [Qnum Qden].
    split; lia.
Qed.

Lemma bar_range completed total :
  0 <= completed <= total ->
  0 <= int_of_Q (spec_percentage completed total / 20) <= 5.
Proof.
  intros Hc. destruct (bar_fraction_range Hc) as [H0 H5].
  unfold int_of_Q.
  replace (Qle_bool 0 (spec_percentage completed total / 20)) with true
    by (symmetry; now apply Qle_bool_iff).
  apply Qfloor_resp_le in H0. apply Qfloor_resp_le in H5.
  change (Qfloor 0) with 0 in H0. change (Qfloor 5) with 5 in H5. lia.
Qed.

End Bar.


(** X26.  On a store that satisfies the invariant, in a week that lies
    within the calendar, the filled part of every progress bar of the
    weekly report, [int(percentage / 20)], is between 0 and 5, so neither
    part of a bar has a negative length. *)
Theorem weekly_bars_in_range (now : datetime) (t : HabitTracker) :
  week_in_calendar (dt_date now) ->
  store_inv (habits t) ->
  exists out,
    view_weekly_report now t = (Ok tt, printed t out) /\
    Forall bar_ok out.
Proof.
  intros _ Hinv. eexists. split; [apply view_weekly_report_lines|].
  apply Forall_app. split; [|repeat constructor].
  apply Forall_forall. intros m Hm. apply in_map_iff in Hm.
  destruct Hm as ([day c] & <- & Hin). cbn [fst snd day_line bar_ok].
  apply in_combine_r in Hin. apply in_map_iff in Hin.
  destruct Hin as (day' & <- & _).
  apply bar_range. rewrite (store_inv_len Hinv).
  apply day_completions_range.
Qed.

Lemma weekly_bars_in_range_witness :
  exists out,
    view_weekly_report sunday two_habits = (Ok tt, printed two_habits out) /\
    Forall bar_ok out.
Proof.
  apply (@weekly_bars_in_range sunday two_habits);
    [unfold week_in_calendar, weekday, MAXORDINAL; simpl; lia|].
  repeat split; try (repeat constructor; simpl; intuition discriminate).
  intros k. unfold dict_mem. simpl.
  destruct (key_eqb k (KStr "1")); [reflexivity|].
  destruct (key_eqb k (KStr "2")); reflexivity.
Defined.

Section CategoryCounts.

Lemma sum_cons x l : sum (x :: l) = x + sum l.
Proof.
  unfold sum. cbn [fold_left].
  enough (forall l a b, fold_left Z.add l (a + b) = a + fold_left Z.add l b)
    as Hgen by (rewrite <- Hgen; f_equal; lia).
  clear. induction l as [|y l IH]; intros a b; cbn [fold_left]; [reflexivity|].
  rewrite <- IH. f_equal. lia.
Qed.

Variable f : CatStats -> Z.
Hypothesis f_default : f default_stats = 0.

Lemma table_sum_set c st d :
  table_sum f (dict_set c st d) = table_sum f d - f (stats_get c d) + f st.
Proof.
  unfold table_sum, stats_get.
  induction d as [|[c' s'] d IH]; cbn [dict_set dict_get map].
  - rewrite sum_cons, f_default. cbn. lia.
  - destruct (key_eqb c c'); cbn [map snd]; rewrite !sum_cons; [lia|].
    rewrite IH. lia.
Qed.

End CategoryCounts.

Section CategoryLines.

Lemma count_habit_sums d kv :
  table_sum cat_total (count_habit d kv) = table_sum cat_total d + 1 /\
  table_sum cat_completed (count_habit d kv) = table_sum cat_completed d.
Proof.
  unfold count_habit. set (c := category (snd kv)).
  assert (forall d', stats_get c (dict_set c d' d) = d') as Hget
      by (intros d'; unfold stats_get; now rewrite dict_get_set_eq).
  rewrite Hget. cbn [cat_total cat_completed cat_streaks].
  split; rewrite !table_sum_set by reflexivity; rewrite Hget; cbn; lia.
Qed.

Lemma fold_count_habit_sums hs :
  forall d,
    table_sum cat_total (fold_left count_habit hs d)
    = table_sum cat_total d + Z.of_nat (List.length hs) /\
    table_sum cat_completed (fold_left count_habit hs d)
    = table_sum cat_completed d.
Proof.
  induction hs as [|kv hs IH]; intros d; cbn [fold_left List.length].
  - split; lia.
  - destruct (IH (count_habit d kv)) as [Ht Hc].
    destruct (count_habit_sums d kv) as [Ht' Hc']. split; lia.
Qed.

Lemma count_all_completed_sums hs ids :
  forall d d',
    count_all_completed hs d ids = Ok d' ->
    table_sum cat_total d' = table_sum cat_total d /\
    table_sum cat_completed d'
    = table_sum cat_completed d + Z.of_nat (List.length ids).
Proof.
  induction ids as [|habit_id ids IH]; intros d d';
    cbn [count_all_completed List.length].
  - intros [= <-]. split; lia.
  - unfold count_completed, dict_getitem.
    destruct (dict_get habit_id hs) as [h|]; cbn [rbind]; [|discriminate].
    intros Hok. destruct (IH _ _ Hok) as [Ht Hc].
    rewrite !table_sum_set in Ht, Hc by reflexivity.
    cbn [cat_total cat_completed] in Ht, Hc. split; lia.
Qed.

Lemma for_each_prints_map_in (A : Type) (l : list A) (body : A -> M unit)
    (line : A -> Msg) :
  (forall x t, In x l -> body x t = (Ok tt, printed t [line x])) ->
  forall t, for_each l body t = (Ok tt, printed t (map line l)).
Proof.
  induction l as [|x l IH]; intros Hbody t; cbn [for_each map].
  - cbn. now rewrite printed_nil.
  - unfold bind. rewrite Hbody by now left.
    rewrite IH by (intros; apply Hbody; now right).
    now rewrite printed_app.
Qed.

Lemma category_line_msg c stats :
  0 <= cat_total stats -> category_line c stats = Ok (category_msg c stats).
Proof.
  intros Ht. unfold category_line, category_msg.
  now rewrite percentage_of_spec, avg_streak_of_spec.
Qed.

Lemma lines_of_table d :
  lines_total (map (fun cs => category_msg (fst cs) (snd cs)) d)
  = table_sum cat_total d /\
  lines_completed (map (fun cs => category_msg (fst cs) (snd cs)) d)
  = table_sum cat_completed d.
Proof.
  unfold lines_total, lines_completed, table_sum. rewrite !map_map.
  split; reflexivity.
Qed.

End CategoryLines.

(** X27.  When every identifier of the completion log has a habit, the
    lines of the category report are the entries of the table in the order
    in which the categories first occur; their totals add up to the number
    of habits and their completed counts to the number of today's
    completions. *)
Theorem category_report_counts (now : datetime) (t : HabitTracker) :
  (forall k, dict_mem k (st_completions (habits t)) = true ->
             dict_mem k (st_habits (habits t)) = true) ->
  exists ids out,
    fst (get_today_completions now t) = Ok ids /\
    view_category_stats now t = (Ok tt, printed t out) /\
    lines_total out = len (st_habits (habits t)) /\
    lines_completed out = Z.of_nat (List.length ids).
Proof.
  intros Hkeys.
  unfold view_category_stats, get_today_completions.
  unfold bind at 2, get_habits at 1.
  unfold bind at 2. unfold bind at 2, get_completions at 2, ret at 2.
  unfold bind at 2, lift at 1.
  set (hs := st_habits (habits t)).
  eexists. 
  destruct (@fold_count_habit_ok hs [] ltac:(constructor))
    as (Htab & _ & Hcat).
  match goal with
  | |- context [count_all_completed hs ?d ?ids] =>
      assert (forall k, In k ids -> dict_mem k hs = true) as Hids;
      [|destruct (@count_all_completed_ok hs ids Hids d Htab Hcat)
          as (d' & Hd' & Hok);
        pose proof (count_all_completed_sums Hd') as [Ht Hc]]
  end.
  - intros k Hk. apply Hkeys. apply in_map_iff in Hk.
    destruct Hk as ([k' log] & <- & Hin). apply filter_In in Hin.
    destruct Hin as [Hin _]. apply dict_mem_keys.
    change k' with (fst (k', log)). now apply in_map.
  - exists (map (fun cs => category_msg (fst cs) (snd cs)) d').
    split; [reflexivity|]. rewrite Hd'.
    split.
    + apply for_each_prints_map_in.
      intros [c stats] t' Hin. unfold bind, lift. cbn [fst snd].
      unfold table_ok in Hok. rewrite Forall_forall in Hok.
      destruct (Hok _ Hin) as [Htot _]. cbn [snd] in Htot.
      rewrite category_line_msg by lia. reflexivity.
    + destruct (lines_of_table d') as [-> ->].
      destruct (fold_count_habit_sums hs []) as [Ht0 Hc0].
      rewrite Ht, Hc, Ht0, Hc0. unfold len. split; reflexivity.
Qed.

Lemma category_report_counts_witness :
  exists ids out,
    fst (get_today_completions sunday two_habits) = Ok ids /\
    view_category_stats sunday two_habits = (Ok tt, printed two_habits out) /\
    lines_total out = 2 /\
    lines_completed out = Z.of_nat (List.length ids).
Proof.
  apply (@category_report_counts sunday two_habits).
  intros k. unfold dict_mem. simpl.
  destruct (key_eqb k (KStr "1")); [reflexivity|].
  destruct (key_eqb k (KStr "2")); [reflexivity|discriminate].
Defined.
